(** * FLASKEAV: the dynamic entity / attribute / EAV engine

    A shallow embedding of the data engine of the application
    ([models.py], [app.py], [entity_designer/__init__.py]) and the
    verification of its specification.

    The relational store is a record of tables, each table a list of rows
    in row order; a query is a [filter] or a [find] over the table, so
    that [.first()] is the first matching row and [.all()] keeps row
    order.  Functions that write take the store and return the new one;
    a [rollback] gives back the store the function was entered with. *)

From Stdlib Require Import Bool List ZArith Lia String Ascii.
From Stdlib Require Import Sorted Permutation DecimalString.
Import ListNotations.

Local Open Scope string_scope.
Local Open Scope list_scope.
Local Open Scope Z_scope.

Set Implicit Arguments.

(** ** Python strings

    A [string] is read as a sequence of code points below 256.  The three
    [str] methods the engine calls are written out on that range. *)

Module PyStr.

(** [c.isspace()] *)
Definition isspace (c : ascii) : bool :=
  let n := N_of_ascii c in
  (((9 <=? n) && (n <=? 13)) || ((28 <=? n) && (n <=? 32))
   || (n =? 133) || (n =? 160))%N.

Definition lower_char (c : ascii) : ascii :=
  let n := N_of_ascii c in
  if (((65 <=? n) && (n <=? 90)) || ((192 <=? n) && (n <=? 214))
      || ((216 <=? n) && (n <=? 222)))%N
  then ascii_of_N (n + 32) else c.

(** [s.lower()] *)
Fixpoint lower (s : string) : string :=
  match s with
  | EmptyString => EmptyString
  | String c s' => String (lower_char c) (lower s')
  end.

Fixpoint lstrip (s : string) : string :=
  match s with
  | EmptyString => EmptyString
  | String c s' => if isspace c then lstrip s' else s
  end.

Fixpoint rstrip (s : string) : string :=
  match s with
  | EmptyString => EmptyString
  | String c s' =>
      match rstrip s' with
      | EmptyString => if isspace c then EmptyString else String c EmptyString
      | r => String c r
      end
  end.

(** [s.strip()] *)
Definition strip (s : string) : string := rstrip (lstrip s).

(** [c in s] for a one-character [c] *)
Fixpoint contains (c : ascii) (s : string) : bool :=
  match s with
  | EmptyString => false
  | String d s' => Ascii.eqb c d || contains c s'
  end.

(** [x in [w1; ...]] for strings *)
Definition mem (x : string) (ws : list string) : bool :=
  existsb (String.eqb x) ws.

(** [str(n)] for an integer *)
Definition of_Z (z : Z) : string := NilZero.string_of_int (Z.to_int z).

End PyStr.

(** ** Exceptions and results *)

Inductive exn : Type :=
| ValueError (msg : string)
| TypeError (msg : string)
| OverflowError (msg : string)
| StatementError (msg : string).

Inductive result (A : Type) : Type :=
| Ok (a : A)
| Raise (e : exn).

Arguments Ok {A} a.
Arguments Raise {A} e.

(** [except (ValueError, TypeError)] *)
Definition is_value_or_type_error (e : exn) : bool :=
  match e with
  | ValueError _ | TypeError _ => true
  | _ => false
  end.

(** ** The interpreter's built-ins

    [float], [datetime] and the conversions between them and text belong
    to the Python runtime, not to the application: the engine is verified
    for every runtime. *)

Class PyRuntime : Type := {
  float : Type;
  datetime : Type;
  float_eq_dec : forall x y : float, {x = y} + {x <> y};
  datetime_eq_dec : forall x y : datetime, {x = y} + {x <> y};
  (** [int(s)] *)
  int_of_str : string -> result Z;
  (** [float(s)] *)
  float_of_str : string -> result float;
  (** [float(n)] *)
  float_of_int : Z -> result float;
  (** [bool(x)] for a float *)
  float_truth : float -> bool;
  (** [str(x)] for a float *)
  str_of_float : float -> string;
  (** [str(d)] for a datetime *)
  str_of_datetime : datetime -> string;
  (** [datetime.strptime(s, fmt)] *)
  strptime : string -> string -> result datetime
}.

(** ** Schema: the tables of [models.py] *)

Inductive DataTypeEnum : Type :=
| VARCHAR | TEXT | INT | BIGINT | DECIMAL | BOOLEAN
| DATE | DATETIME | TIMESTAMP | JSON.

Module EntityType.
Record t : Type := Build {
  id : Z;
  module_id : Z;
  code : string;
  is_active : bool
}.
End EntityType.

Module AttributeDefinition.
Record t : Type := Build {
  id : Z;
  entity_type_id : Z;
  code : string;
  name : string;
  data_type : DataTypeEnum;
  is_required : bool;
  is_unique : bool;
  is_active : bool
}.
End AttributeDefinition.

Module FormFieldConfiguration.
(** [attribute_definition] is the row the relationship of the same name
    loads; [attribute_definition_id] is its key. *)
Record t : Type := Build {
  form_definition_id : Z;
  attribute_definition : AttributeDefinition.t;
  is_visible : bool;
  is_required : bool
}.
Definition attribute_definition_id (f : t) : Z :=
  AttributeDefinition.id (attribute_definition f).
End FormFieldConfiguration.

Module EntityInstance.
Record t : Type := Build {
  id : Z;
  entity_type_id : Z;
  is_active : bool;
  created_by : string;
  updated_by : option string
}.
End EntityInstance.

(** The four value tables have the same columns and differ in the type of
    [value].  Every writer of the repository stores a value that is not
    null, so [value] is not optional. *)
Module AttributeValue.
Record t (V : Type) : Type := Build {
  entity_instance_id : Z;
  attribute_definition_id : Z;
  value : V
}.
Arguments Build {V} _ _ _.
Arguments entity_instance_id {V} _.
Arguments attribute_definition_id {V} _.
Arguments value {V} _.

Definition set_value {V} (r : t V) (v : V) : t V :=
  Build (entity_instance_id r) (attribute_definition_id r) v.
End AttributeValue.

Module User.
Record t : Type := Build { id : Z; username : string }.
End User.

Module UserRole.
Record t : Type := Build { user_id : Z; role_id : Z }.
End UserRole.

Module EntityPermission.
Record t : Type := Build {
  role_id : Z;
  entity_type_id : Z;
  can_read : bool;
  can_create : bool;
  can_update : bool;
  can_delete : bool
}.
End EntityPermission.

Module WorkflowTransition.
(** [required_roles] is a JSON column: null, or a list of roles. *)
Record t : Type := Build {
  id : Z;
  from_state_id : Z;
  to_state_id : Z;
  action_code : string;
  required_roles : option (list string);
  is_active : bool
}.
End WorkflowTransition.

(** ** The engine, over any runtime *)

Section Engine.

Context {RT : PyRuntime}.

(** *** Python values that reach the engine *)

Inductive pyval : Type :=
| PNone
| PStr (s : string)
| PInt (z : Z)
| PFloat (f : float)
| PBool (b : bool)
| PDatetime (d : datetime).

Definition pyval_eq_dec (x y : pyval) : {x = y} + {x <> y}.
Proof.
  decide equality.
  - apply string_dec.
  - apply Z.eq_dec.
  - apply float_eq_dec.
  - apply bool_dec.
  - apply datetime_eq_dec.
Defined.

Definition pyval_eqb (x y : pyval) : bool :=
  if pyval_eq_dec x y then true else false.

(** [value is not None] *)
Definition is_not_none (v : pyval) : bool :=
  match v with PNone => false | _ => true end.

(** [str(value)] *)
Definition py_str (v : pyval) : string :=
  match v with
  | PNone => "None"
  | PStr s => s
  | PInt z => PyStr.of_Z z
  | PFloat f => str_of_float f
  | PBool true => "True"
  | PBool false => "False"
  | PDatetime d => str_of_datetime d
  end.

(** [bool(value)] *)
Definition py_bool (v : pyval) : bool :=
  match v with
  | PNone => false
  | PStr s => negb (String.eqb s "")
  | PInt z => negb (z =? 0)
  | PFloat f => float_truth f
  | PBool b => b
  | PDatetime _ => true
  end.

(** [float(value)] *)
Definition py_float (v : pyval) : result float :=
  match v with
  | PNone => Raise (TypeError "float() argument must be a string or a real number, not 'NoneType'")
  | PStr s => float_of_str s
  | PInt z => float_of_int z
  | PFloat f => Ok f
  | PBool b => float_of_int (if b then 1 else 0)
  | PDatetime _ => Raise (TypeError "float() argument must be a string or a real number, not 'datetime.datetime'")
  end.

(** What a [DateTime] column of the configured store (SQLite) accepts
    when the pending row is flushed: a datetime, anything else is
    refused with a [StatementError]. *)
Definition to_datetime_column (v : pyval) : result datetime :=
  match v with
  | PDatetime d => Ok d
  | _ => Raise (StatementError "SQLite DateTime type only accepts Python datetime and date objects as input.")
  end.

(** [a or b] *)
Definition py_or (a b : pyval) : pyval := if py_bool a then a else b.

(** *** The store

    A value table holds, for a row, the value the engine assigned to it,
    which is what the session that wrote the row reads from it.  Text
    and boolean columns give the same value back once the unit of work
    is committed and the row is loaded again.  The other two columns
    convert: [Numeric(20, 6)] gives the number back as a decimal with six
    places, and nothing for a NaN; [DateTime] gives back a datetime
    without its timezone.  That conversion is not part of the model: a
    number or a date that is read stands for the value its column holds,
    and what a newly written value reads as after a commit is stated
    below for the text and the boolean table. *)

Record Database : Type := mkDatabase {
  entity_types : list EntityType.t;
  attribute_definitions : list AttributeDefinition.t;
  form_field_configurations : list FormFieldConfiguration.t;
  entity_instances : list EntityInstance.t;
  attribute_values_text : list (AttributeValue.t string);
  attribute_values_numeric : list (AttributeValue.t float);
  attribute_values_datetime : list (AttributeValue.t datetime);
  attribute_values_boolean : list (AttributeValue.t bool);
  users : list User.t;
  user_roles : list UserRole.t;
  entity_permissions : list EntityPermission.t
}.

Definition with_attribute_definitions (db : Database) x : Database :=
  mkDatabase (entity_types db) x (form_field_configurations db)
    (entity_instances db) (attribute_values_text db)
    (attribute_values_numeric db) (attribute_values_datetime db)
    (attribute_values_boolean db) (users db) (user_roles db)
    (entity_permissions db).

Definition with_form_field_configurations (db : Database) x : Database :=
  mkDatabase (entity_types db) (attribute_definitions db) x
    (entity_instances db) (attribute_values_text db)
    (attribute_values_numeric db) (attribute_values_datetime db)
    (attribute_values_boolean db) (users db) (user_roles db)
    (entity_permissions db).

Definition with_entity_instances (db : Database) x : Database :=
  mkDatabase (entity_types db) (attribute_definitions db)
    (form_field_configurations db) x (attribute_values_text db)
    (attribute_values_numeric db) (attribute_values_datetime db)
    (attribute_values_boolean db) (users db) (user_roles db)
    (entity_permissions db).

Definition with_text (db : Database) x : Database :=
  mkDatabase (entity_types db) (attribute_definitions db)
    (form_field_configurations db) (entity_instances db) x
    (attribute_values_numeric db) (attribute_values_datetime db)
    (attribute_values_boolean db) (users db) (user_roles db)
    (entity_permissions db).

Definition with_numeric (db : Database) x : Database :=
  mkDatabase (entity_types db) (attribute_definitions db)
    (form_field_configurations db) (entity_instances db)
    (attribute_values_text db) x (attribute_values_datetime db)
    (attribute_values_boolean db) (users db) (user_roles db)
    (entity_permissions db).

Definition with_datetime (db : Database) x : Database :=
  mkDatabase (entity_types db) (attribute_definitions db)
    (form_field_configurations db) (entity_instances db)
    (attribute_values_text db) (attribute_values_numeric db) x
    (attribute_values_boolean db) (users db) (user_roles db)
    (entity_permissions db).

Definition with_boolean (db : Database) x : Database :=
  mkDatabase (entity_types db) (attribute_definitions db)
    (form_field_configurations db) (entity_instances db)
    (attribute_values_text db) (attribute_values_numeric db)
    (attribute_values_datetime db) x (users db) (user_roles db)
    (entity_permissions db).

(** *** Queries shared by the engine *)

(** [AttributeDefinition.query.filter_by(entity_type_id=.., code=..).first()] *)
Definition attribute_by_code (db : Database) (entity_type_id : Z)
    (code : string) : option AttributeDefinition.t :=
  find (fun a =>
          (AttributeDefinition.entity_type_id a =? entity_type_id)
          && String.eqb (AttributeDefinition.code a) code)
       (attribute_definitions db).

(** The same query with [is_active=True]. *)
Definition active_attribute_by_code (db : Database) (entity_type_id : Z)
    (code : string) : option AttributeDefinition.t :=
  find (fun a =>
          (AttributeDefinition.entity_type_id a =? entity_type_id)
          && String.eqb (AttributeDefinition.code a) code
          && AttributeDefinition.is_active a)
       (attribute_definitions db).

(** A row of a value table belongs to the pair (instance, attribute). *)
Definition row_of {V} (instance_id attr_id : Z) (r : AttributeValue.t V)
    : bool :=
  (AttributeValue.entity_instance_id r =? instance_id)
  && (AttributeValue.attribute_definition_id r =? attr_id).

(** [self.<store>_values.filter_by(attribute_definition_id=attr_def.id).first()] *)
Definition first_row {V} (rows : list (AttributeValue.t V))
    (instance_id attr_id : Z) : option (AttributeValue.t V) :=
  find (row_of instance_id attr_id) rows.

(** [existing.value = v], for the first row of the pair *)
Fixpoint update_first {V} (instance_id attr_id : Z) (v : V)
    (rows : list (AttributeValue.t V)) : list (AttributeValue.t V) :=
  match rows with
  | [] => []
  | r :: rest =>
      if row_of instance_id attr_id r
      then AttributeValue.set_value r v :: rest
      else r :: update_first instance_id attr_id v rest
  end.

(** [db.session.delete(existing)], for the first row of the pair *)
Fixpoint delete_first {V} (instance_id attr_id : Z)
    (rows : list (AttributeValue.t V)) : list (AttributeValue.t V) :=
  match rows with
  | [] => []
  | r :: rest =>
      if row_of instance_id attr_id r
      then rest
      else r :: delete_first instance_id attr_id rest
  end.

(** The body every branch of [set_attribute_value] repeats on its own
    table; [v] is [None] when [value is None] and the converted value
    otherwise. *)
Definition store_write {V} (rows : list (AttributeValue.t V))
    (instance_id attr_id : Z) (v : option V) : list (AttributeValue.t V) :=
  match first_row rows instance_id attr_id with
  | Some _ =>
      match v with
      | Some x => update_first instance_id attr_id x rows
      | None => delete_first instance_id attr_id rows
      end
  | None =>
      match v with
      | Some x => rows ++ [AttributeValue.Build instance_id attr_id x]
      | None => rows
      end
  end.

(** *** [EntityInstance.get_attribute_value]

    The branch of a numeric or a date type returns the value the row
    holds in the session, the float or the datetime that was assigned. *)

Definition get_attribute_value (db : Database) (self : EntityInstance.t)
    (attribute_code : string) : pyval :=
  match attribute_by_code db (EntityInstance.entity_type_id self)
          attribute_code with
  | None => PNone
  | Some attr_def =>
      let iid := EntityInstance.id self in
      let aid := AttributeDefinition.id attr_def in
      match AttributeDefinition.data_type attr_def with
      | VARCHAR | TEXT =>
          match first_row (attribute_values_text db) iid aid with
          | Some value_obj => PStr (AttributeValue.value value_obj)
          | None => PNone
          end
      | INT | BIGINT | DECIMAL =>
          match first_row (attribute_values_numeric db) iid aid with
          | Some value_obj => PFloat (AttributeValue.value value_obj)
          | None => PNone
          end
      | DATE | DATETIME | TIMESTAMP =>
          match first_row (attribute_values_datetime db) iid aid with
          | Some value_obj => PDatetime (AttributeValue.value value_obj)
          | None => PNone
          end
      | BOOLEAN =>
          match first_row (attribute_values_boolean db) iid aid with
          | Some value_obj => PBool (AttributeValue.value value_obj)
          | None => PNone
          end
      | JSON => PNone
      end
  end.

(** *** [EntityInstance.set_attribute_value]

    Returns the boolean the method returns and the store after it.  A
    conversion is evaluated only where the source evaluates it, under
    [value is not None]. *)

Definition set_attribute_value (db : Database) (self : EntityInstance.t)
    (attribute_code : string) (value : pyval) : result (bool * Database) :=
  match attribute_by_code db (EntityInstance.entity_type_id self)
          attribute_code with
  | None => Ok (false, db)
  | Some attr_def =>
      let iid := EntityInstance.id self in
      let aid := AttributeDefinition.id attr_def in
      match AttributeDefinition.data_type attr_def with
      | VARCHAR | TEXT =>
          let v := if is_not_none value then Some (py_str value) else None in
          Ok (true, with_text db
                      (store_write (attribute_values_text db) iid aid v))
      | INT | BIGINT | DECIMAL =>
          if is_not_none value then
            match py_float value with
            | Ok f =>
                Ok (true, with_numeric db
                            (store_write (attribute_values_numeric db)
                               iid aid (Some f)))
            | Raise e => Raise e
            end
          else
            Ok (true, with_numeric db
                        (store_write (attribute_values_numeric db)
                           iid aid None))
      | DATE | DATETIME | TIMESTAMP =>
          if is_not_none value then
            match to_datetime_column value with
            | Ok d =>
                Ok (true, with_datetime db
                            (store_write (attribute_values_datetime db)
                               iid aid (Some d)))
            | Raise e => Raise e
            end
          else
            Ok (true, with_datetime db
                        (store_write (attribute_values_datetime db)
                           iid aid None))
      | BOOLEAN =>
          let v := if is_not_none value then Some (py_bool value) else None in
          Ok (true, with_boolean db
                      (store_write (attribute_values_boolean db) iid aid v))
      | JSON => Ok (true, db)
      end
  end.

(** *** Dictionaries and the submitted form

    A Python [dict] keeps insertion order and one entry per key; the
    form is read with [.get(name)], the first value under the name. *)

Definition dict : Type := list (string * pyval).

(** [d[k] = v] *)
Fixpoint dict_set (d : dict) (k : string) (v : pyval) : dict :=
  match d with
  | [] => [(k, v)]
  | (k', v') :: rest =>
      if String.eqb k' k then (k, v) :: rest
      else (k', v') :: dict_set rest k v
  end.

(** [d.get(k)] *)
Definition dict_get (d : dict) (k : string) : option pyval :=
  option_map snd (find (fun kv => String.eqb (fst kv) k) d).

Definition request_form : Type := list (string * string).

(** [request_form.get(name)] *)
Definition form_get (f : request_form) (name : string) : option string :=
  option_map snd (find (fun kv => String.eqb (fst kv) name) f).

(** *** [create_entity_instance_with_attributes] *)

(** The key the store gives a new row: one more than the largest. *)
Definition next_id (ids : list Z) : Z := 1 + fold_right Z.max 0 ids.

(** [x or 'system'] for an optional user name *)
Definition or_system (x : option string) : string :=
  match x with
  | Some s => if String.eqb s "" then "system" else s
  | None => "system"
  end.

(** The loop of [create]: entries that are [None] are passed over. *)
Fixpoint create_loop (db : Database) (instance : EntityInstance.t)
    (items : dict) : result Database :=
  match items with
  | [] => Ok db
  | (attr_code, value) :: rest =>
      if is_not_none value then
        match set_attribute_value db instance attr_code value with
        | Ok (_, db') => create_loop db' instance rest
        | Raise e => Raise e
        end
      else create_loop db instance rest
  end.

(** The result is the instance, or the exception re-raised after the
    rollback, with the store as it is left. *)
Definition create_entity_instance_with_attributes (db : Database)
    (entity_type_id : Z) (attribute_values : dict)
    (created_by : option string) : result EntityInstance.t * Database :=
  let instance :=
    EntityInstance.Build
      (next_id (map EntityInstance.id (entity_instances db)))
      entity_type_id true (or_system created_by) None in
  let db1 := with_entity_instances db (entity_instances db ++ [instance]) in
  match create_loop db1 instance attribute_values with
  | Ok db2 => (Ok instance, db2)
  | Raise e => (Raise e, db)
  end.

(** *** [update_entity_instance_attributes] *)

(** The loop of [update]: every entry is applied, [None] too. *)
Fixpoint update_loop (db : Database) (instance : EntityInstance.t)
    (items : dict) : result Database :=
  match items with
  | [] => Ok db
  | (attr_code, value) :: rest =>
      match set_attribute_value db instance attr_code value with
      | Ok (_, db') => update_loop db' instance rest
      | Raise e => Raise e
      end
  end.

Definition update_entity_instance_attributes (db : Database)
    (instance_id : Z) (attribute_values : dict)
    (updated_by : option string)
    : result (option EntityInstance.t) * Database :=
  match find (fun i => EntityInstance.id i =? instance_id)
          (entity_instances db) with
  | None => (Ok None, db)
  | Some found =>
      let instance :=
        EntityInstance.Build (EntityInstance.id found)
          (EntityInstance.entity_type_id found)
          (EntityInstance.is_active found)
          (EntityInstance.created_by found)
          (Some (or_system updated_by)) in
      let db1 :=
        with_entity_instances db
          (map (fun i => if EntityInstance.id i =? instance_id
                         then instance else i)
               (entity_instances db)) in
      match update_loop db1 instance attribute_values with
      | Ok db2 => (Ok (Some instance), db2)
      | Raise e => (Raise e, db)
      end
  end.

(** *** [process_form_data] ([app.py]) *)

(** [not value or value.strip() == ''] *)
Definition is_empty_value (value : option string) : bool :=
  match value with
  | None => true
  | Some s => String.eqb s "" || String.eqb (PyStr.strip s) ""
  end.

Definition true_words : list string := ["true"; "1"; "yes"; "on"].

(** The body of the loop over the form's fields: the dictionary after
    the field, or the exception that leaves the function. *)
Definition process_field (field : FormFieldConfiguration.t)
    (form : request_form) (attribute_values : dict) : result dict :=
  let attr := FormFieldConfiguration.attribute_definition field in
  let code := AttributeDefinition.code attr in
  let field_name := ("attr_" ++ code)%string in
  let value := form_get form field_name in
  let required :=
    FormFieldConfiguration.is_required field
    || AttributeDefinition.is_required attr in
  if negb (FormFieldConfiguration.is_visible field) then Ok attribute_values
  else if is_empty_value value then
    if negb required then Ok (dict_set attribute_values code PNone)
    else Ok attribute_values
  else
    match value with
    | None => Ok attribute_values
    | Some s =>
        let except (e : exn) : result dict :=
          if is_value_or_type_error e then
            if negb required then Ok (dict_set attribute_values code PNone)
            else Raise (ValueError
                          ("Invalid value for "
                           ++ AttributeDefinition.name attr ++ ": " ++ s)%string)
          else Raise e in
        match AttributeDefinition.data_type attr with
        | INT | BIGINT =>
            match int_of_str s with
            | Ok n => Ok (dict_set attribute_values code (PInt n))
            | Raise e => except e
            end
        | DECIMAL =>
            match float_of_str s with
            | Ok x => Ok (dict_set attribute_values code (PFloat x))
            | Raise e => except e
            end
        | BOOLEAN =>
            Ok (dict_set attribute_values code
                  (PBool (PyStr.mem (PyStr.lower s) true_words)))
        | DATE | DATETIME =>
            if negb (String.eqb s "") then
              match (if PyStr.contains "T"%char s
                     then strptime s "%Y-%m-%dT%H:%M"
                     else strptime s "%Y-%m-%d") with
              | Ok d => Ok (dict_set attribute_values code (PDatetime d))
              | Raise e => except e
              end
            else Ok attribute_values
        | VARCHAR | TEXT | TIMESTAMP | JSON =>
            Ok (dict_set attribute_values code (PStr (PyStr.strip s)))
        end
    end.

Fixpoint process_fields (form_fields : list FormFieldConfiguration.t)
    (form : request_form) (attribute_values : dict) : result dict :=
  match form_fields with
  | [] => Ok attribute_values
  | field :: rest =>
      match process_field field form attribute_values with
      | Ok attribute_values' => process_fields rest form attribute_values'
      | Raise e => Raise e
      end
  end.

Definition process_form_data (form_fields : list FormFieldConfiguration.t)
    (form : request_form) : result dict :=
  process_fields form_fields form [].

(** *** Permissions *)

Record Permissions : Type := mkPermissions {
  can_read : bool;
  can_create : bool;
  can_update : bool;
  can_delete : bool
}.

Definition no_permissions : Permissions :=
  mkPermissions false false false false.

(** [User.query.get(user_id)] *)
Definition user_by_id (db : Database) (user_id : Z) : option User.t :=
  find (fun u => User.id u =? user_id) (users db).

(** [[ur.role_id for ur in user.user_roles]] *)
Definition role_ids_of (db : Database) (user : User.t) : list Z :=
  map UserRole.role_id
    (filter (fun ur => UserRole.user_id ur =? User.id user) (user_roles db)).

(** [EntityPermission.query.filter(role_id.in_(ids), entity_type_id == e).all()] *)
Definition permissions_for (db : Database) (role_ids : list Z)
    (entity_type_id : Z) : list EntityPermission.t :=
  filter (fun p =>
            existsb (Z.eqb (EntityPermission.role_id p)) role_ids
            && (EntityPermission.entity_type_id p =? entity_type_id))
         (entity_permissions db).

(** The aggregation loop of [get_user_permissions]. *)
Fixpoint aggregate (permissions : list EntityPermission.t)
    (result : Permissions) : Permissions :=
  match permissions with
  | [] => result
  | perm :: rest =>
      aggregate rest
        (mkPermissions
           (if EntityPermission.can_read perm then true
            else can_read result)
           (if EntityPermission.can_create perm then true
            else can_create result)
           (if EntityPermission.can_update perm then true
            else can_update result)
           (if EntityPermission.can_delete perm then true
            else can_delete result))
  end.

Definition get_user_permissions (db : Database) (user_id : Z)
    (entity_type_id : Z) : Permissions :=
  match user_by_id db user_id with
  | None => no_permissions
  | Some user =>
      aggregate (permissions_for db (role_ids_of db user) entity_type_id)
        no_permissions
  end.

(** The loop of [check_user_permissions]. *)
Fixpoint check_loop (operation : string)
    (permissions : list EntityPermission.t) : bool :=
  match permissions with
  | [] => false
  | permission :: rest =>
      if String.eqb operation "READ" && EntityPermission.can_read permission
      then true
      else if String.eqb operation "CREATE"
              && EntityPermission.can_create permission
      then true
      else if String.eqb operation "UPDATE"
              && EntityPermission.can_update permission
      then true
      else if String.eqb operation "DELETE"
              && EntityPermission.can_delete permission
      then true
      else check_loop operation rest
  end.

Definition check_user_permissions (db : Database) (user_id : Z)
    (entity_type_id : Z) (operation : string) : bool :=
  match user_by_id db user_id with
  | None => false
  | Some user =>
      check_loop operation
        (permissions_for db (role_ids_of db user) entity_type_id)
  end.

(** *** [get_dropdown_options] *)

Record DropdownOption : Type := mkOption {
  option_value : pyval;
  option_label : pyval;
  option_instance_id : Z
}.

(** [x in seen_values] *)
Definition seen (x : pyval) (seen_values : list pyval) : bool :=
  existsb (pyval_eqb x) seen_values.

(** The loop over the instances, with the two accumulators of the
    source. *)
Fixpoint collect_options (db : Database) (source_attribute_code : string)
    (display_code : string) (unique_only : bool)
    (instances : list EntityInstance.t)
    (options : list DropdownOption) (seen_values : list pyval)
    : list DropdownOption :=
  match instances with
  | [] => options
  | instance :: rest =>
      let source_value :=
        get_attribute_value db instance source_attribute_code in
      let display_value := get_attribute_value db instance display_code in
      if is_not_none source_value then
        if unique_only && seen source_value seen_values then
          collect_options db source_attribute_code display_code unique_only
            rest options seen_values
        else
          collect_options db source_attribute_code display_code unique_only
            rest
            (options ++ [mkOption source_value
                           (py_or display_value source_value)
                           (EntityInstance.id instance)])
            (source_value :: seen_values)
      else
        collect_options db source_attribute_code display_code unique_only
          rest options seen_values
  end.

(** [key=lambda x: str(x['label'])] *)
Definition sort_key (o : DropdownOption) : string := py_str (option_label o).

Fixpoint insert_by_label (x : DropdownOption) (l : list DropdownOption)
    : list DropdownOption :=
  match l with
  | [] => [x]
  | y :: l' =>
      if String.leb (sort_key x) (sort_key y) then x :: y :: l'
      else y :: insert_by_label x l'
  end.

(** [options.sort(key=...)]: a stable sort on the keys, compared as
    strings; an element goes before the first one of the sorted rest
    that is not smaller, so equal keys keep their order. *)
Fixpoint sort_by_label (l : list DropdownOption) : list DropdownOption :=
  match l with
  | [] => []
  | x :: l' => insert_by_label x (sort_by_label l')
  end.

(** [EntityInstance.query.filter_by(entity_type_id=.., is_active=True).all()] *)
Definition active_instances (db : Database) (entity_type_id : Z)
    : list EntityInstance.t :=
  filter (fun i =>
            (EntityInstance.entity_type_id i =? entity_type_id)
            && EntityInstance.is_active i)
         (entity_instances db).

(** The attribute the labels are read from. *)
Definition display_attribute (db : Database) (entity_type_id : Z)
    (source_attr : AttributeDefinition.t) (source_attribute_code : string)
    (display_attribute_code : option string) : AttributeDefinition.t :=
  match display_attribute_code with
  | Some d =>
      if negb (String.eqb d "") && negb (String.eqb d source_attribute_code)
      then
        match active_attribute_by_code db entity_type_id d with
        | Some display_attr => display_attr
        | None => source_attr
        end
      else source_attr
  | None => source_attr
  end.

(** Nothing in the body raises, so the handler of the enclosing [try]
    is never entered. *)
Definition get_dropdown_options (db : Database) (entity_type_id : Z)
    (source_attribute_code : string)
    (display_attribute_code : option string) (unique_only : bool)
    : list DropdownOption :=
  match find (fun e => EntityType.id e =? entity_type_id)
          (entity_types db) with
  | None => []
  | Some _ =>
      match active_attribute_by_code db entity_type_id
              source_attribute_code with
      | None => []
      | Some source_attr =>
          let display_attr :=
            display_attribute db entity_type_id source_attr
              source_attribute_code display_attribute_code in
          sort_by_label
            (collect_options db source_attribute_code
               (AttributeDefinition.code display_attr) unique_only
               (active_instances db entity_type_id) [] [])
      end
  end.

(** *** [delete_attribute] ([entity_designer/__init__.py]) *)

Inductive json : Type :=
| JsonError (error : string)
| JsonSuccess (message : string).

(** The body and the status code of the response. *)
Definition response : Type := (json * Z)%type.

(** [<Table>.query.filter_by(attribute_definition_id=attr_id).count()] *)
Definition count_rows {V} (rows : list (AttributeValue.t V)) (attr_id : Z)
    : Z :=
  Z.of_nat
    (List.length
       (filter (fun r => AttributeValue.attribute_definition_id r =? attr_id)
          rows)).

(** The store is SQLite with foreign keys not enforced, so the commit of
    the deletion does not fail and the handler of the enclosing [try] is
    never entered. *)
Definition delete_attribute (db : Database) (entity_id attr_id : Z)
    : response * Database :=
  match find (fun a =>
                (AttributeDefinition.id a =? attr_id)
                && (AttributeDefinition.entity_type_id a =? entity_id))
          (attribute_definitions db) with
  | None => ((JsonError "Attribute not found", 404), db)
  | Some attribute =>
      let instance_count :=
        match AttributeDefinition.data_type attribute with
        | VARCHAR | TEXT => count_rows (attribute_values_text db) attr_id
        | INT | BIGINT | DECIMAL =>
            count_rows (attribute_values_numeric db) attr_id
        | _ => 0
        end in
      if instance_count >? 0 then
        ((JsonError ("Cannot delete attribute. It has "
                     ++ PyStr.of_Z instance_count ++ " data records.")%string,
          400), db)
      else
        let db1 :=
          with_form_field_configurations db
            (filter (fun f =>
                       negb (FormFieldConfiguration.attribute_definition_id f
                             =? attr_id))
               (form_field_configurations db)) in
        let db2 :=
          with_attribute_definitions db1
            (filter (fun a =>
                       negb (AttributeDefinition.id a
                             =? AttributeDefinition.id attribute))
               (attribute_definitions db1)) in
        ((JsonSuccess "Attribute deleted successfully", 200), db2)
  end.

(** *** The shape of the store the schema promises

    [unique_instance_attribute]: a value table holds at most one row
    for a pair (instance, attribute). *)
Definition row_key {V} (r : AttributeValue.t V) : Z * Z :=
  (AttributeValue.entity_instance_id r,
   AttributeValue.attribute_definition_id r).

Definition unique_instance_attribute (db : Database) : Prop :=
  NoDup (map row_key (attribute_values_text db))
  /\ NoDup (map row_key (attribute_values_numeric db))
  /\ NoDup (map row_key (attribute_values_datetime db))
  /\ NoDup (map row_key (attribute_values_boolean db)).

(** The table the values of a data type are kept in. *)
Inductive store : Type :=
| TextStore | NumericStore | DatetimeStore | BooleanStore.

Definition store_of (t : DataTypeEnum) : option store :=
  match t with
  | VARCHAR | TEXT => Some TextStore
  | INT | BIGINT | DECIMAL => Some NumericStore
  | DATE | DATETIME | TIMESTAMP => Some DatetimeStore
  | BOOLEAN => Some BooleanStore
  | JSON => None
  end.

(** The pairs a table holds a row for. *)
Definition keys_of (db : Database) (s : store) : list (Z * Z) :=
  match s with
  | TextStore => map row_key (attribute_values_text db)
  | NumericStore => map row_key (attribute_values_numeric db)
  | DatetimeStore => map row_key (attribute_values_datetime db)
  | BooleanStore => map row_key (attribute_values_boolean db)
  end.

(** Table [s] holds a row for the pair. *)
Definition has_row (db : Database) (s : store) (instance_id attr_id : Z)
    : Prop :=
  In (instance_id, attr_id) (keys_of db s).

(** The values of an attribute live in the table of its data type and
    nowhere else. *)
Definition typed_storage (db : Database) : Prop :=
  forall (a : AttributeDefinition.t) (s : store) (instance_id : Z),
    In a (attribute_definitions db) ->
    has_row db s instance_id (AttributeDefinition.id a) ->
    store_of (AttributeDefinition.data_type a) = Some s.

(** Some role assigned to the user holds a permission row on the entity
    type with the capability [flag] set. *)
Definition granted (db : Database) (user_id entity_type_id : Z)
    (flag : EntityPermission.t -> bool) : Prop :=
  exists (p : EntityPermission.t) (ur : UserRole.t),
    In p (entity_permissions db)
    /\ In ur (user_roles db)
    /\ UserRole.user_id ur = user_id
    /\ UserRole.role_id ur = EntityPermission.role_id p
    /\ EntityPermission.entity_type_id p = entity_type_id
    /\ flag p = true.

(** Labels in ascending order: the texts [str] gives for the two labels,
    compared as strings. *)
Definition label_le (x y : DropdownOption) : Prop :=
  String.leb (py_str (option_label x)) (py_str (option_label y)) = true.

(** The same order on labels that are text: the two texts compared as
    strings. *)
Definition text_label_le (x y : DropdownOption) : Prop :=
  forall a b : string,
    option_label x = PStr a -> option_label y = PStr b ->
    String.leb a b = true.

(** Two strings are the same when case is ignored. *)
Definition equal_ignoring_case (s w : string) : Prop :=
  PyStr.lower s = PyStr.lower w.

(** Two characters are the same letter: the same character, or a capital
    A to Z and its small letter, 32 code points above it. *)
Definition same_letter (c d : ascii) : Prop :=
  c = d
  \/ ((65 <= N_of_ascii c <= 90)%N
      /\ N_of_ascii d = (N_of_ascii c + 32)%N)
  \/ ((65 <= N_of_ascii d <= 90)%N
      /\ N_of_ascii c = (N_of_ascii d + 32)%N).

(** Two strings spell the same word when case is ignored: the same
    length, and the same letter at every position. *)
Fixpoint same_ignoring_case (s w : string) : Prop :=
  match s, w with
  | EmptyString, EmptyString => True
  | String c s', String d w' => same_letter c d /\ same_ignoring_case s' w'
  | _, _ => False
  end.

(** A character that [lower] leaves alone and that is no capital: a
    code point below 128 outside A to Z. *)
Definition small_char (d : ascii) : Prop :=
  (N_of_ascii d < 128)%N /\ ~ (65 <= N_of_ascii d <= 90)%N.

Fixpoint small_word (w : string) : Prop :=
  match w with
  | EmptyString => True
  | String d w' => small_char d /\ small_word w'
  end.

(** The values [get_attribute_value] can return for an attribute: the
    ones its table holds. *)
Definition read_value_of (t : DataTypeEnum) (v : pyval) : Prop :=
  match store_of t with
  | Some TextStore => exists s, v = PStr s
  | Some NumericStore => exists f, v = PFloat f
  | Some DatetimeStore => exists d, v = PDatetime d
  | Some BooleanStore => exists b, v = PBool b
  | None => False
  end.

(** The primary key of [attribute_definitions]. *)
Definition attribute_ids_unique (db : Database) : Prop :=
  NoDup (map AttributeDefinition.id (attribute_definitions db)).

(** *** What a written value reads back as

    The value [get_attribute_value] returns for an attribute of type [t]
    once [value] has been written to it, or the exception the write
    raises. *)
Definition stored_as (t : DataTypeEnum) (value : pyval) : result pyval :=
  match t with
  | VARCHAR | TEXT => Ok (PStr (py_str value))
  | INT | BIGINT | DECIMAL =>
      match py_float value with
      | Ok f => Ok (PFloat f)
      | Raise e => Raise e
      end
  | DATE | DATETIME | TIMESTAMP =>
      match to_datetime_column value with
      | Ok d => Ok (PDatetime d)
      | Raise e => Raise e
      end
  | BOOLEAN => Ok (PBool (py_bool value))
  | JSON => Ok PNone
  end.

(** The data types whose column gives back, after a commit, the value
    that was assigned: the types of the text table and of the boolean
    table.  JSON has no column and reads as [None]. *)
Definition column_keeps_value (t : DataTypeEnum) : Prop :=
  store_of t = Some TextStore \/ store_of t = Some BooleanStore
  \/ store_of t = None.

(** Two stores with the same rows in every table but the four value
    tables. *)
Definition same_outside_values (db db' : Database) : Prop :=
  entity_types db' = entity_types db
  /\ attribute_definitions db' = attribute_definitions db
  /\ form_field_configurations db' = form_field_configurations db
  /\ entity_instances db' = entity_instances db
  /\ users db' = users db
  /\ user_roles db' = user_roles db
  /\ entity_permissions db' = entity_permissions db.

(** Two stores with the same four value tables. *)
Definition same_values (db db' : Database) : Prop :=
  attribute_values_text db' = attribute_values_text db
  /\ attribute_values_numeric db' = attribute_values_numeric db
  /\ attribute_values_datetime db' = attribute_values_datetime db
  /\ attribute_values_boolean db' = attribute_values_boolean db.

(** The conversion [process_form_data] calls for a field of the attribute
    raises [e] on the submitted text. *)
Definition conversion_raises (attr : AttributeDefinition.t) (s : string)
    (e : exn) : Prop :=
  match AttributeDefinition.data_type attr with
  | INT | BIGINT => int_of_str s = Raise e
  | DECIMAL => float_of_str s = Raise e
  | DATE | DATETIME =>
      (if PyStr.contains "T"%char s
       then strptime s "%Y-%m-%dT%H:%M"
       else strptime s "%Y-%m-%d") = Raise e
  | _ => False
  end.

(** *** The permission helpers of the templates ([app.py],
    [inject_permissions])

    [current_user] is [None] for a visitor who is not authenticated and
    the user's id otherwise. *)

(** [perms.get(key, False)] on the dictionary [get_user_permissions]
    returns *)
Definition permissions_get (perms : Permissions) (key : string) : bool :=
  if String.eqb key "can_read" then can_read perms
  else if String.eqb key "can_create" then can_create perms
  else if String.eqb key "can_update" then can_update perms
  else if String.eqb key "can_delete" then can_delete perms
  else false.

Definition has_permission (db : Database) (current_user : option Z)
    (entity_type_id : Z) (permission_type : string) : bool :=
  match current_user with
  | None => false
  | Some user_id =>
      let perms := get_user_permissions db user_id entity_type_id in
      permissions_get perms ("can_" ++ PyStr.lower permission_type)%string
  end.

Definition get_permissions (db : Database) (current_user : option Z)
    (entity_type_id : Z) : Permissions :=
  match current_user with
  | None => mkPermissions false false false false
  | Some user_id => get_user_permissions db user_id entity_type_id
  end.

(** *** [can_access_module] *)

(** [EntityType.query.filter_by(module_id=.., is_active=True).all()] *)
Definition active_entity_types (db : Database) (module_id : Z)
    : list EntityType.t :=
  filter (fun et =>
            (EntityType.module_id et =? module_id) && EntityType.is_active et)
         (entity_types db).

Definition can_access_module (db : Database) (user_id module_id : Z) : bool :=
  match user_by_id db user_id with
  | None => false
  | Some user =>
      let user_role_ids := role_ids_of db user in
      let entity_type_ids :=
        map EntityType.id (active_entity_types db module_id) in
      match entity_type_ids with
      | [] => false
      | _ =>
          match find (fun p =>
                        existsb (Z.eqb (EntityPermission.role_id p))
                          user_role_ids
                        && existsb (Z.eqb (EntityPermission.entity_type_id p))
                             entity_type_ids
                        && EntityPermission.can_read p)
                  (entity_permissions db) with
          | Some _ => true
          | None => false
          end
      end
  end.

(** *** Role and permission maintenance ([access_control/__init__.py]) *)

Definition with_entity_permissions (db : Database) x : Database :=
  mkDatabase (entity_types db) (attribute_definitions db)
    (form_field_configurations db) (entity_instances db)
    (attribute_values_text db) (attribute_values_numeric db)
    (attribute_values_datetime db) (attribute_values_boolean db)
    (users db) (user_roles db) x.

Definition with_user_roles (db : Database) x : Database :=
  mkDatabase (entity_types db) (attribute_definitions db)
    (form_field_configurations db) (entity_instances db)
    (attribute_values_text db) (attribute_values_numeric db)
    (attribute_values_datetime db) (attribute_values_boolean db)
    (users db) x (entity_permissions db).

(** The response of a route: the message of a success, the status and
    the error of a refusal, or status 500 with the text of the exception
    the store raised. *)
Inductive ac_response : Type :=
| AcSuccess (message : string)
| AcRefused (status : Z) (error : string)
| AcServerError.

(** The JSON body of [update_permission].  A flag that is absent, or
    null, is [None]: absent it defaults to [False], null it is stored as
    a null, which every reader takes for false. *)
Record PermissionData : Type := mkPermissionData {
  pd_entity_type_id : option Z;
  pd_can_read : option bool;
  pd_can_create : option bool;
  pd_can_update : option bool;
  pd_can_delete : option bool
}.

Definition flag_or_false (x : option bool) : bool :=
  match x with Some b => b | None => false end.

(** A permission row belongs to the pair (role, entity type). *)
Definition permission_of (role_id entity_type_id : Z)
    (p : EntityPermission.t) : bool :=
  (EntityPermission.role_id p =? role_id)
  && (EntityPermission.entity_type_id p =? entity_type_id).

(** The four assignments to the first row of the pair. *)
Fixpoint update_first_permission (role_id entity_type_id : Z)
    (r c u d : bool) (rows : list EntityPermission.t)
    : list EntityPermission.t :=
  match rows with
  | [] => []
  | p :: rest =>
      if permission_of role_id entity_type_id p
      then EntityPermission.Build (EntityPermission.role_id p)
             (EntityPermission.entity_type_id p) r c u d :: rest
      else p :: update_first_permission role_id entity_type_id r c u d rest
  end.

(** Without an entity type id no row is found, the new row has a null in
    a column that refuses it, and the commit fails: the handler rolls
    back and answers 500. *)
Definition update_permission (db : Database) (role_id : Z)
    (data : PermissionData) : ac_response * Database :=
  match pd_entity_type_id data with
  | None => (AcServerError, db)
  | Some entity_type_id =>
      let r := flag_or_false (pd_can_read data) in
      let c := flag_or_false (pd_can_create data) in
      let u := flag_or_false (pd_can_update data) in
      let d := flag_or_false (pd_can_delete data) in
      let rows :=
        match find (permission_of role_id entity_type_id)
                (entity_permissions db) with
        | Some _ =>
            update_first_permission role_id entity_type_id r c u d
              (entity_permissions db)
        | None =>
            entity_permissions db
            ++ [EntityPermission.Build role_id entity_type_id r c u d]
        end in
      (AcSuccess "Permission updated successfully",
       with_entity_permissions db rows)
  end.

(** A role assignment belongs to the pair (user, role). *)
Definition assignment_of (user_id role_id : Z) (ur : UserRole.t) : bool :=
  (UserRole.user_id ur =? user_id) && (UserRole.role_id ur =? role_id).

(** [role_id] is [data.get('role_id')]: [None] when the body has none. *)
Definition assign_role (db : Database) (user_id : Z) (role_id : option Z)
    : ac_response * Database :=
  match role_id with
  | None => (AcServerError, db)
  | Some role_id =>
      match find (assignment_of user_id role_id) (user_roles db) with
      | Some _ => (AcRefused 400 "Role already assigned", db)
      | None =>
          (AcSuccess "Role assigned successfully",
           with_user_roles db
             (user_roles db ++ [UserRole.Build user_id role_id]))
      end
  end.

(** [db.session.delete(user_role)], for the first row of the pair *)
Fixpoint delete_first_assignment (user_id role_id : Z)
    (rows : list UserRole.t) : list UserRole.t :=
  match rows with
  | [] => []
  | ur :: rest =>
      if assignment_of user_id role_id ur then rest
      else ur :: delete_first_assignment user_id role_id rest
  end.

Definition remove_role (db : Database) (user_id role_id : Z)
    : ac_response * Database :=
  match find (assignment_of user_id role_id) (user_roles db) with
  | Some _ =>
      (AcSuccess "Role removed successfully",
       with_user_roles db
         (delete_first_assignment user_id role_id (user_roles db)))
  | None => (AcRefused 404 "Role assignment not found", db)
  end.

(** [unique_role_entity_permission] and [unique_user_role] *)
Definition unique_role_entity_permission (db : Database) : Prop :=
  NoDup (map (fun p => (EntityPermission.role_id p,
                        EntityPermission.entity_type_id p))
           (entity_permissions db)).

Definition unique_user_role (db : Database) : Prop :=
  NoDup (map (fun ur => (UserRole.user_id ur, UserRole.role_id ur))
           (user_roles db)).

(** *** [get_workflow_next_states]

    [transitions] is the table [workflow_transitions]; [user_roles] is
    [None] when the argument is left out. *)

(** [role in user_roles] *)
Definition role_in (role : string) (user_roles : list string) : bool :=
  existsb (String.eqb role) user_roles.

Definition get_workflow_next_states
    (transitions : list WorkflowTransition.t) (current_state_id : Z)
    (user_roles : option (list string)) : list WorkflowTransition.t :=
  let found :=
    filter (fun t =>
              (WorkflowTransition.from_state_id t =? current_state_id)
              && WorkflowTransition.is_active t)
           transitions in
  match user_roles with
  | Some (r :: rs) =>
      filter (fun transition =>
                match WorkflowTransition.required_roles transition with
                | None | Some [] => true
                | Some required_roles =>
                    existsb (fun role => role_in role (r :: rs))
                      required_roles
                end)
             found
  | _ => found
  end.



(** The pair a permission row is for. *)
Definition permission_key (p : EntityPermission.t) : Z * Z :=
  (EntityPermission.role_id p, EntityPermission.entity_type_id p).

(** The pair a role assignment is for. *)
Definition assignment_key (ur : UserRole.t) : Z * Z :=
  (UserRole.user_id ur, UserRole.role_id ur).

End Engine.

(** ** A small runtime and stores for the closed examples

    Numbers are integers, a datetime is a count of minutes, and no text
    parses as a date.  The examples below use text, boolean and JSON
    attributes, which do not call into the runtime. *)

Module Sample.

Definition parse_int (s : string) : result Z :=
  match NilZero.int_of_string s with
  | Some n => Ok (Z.of_int n)
  | None => Raise (ValueError "invalid literal")
  end.

Definition toy_runtime : PyRuntime := {|
  float := Z;
  datetime := Z;
  float_eq_dec := Z.eq_dec;
  datetime_eq_dec := Z.eq_dec;
  int_of_str := parse_int;
  float_of_str := parse_int;
  float_of_int := fun n => Ok n;
  float_truth := fun x => negb (x =? 0);
  str_of_float := fun x => (PyStr.of_Z x ++ ".0")%string;
  str_of_datetime := PyStr.of_Z;
  strptime := fun _ _ => Raise (ValueError "does not match format")
|}.

#[local] Existing Instance toy_runtime.

(** The scenario of the specification: entity type CARGO_MASTER with
    the required, unique attribute CARGO_NAME. *)
Definition cargo_master : EntityType.t :=
  EntityType.Build 1 1 "CARGO_MASTER" true.

Definition cargo_name : AttributeDefinition.t :=
  AttributeDefinition.Build 1 1 "CARGO_NAME" "Cargo name" VARCHAR
    true true true.

Definition hazardous : AttributeDefinition.t :=
  AttributeDefinition.Build 2 1 "HAZARDOUS" "Hazardous" BOOLEAN
    false false true.

Definition payload : AttributeDefinition.t :=
  AttributeDefinition.Build 3 1 "PAYLOAD" "Payload" JSON
    false false true.

Definition coal : EntityInstance.t :=
  EntityInstance.Build 1 1 true "system" None.

Definition coal_again : EntityInstance.t :=
  EntityInstance.Build 2 1 true "system" None.

Definition iron_ore : EntityInstance.t :=
  EntityInstance.Build 3 1 true "system" None.

Definition unnamed : EntityInstance.t :=
  EntityInstance.Build 4 1 true "system" None.

Definition cargo_name_field : FormFieldConfiguration.t :=
  FormFieldConfiguration.Build 1 cargo_name true true.

Definition hazardous_field : FormFieldConfiguration.t :=
  FormFieldConfiguration.Build 1 hazardous true false.

Definition viewer_assignment : UserRole.t := UserRole.Build 1 10.
Definition clerk_assignment : UserRole.t := UserRole.Build 1 11.

Definition viewer_on_cargo : EntityPermission.t :=
  EntityPermission.Build 10 1 false false false false.

Definition clerk_on_cargo : EntityPermission.t :=
  EntityPermission.Build 11 1 true true false false.

(** One instance, named Coal and flagged hazardous. *)
Definition cargo_db : Database :=
  mkDatabase [cargo_master] [cargo_name; hazardous; payload]
    [cargo_name_field; hazardous_field] [coal]
    [AttributeValue.Build 1 1 "Coal"] [] []
    [AttributeValue.Build 1 2 true]
    [User.Build 1 "alice"; User.Build 2 "bob"]
    [viewer_assignment; clerk_assignment]
    [viewer_on_cargo; clerk_on_cargo].

(** Source instances Coal, Coal, Iron Ore and one without a name. *)
Definition dropdown_db : Database :=
  mkDatabase [cargo_master] [cargo_name; hazardous; payload]
    [cargo_name_field; hazardous_field]
    [iron_ore; coal; unnamed; coal_again]
    [AttributeValue.Build 1 1 "Coal"; AttributeValue.Build 2 1 "Coal";
     AttributeValue.Build 3 1 "Iron Ore"] [] [] []
    [] [] [].

(** The store after CARGO_NAME of the instance is set to Iron Ore. *)
Definition renamed_db : Database :=
  match set_attribute_value cargo_db coal "CARGO_NAME" (PStr "Iron Ore") with
  | Ok (_, db') => db'
  | Raise _ => cargo_db
  end.

Definition iron_ore_values : dict :=
  [("CARGO_NAME", PStr "Iron Ore"); ("HAZARDOUS", PBool false)].

(** The instance and the store of a creation with these values. *)
Definition created_instance : EntityInstance.t :=
  EntityInstance.Build 2 1 true "alice" None.

Definition created_db : Database :=
  snd (create_entity_instance_with_attributes cargo_db 1 iron_ore_values
         (Some "alice")).

(** The instance and the store of an update that clears CARGO_NAME. *)
Definition cleared_instance : EntityInstance.t :=
  EntityInstance.Build 1 1 true "system" (Some "alice").


(** The stamp of an update that writes nothing. *)
Definition stamped_db : Database :=
  snd (update_entity_instance_attributes cargo_db 1 [] (Some "alice")).

(** An attribute of numbers and its field, and a field on HAZARDOUS that
    is not visible. *)
Definition tonnage : AttributeDefinition.t :=
  AttributeDefinition.Build 4 1 "TONNAGE" "Tonnage" INT true false true.

Definition tonnage_field : FormFieldConfiguration.t :=
  FormFieldConfiguration.Build 1 tonnage true false.

(** A request that grants reading and nothing else on entity type 1. *)
Definition read_only : PermissionData :=
  mkPermissionData (Some 1) (Some true) None (Some false) None.

(** The store with the second user assigned the viewer role. *)
Definition viewer_db : Database :=
  with_user_roles cargo_db
    [viewer_assignment; clerk_assignment; UserRole.Build 2 10].

(** The store after the second user is assigned role 11. *)
Definition clerk_db : Database :=
  with_user_roles cargo_db
    (user_roles cargo_db ++ [UserRole.Build 2 11]).

(** The store after role 11 is removed from the first user. *)
Definition demoted_db : Database :=
  with_user_roles cargo_db [viewer_assignment].

(** The store after an update that clears HAZARDOUS. *)
Definition hazard_cleared_db : Database :=
  snd (update_entity_instance_attributes cargo_db 1 [("HAZARDOUS", PNone)]
         (Some "alice")).

(** The store after a creation with the name alone. *)
Definition named_db : Database :=
  snd (create_entity_instance_with_attributes cargo_db 1
         [("CARGO_NAME", PStr "Iron Ore")] (Some "alice")).

(** The store after the attribute HAZARDOUS is deleted. *)
Definition hazard_deleted_db : Database :=
  snd (delete_attribute cargo_db 1 2).

(** CARGO_NAME after its data type is edited to INT on the admin page,
    and the store then: the text row of the instance is still there. *)
Definition retyped_name : AttributeDefinition.t :=
  AttributeDefinition.Build 1 1 "CARGO_NAME" "Cargo name" INT
    true true true.

Definition retyped_db : Database :=
  with_attribute_definitions cargo_db [retyped_name; hazardous; payload].

(** The instance flagged as not hazardous. *)
Definition calm_db : Database :=
  with_boolean cargo_db [AttributeValue.Build 1 2 false].

(** Three cargoes with the codes A, B, C in row order; their names are
    in another order, and the names 9 and 10 tell the order of strings
    from the order of numbers. *)
Definition cargo_code : AttributeDefinition.t :=
  AttributeDefinition.Build 5 1 "CARGO_CODE" "Cargo code" VARCHAR
    true false true.

Definition sorting_db : Database :=
  mkDatabase [cargo_master] [cargo_name; cargo_code]
    [cargo_name_field]
    [coal; coal_again; iron_ore]
    [AttributeValue.Build 1 5 "A"; AttributeValue.Build 2 5 "B";
     AttributeValue.Build 3 5 "C";
     AttributeValue.Build 1 1 "9"; AttributeValue.Build 2 1 "Zinc";
     AttributeValue.Build 3 1 "10"] [] [] []
    [] [] [].

(** The store after an update that renames the instance and clears
    HAZARDOUS. *)
Definition relabelled_db : Database :=
  snd (update_entity_instance_attributes cargo_db 1
         [("CARGO_NAME", PStr "Iron Ore"); ("HAZARDOUS", PNone)]
         (Some "alice")).

End Sample.

(** ** Properties of the engine *)

Unset Implicit Arguments.

Section Properties.

Context {RT : PyRuntime}.

(** *** Value tables *)

Lemma row_of_true {V} (i a : Z) (r : AttributeValue.t V) :
  row_of i a r = true <-> row_key r = (i, a).
Proof.
  unfold row_of, row_key.
  rewrite andb_true_iff, !Z.eqb_eq.
  split.
  - intros [-> ->]; reflexivity.
  - intros H; inversion H; auto.
Qed.

Lemma row_of_false {V} (i a : Z) (r : AttributeValue.t V) :
  row_of i a r = false <-> row_key r <> (i, a).
Proof.
  rewrite <- row_of_true.
  destruct (row_of i a r); split; congruence.
Qed.

Lemma first_row_none {V} (rows : list (AttributeValue.t V)) (i a : Z) :
  first_row rows i a = None <-> ~ In (i, a) (map row_key rows).
Proof.
  unfold first_row.
  induction rows as [|r rows IH]; simpl.
  - tauto.
  - destruct (row_of i a r) eqn:E.
    + apply row_of_true in E. split; [discriminate | intros H; exfalso; auto].
    + apply row_of_false in E. rewrite IH. split.
      * intros H [H1 | H1]; auto.
      * intros H H1; apply H; auto.
Qed.

Lemma first_row_some {V} (rows : list (AttributeValue.t V)) (i a : Z) r :
  first_row rows i a = Some r -> In r rows /\ row_key r = (i, a).
Proof.
  unfold first_row; intros H.
  apply find_some in H as [H1 H2].
  split; [assumption | now apply row_of_true].
Qed.

Lemma update_first_keys {V} (i a : Z) (v : V) rows :
  map row_key (update_first i a v rows) = map row_key rows.
Proof.
  induction rows as [|r rows IH]; simpl; [reflexivity|].
  destruct (row_of i a r); simpl; [reflexivity | now rewrite IH].
Qed.

Lemma delete_first_keys {V} (i a : Z) (rows : list (AttributeValue.t V)) :
  NoDup (map row_key rows) ->
  forall k, In k (map row_key (delete_first i a rows))
            <-> In k (map row_key rows) /\ k <> (i, a).
Proof.
  induction rows as [|r rows IH]; simpl; intros ND k.
  - tauto.
  - inversion ND as [|? ? Hnotin ND']; subst.
    destruct (row_of i a r) eqn:E.
    + apply row_of_true in E. rewrite E in *. split.
      * intros H; split; [now right | intros ->; contradiction].
      * intros [[H | H] Hk]; [congruence | assumption].
    + apply row_of_false in E. simpl. rewrite (IH ND' k). split.
      * intros [H | [H1 H2]]; [subst; auto | auto].
      * intros [[H | H] Hk]; auto.
Qed.

Lemma delete_first_NoDup {V} (i a : Z) (rows : list (AttributeValue.t V)) :
  NoDup (map row_key rows) -> NoDup (map row_key (delete_first i a rows)).
Proof.
  induction rows as [|r rows IH]; simpl; intros ND; [assumption|].
  inversion ND as [|? ? Hnotin ND']; subst.
  destruct (row_of i a r); simpl; [assumption|].
  constructor; [|auto].
  intros H. apply (delete_first_keys i a rows ND') in H. tauto.
Qed.

(** Writing [None] leaves no row of the pair and keeps every other row
    of the table. *)
Lemma store_write_none_keys {V} (rows : list (AttributeValue.t V)) (i a : Z) :
  NoDup (map row_key rows) ->
  forall k, In k (map row_key (store_write rows i a None))
            <-> In k (map row_key rows) /\ k <> (i, a).
Proof.
  intros ND k. unfold store_write.
  destruct (first_row rows i a) eqn:E.
  - now apply delete_first_keys.
  - apply first_row_none in E. split.
    + intros H; split; [assumption | intros ->; contradiction].
    + tauto.
Qed.

(** Writing a value leaves the first row of the pair holding it. *)
Lemma first_row_update_first {V} (i a : Z) (v : V) rows r :
  first_row rows i a = Some r ->
  first_row (update_first i a v rows) i a
  = Some (AttributeValue.set_value r v).
Proof.
  unfold first_row.
  induction rows as [|x rows IH]; simpl; [discriminate|].
  destruct (row_of i a x) eqn:E; simpl.
  - intros [= ->].
    assert (E' : row_of i a (AttributeValue.set_value r v) = true)
      by (apply row_of_true; apply row_of_true in E; exact E).
    now rewrite E'.
  - rewrite E. exact IH.
Qed.

Lemma first_row_app_new {V} (i a : Z) (v : V) rows :
  first_row rows i a = None ->
  first_row (rows ++ [AttributeValue.Build i a v]) i a
  = Some (AttributeValue.Build i a v).
Proof.
  unfold first_row.
  induction rows as [|x rows IH]; simpl.
  - intros _. unfold row_of; simpl. now rewrite !Z.eqb_refl.
  - destruct (row_of i a x); [discriminate | exact IH].
Qed.

Lemma store_write_some_value {V} (rows : list (AttributeValue.t V))
    (i a : Z) (v : V) :
  option_map AttributeValue.value
    (first_row (store_write rows i a (Some v)) i a) = Some v.
Proof.
  unfold store_write.
  destruct (first_row rows i a) eqn:E.
  - now rewrite (first_row_update_first i a v rows _ E).
  - now rewrite (first_row_app_new i a v rows E).
Qed.

(** *** [set] and [get] do not change the schema *)

Lemma attribute_by_code_in (db : Database) e c a :
  attribute_by_code db e c = Some a ->
  In a (attribute_definitions db)
  /\ AttributeDefinition.entity_type_id a = e
  /\ AttributeDefinition.code a = c.
Proof.
  unfold attribute_by_code; intros H.
  apply find_some in H as [H1 H2].
  apply andb_true_iff in H2 as [H2 H3].
  apply Z.eqb_eq in H2. apply String.eqb_eq in H3. auto.
Qed.

(** *** Clearing an attribute *)

Lemma has_row_with_text db rows s i a :
  has_row (with_text db rows) s i a
  <-> match s with
      | TextStore => In (i, a) (map row_key rows)
      | _ => has_row db s i a
      end.
Proof. destruct s; reflexivity. Qed.

Lemma has_row_with_numeric db rows s i a :
  has_row (with_numeric db rows) s i a
  <-> match s with
      | NumericStore => In (i, a) (map row_key rows)
      | _ => has_row db s i a
      end.
Proof. destruct s; reflexivity. Qed.

Lemma has_row_with_datetime db rows s i a :
  has_row (with_datetime db rows) s i a
  <-> match s with
      | DatetimeStore => In (i, a) (map row_key rows)
      | _ => has_row db s i a
      end.
Proof. destruct s; reflexivity. Qed.

Lemma has_row_with_boolean db rows s i a :
  has_row (with_boolean db rows) s i a
  <-> match s with
      | BooleanStore => In (i, a) (map row_key rows)
      | _ => has_row db s i a
      end.
Proof. destruct s; reflexivity. Qed.

(** An attribute with no row in the table of its type reads as [None]. *)
Lemma get_none_of_no_row db I A a :
  attribute_by_code db (EntityInstance.entity_type_id I) A = Some a ->
  (forall s, store_of (AttributeDefinition.data_type a) = Some s ->
             ~ has_row db s (EntityInstance.id I) (AttributeDefinition.id a)) ->
  get_attribute_value db I A = PNone.
Proof.
  intros Ha Hno. unfold get_attribute_value. rewrite Ha.
  destruct (AttributeDefinition.data_type a); try reflexivity;
    match goal with
    | |- context [first_row ?rows ?i ?k] =>
        let E := fresh "E" in
        destruct (first_row rows i k) eqn:E; [exfalso | reflexivity];
        apply first_row_some in E as [E1 E2];
        apply (in_map row_key) in E1; rewrite E2 in E1
    end.
  all: first [ exact (Hno TextStore eq_refl E1)
             | exact (Hno NumericStore eq_refl E1)
             | exact (Hno DatetimeStore eq_refl E1)
             | exact (Hno BooleanStore eq_refl E1) ].
Qed.

(** *** JSON attributes *)

(** C9. For an attribute whose data type is JSON, [set_attribute_value]
    returns [True] and leaves the store, and so every value table, as
    it was, whatever the value; [get_attribute_value] returns [None],
    before the write and after it. *)
Theorem json_attribute_is_never_stored (db : Database)
    (self : EntityInstance.t) (attribute_code : string)
    (attr_def : AttributeDefinition.t) (value : pyval) :
  attribute_by_code db (EntityInstance.entity_type_id self) attribute_code
  = Some attr_def ->
  AttributeDefinition.data_type attr_def = JSON ->
  set_attribute_value db self attribute_code value = Ok (true, db)
  /\ get_attribute_value db self attribute_code = PNone
  /\ (forall db',
         set_attribute_value db self attribute_code value = Ok (true, db') ->
         get_attribute_value db' self attribute_code = PNone).
Proof.
  intros Ha Ty.
  assert (Hset : set_attribute_value db self attribute_code value
                 = Ok (true, db))
    by (unfold set_attribute_value; now rewrite Ha, Ty).
  assert (Hget : get_attribute_value db self attribute_code = PNone)
    by (unfold get_attribute_value; now rewrite Ha, Ty).
  repeat split; try assumption.
  intros db' H. rewrite Hset in H. now inversion H; subst.
Qed.

(** *** Permissions *)

Lemma existsb_pointwise {A} (f g : A -> bool) (l : list A) :
  (forall x, f x = g x) -> existsb f l = existsb g l.
Proof.
  intros E. induction l as [|x l IH]; simpl; [reflexivity|].
  now rewrite E, IH.
Qed.

Lemma filter_none {A} (f : A -> bool) (l : list A) :
  (forall x, In x l -> f x = false) -> filter f l = [].
Proof.
  induction l as [|x l IH]; simpl; intros H; [reflexivity|].
  rewrite (H x (or_introl eq_refl)). apply IH. intros y Hy. apply H. now right.
Qed.

Lemma user_by_id_some db user_id user :
  user_by_id db user_id = Some user ->
  In user (users db) /\ User.id user = user_id.
Proof.
  unfold user_by_id; intros H.
  apply find_some in H as [H1 H2]. apply Z.eqb_eq in H2. auto.
Qed.

Lemma aggregate_spec permissions r :
  aggregate permissions r
  = mkPermissions
      (can_read r || existsb EntityPermission.can_read permissions)
      (can_create r || existsb EntityPermission.can_create permissions)
      (can_update r || existsb EntityPermission.can_update permissions)
      (can_delete r || existsb EntityPermission.can_delete permissions).
Proof.
  revert r.
  induction permissions as [|perm rest IH]; intros r; simpl.
  - destruct r; simpl. now rewrite !orb_false_r.
  - rewrite IH; simpl.
    destruct (EntityPermission.can_read perm),
      (EntityPermission.can_create perm),
      (EntityPermission.can_update perm),
      (EntityPermission.can_delete perm); simpl;
      rewrite ?orb_true_r; reflexivity.
Qed.

Lemma check_loop_spec operation permissions :
  check_loop operation permissions
  = existsb (fun p =>
               String.eqb operation "READ" && EntityPermission.can_read p
               || String.eqb operation "CREATE"
                  && EntityPermission.can_create p
               || String.eqb operation "UPDATE"
                  && EntityPermission.can_update p
               || String.eqb operation "DELETE"
                  && EntityPermission.can_delete p)
      permissions.
Proof.
  induction permissions as [|p rest IH]; simpl; [reflexivity|].
  rewrite IH.
  destruct (String.eqb operation "READ" && EntityPermission.can_read p),
    (String.eqb operation "CREATE" && EntityPermission.can_create p),
    (String.eqb operation "UPDATE" && EntityPermission.can_update p),
    (String.eqb operation "DELETE" && EntityPermission.can_delete p);
    reflexivity.
Qed.

(** The rows the two permission functions load are the rows of the
    roles assigned to the user, on the entity type. *)
Lemma permissions_for_user db user entity_type_id p :
  In p (permissions_for db (role_ids_of db user) entity_type_id)
  <-> In p (entity_permissions db)
      /\ EntityPermission.entity_type_id p = entity_type_id
      /\ exists ur, In ur (user_roles db)
                    /\ UserRole.user_id ur = User.id user
                    /\ UserRole.role_id ur = EntityPermission.role_id p.
Proof.
  unfold permissions_for, role_ids_of.
  rewrite filter_In, andb_true_iff, existsb_exists, Z.eqb_eq.
  split.
  - intros (Hp & (r & Hr & Hrp) & He).
    apply Z.eqb_eq in Hrp. apply in_map_iff in Hr as (ur & <- & Hur).
    apply filter_In in Hur as (Hur & Hu). apply Z.eqb_eq in Hu.
    repeat split; auto. exists ur; auto.
  - intros (Hp & He & ur & Hur & Hu & Hr).
    repeat split; auto.
    exists (UserRole.role_id ur). split.
    + apply in_map. apply filter_In. split; [assumption|].
      now apply Z.eqb_eq.
    + now apply Z.eqb_eq.
Qed.

Lemma existsb_granted db user_id user entity_type_id flag :
  user_by_id db user_id = Some user ->
  existsb flag (permissions_for db (role_ids_of db user) entity_type_id)
  = true
  <-> granted db user_id entity_type_id flag.
Proof.
  intros Hu. apply user_by_id_some in Hu as [_ Hid].
  rewrite existsb_exists. unfold granted. split.
  - intros (p & Hp & Hf).
    apply permissions_for_user in Hp as (Hp & He & ur & Hur & Huid & Hr).
    exists p, ur. repeat split; auto. congruence.
  - intros (p & ur & Hp & Hur & Huid & Hr & He & Hf).
    exists p. split; [|assumption].
    apply permissions_for_user. repeat split; auto.
    exists ur. repeat split; auto. congruence.
Qed.

(** C4. For a user and an entity type, each of the four flags
    [get_user_permissions] returns is the logical OR of that flag over
    the permission rows, on that entity type, of the roles assigned to
    the user: the flag is true exactly when one such row grants it.  A
    role with no row contributes nothing, a row that denies does not
    undo a row that grants, and [check_user_permissions] answers with
    the same flag for each of the four operations. *)
Theorem permissions_are_or_over_roles (db : Database)
    (user_id entity_type_id : Z) (user : User.t) :
  user_by_id db user_id = Some user ->
  let r := get_user_permissions db user_id entity_type_id in
  (can_read r = true
   <-> granted db user_id entity_type_id EntityPermission.can_read)
  /\ (can_create r = true
      <-> granted db user_id entity_type_id EntityPermission.can_create)
  /\ (can_update r = true
      <-> granted db user_id entity_type_id EntityPermission.can_update)
  /\ (can_delete r = true
      <-> granted db user_id entity_type_id EntityPermission.can_delete)
  /\ check_user_permissions db user_id entity_type_id "READ" = can_read r
  /\ check_user_permissions db user_id entity_type_id "CREATE"
     = can_create r
  /\ check_user_permissions db user_id entity_type_id "UPDATE"
     = can_update r
  /\ check_user_permissions db user_id entity_type_id "DELETE"
     = can_delete r.
Proof.
  intros Hu r. subst r.
  unfold get_user_permissions, check_user_permissions. rewrite Hu.
  rewrite aggregate_spec; cbn [can_read can_create can_update can_delete
                                 no_permissions orb].
  repeat split;
    try (apply (existsb_granted db user_id user entity_type_id _ Hu));
    try (intros H; apply (existsb_granted db user_id user entity_type_id _ Hu);
         exact H);
    rewrite check_loop_spec; apply existsb_pointwise; intros p; cbn;
    rewrite ?orb_false_r; reflexivity.
Qed.

(** C10. For a user id that is not the id of a user, and for a user with
    no role assignment, [get_user_permissions] returns the four flags
    false and [check_user_permissions] returns false for every
    operation; both are total, so nothing is raised. *)
Theorem no_user_or_no_role_no_permission (db : Database)
    (user_id entity_type_id : Z) :
  user_by_id db user_id = None
  \/ (forall ur, In ur (user_roles db) -> UserRole.user_id ur <> user_id) ->
  get_user_permissions db user_id entity_type_id = no_permissions
  /\ forall operation,
       check_user_permissions db user_id entity_type_id operation = false.
Proof.
  intros H.
  unfold get_user_permissions, check_user_permissions.
  destruct (user_by_id db user_id) as [user|] eqn:Hu; [|split; reflexivity].
  destruct H as [H | H]; [discriminate|].
  apply user_by_id_some in Hu as [_ Hid].
  assert (Hroles : role_ids_of db user = []).
  { unfold role_ids_of. rewrite filter_none; [reflexivity|].
    intros ur Hur. apply Z.eqb_neq. rewrite Hid. now apply H. }
  rewrite Hroles. unfold permissions_for.
  rewrite filter_none; [split; reflexivity|].
  intros p _. reflexivity.
Qed.

(** *** Sorting the options *)

Lemma string_leb_trans (a b c : string) :
  String.leb a b = true -> String.leb b c = true -> String.leb a c = true.
Proof.
  unfold String.leb.
  revert b c.
  induction a as [|x a IH]; intros b c.
  - destruct c; simpl; reflexivity.
  - destruct b as [|y b]; simpl; [discriminate|].
    destruct c as [|z c]; simpl; [intros _ H; exact H|].
    unfold Ascii.compare.
    destruct (N.compare_spec (N_of_ascii x) (N_of_ascii y)) as [Exy|Lxy|Gxy];
      destruct (N.compare_spec (N_of_ascii y) (N_of_ascii z)) as [Eyz|Lyz|Gyz];
      destruct (N.compare_spec (N_of_ascii x) (N_of_ascii z)) as [Exz|Lxz|Gxz];
      try discriminate; try reflexivity; try (exfalso; lia).
    apply IH.
Qed.

Lemma insert_by_label_perm x l :
  Permutation (insert_by_label x l) (x :: l).
Proof.
  induction l as [|y l IH]; simpl; [reflexivity|].
  destruct (String.leb (sort_key x) (sort_key y)); [reflexivity|].
  rewrite IH. apply perm_swap.
Qed.

Lemma sort_by_label_perm l : Permutation (sort_by_label l) l.
Proof.
  induction l as [|x l IH]; simpl; [reflexivity|].
  rewrite insert_by_label_perm. now constructor.
Qed.

Lemma insert_by_label_sorted x l :
  Sorted label_le l -> Sorted label_le (insert_by_label x l).
Proof.
  induction l as [|y l IH]; simpl; intros S.
  - repeat constructor.
  - destruct (String.leb (sort_key x) (sort_key y)) eqn:E.
    + constructor; [assumption|]. constructor. exact E.
    + inversion S as [|? ? S' Hd]; subst.
      constructor; [now apply IH|].
      assert (Eyx : label_le y x).
      { unfold label_le. unfold sort_key in E.
        destruct (String.leb_total (py_str (option_label x))
                    (py_str (option_label y))); congruence. }
      destruct l as [|z l]; simpl.
      * now constructor.
      * destruct (String.leb (sort_key x) (sort_key z)).
        -- now constructor.
        -- inversion Hd; subst. now constructor.
Qed.

Lemma sort_by_label_sorted l : Sorted label_le (sort_by_label l).
Proof.
  induction l as [|x l IH]; simpl; [constructor|].
  now apply insert_by_label_sorted.
Qed.

Lemma sort_by_label_strongly_sorted l :
  StronglySorted label_le (sort_by_label l).
Proof.
  apply Sorted_StronglySorted; [|apply sort_by_label_sorted].
  intros x y z. unfold label_le. apply string_leb_trans.
Qed.

Lemma label_le_text x y : label_le x y -> text_label_le x y.
Proof.
  unfold label_le, text_label_le. intros H a b Ex Ey.
  rewrite Ex, Ey in H. exact H.
Qed.

Lemma StronglySorted_weaken {A} (R R' : A -> A -> Prop) (l : list A) :
  (forall x y, R x y -> R' x y) ->
  StronglySorted R l -> StronglySorted R' l.
Proof.
  intros Sub S. induction S as [|x l S IH F]; constructor.
  - exact IH.
  - revert F. apply Forall_impl. intros y. apply Sub.
Qed.

(** *** Collecting the options *)

Lemma seen_in x l : seen x l = true <-> In x l.
Proof.
  unfold seen. rewrite existsb_exists. split.
  - intros (y & Hy & E). unfold pyval_eqb in E.
    destruct (pyval_eq_dec x y); [now subst | discriminate].
  - intros H. exists x. split; [assumption|].
    unfold pyval_eqb. destruct (pyval_eq_dec x x); congruence.
Qed.

Lemma is_not_none_true v : is_not_none v = true <-> v <> PNone.
Proof. destruct v; simpl; split; congruence. Qed.

(** An option comes from the options already collected or from an
    instance of the list whose source value is not [None]. *)
Lemma collect_options_origin db src disp u instances :
  forall options seen_values o,
    In o (collect_options db src disp u instances options seen_values) ->
    In o options
    \/ exists instance,
         In instance instances
         /\ option_instance_id o = EntityInstance.id instance
         /\ option_value o = get_attribute_value db instance src
         /\ option_value o <> PNone
         /\ option_label o
            = py_or (get_attribute_value db instance disp) (option_value o).
Proof.
  induction instances as [|inst rest IH]; simpl; intros options sv o H.
  - now left.
  - destruct (is_not_none (get_attribute_value db inst src)) eqn:N.
    + destruct (u && seen (get_attribute_value db inst src) sv).
      * apply IH in H as [H | (j & Hj & Hrest)]; [now left|].
        right. exists j. split; [now right | exact Hrest].
      * apply IH in H as [H | (j & Hj & Hrest)].
        -- apply in_app_or in H as [H | [<- | []]]; [now left|].
           right. exists inst. simpl. repeat split; auto.
           now apply is_not_none_true.
        -- right. exists j. split; [now right | exact Hrest].
    + apply IH in H as [H | (j & Hj & Hrest)]; [now left|].
      right. exists j. split; [now right | exact Hrest].
Qed.

(** With [unique_only], no value is offered twice. *)
Lemma collect_options_nodup db src disp instances :
  forall options seen_values,
    NoDup (map option_value options) ->
    (forall o, In o options -> In (option_value o) seen_values) ->
    NoDup (map option_value
             (collect_options db src disp true instances options
                seen_values)).
Proof.
  induction instances as [|inst rest IH]; cbn [collect_options andb];
    intros options sv ND Sub.
  - assumption.
  - destruct (is_not_none (get_attribute_value db inst src)).
    + destruct (seen (get_attribute_value db inst src) sv) eqn:Hseen.
      * now apply IH.
      * apply IH.
        -- rewrite map_app; cbn [map option_value].
           apply NoDup_app; [assumption | repeat constructor; auto |].
           intros v Hv [E | []]. subst v.
           apply in_map_iff in Hv as (o & Eo & Ho).
           apply Sub in Ho. rewrite Eo in Ho.
           apply seen_in in Ho. congruence.
        -- intros o Ho. apply in_app_or in Ho as [Ho | [<- | []]].
           ++ right. now apply Sub.
           ++ now left.
    + now apply IH.
Qed.

(** Options are only ever added. *)
Lemma collect_options_keeps db src disp u instances :
  forall options seen_values o,
    In o options ->
    In o (collect_options db src disp u instances options seen_values).
Proof.
  induction instances as [|inst rest IH]; cbn [collect_options];
    intros options sv o H.
  - assumption.
  - destruct (is_not_none (get_attribute_value db inst src)).
    + destruct (u && seen (get_attribute_value db inst src) sv).
      * now apply IH.
      * apply IH. apply in_or_app. now left.
    + now apply IH.
Qed.

(** The first instance that carries a value gives the option of that
    value. *)
Lemma collect_options_first db src disp u before instance after :
  forall options seen_values,
    get_attribute_value db instance src <> PNone ->
    ~ In (get_attribute_value db instance src) seen_values ->
    (forall j, In j before ->
               get_attribute_value db j src
               <> get_attribute_value db instance src) ->
    In (mkOption (get_attribute_value db instance src)
          (py_or (get_attribute_value db instance disp)
             (get_attribute_value db instance src))
          (EntityInstance.id instance))
       (collect_options db src disp u (before ++ instance :: after)
          options seen_values).
Proof.
  induction before as [|j before IH]; cbn [app collect_options];
    intros options sv Hv Hs Hb.
  - apply is_not_none_true in Hv. rewrite Hv.
    replace (seen (get_attribute_value db instance src) sv) with false.
    + rewrite andb_false_r. apply collect_options_keeps.
      apply in_or_app. right. now left.
    + symmetry. destruct (seen _ sv) eqn:E; [|reflexivity].
      apply seen_in in E. contradiction.
  - assert (Hb' : forall j0, In j0 before ->
                     get_attribute_value db j0 src
                     <> get_attribute_value db instance src)
      by (intros j0 Hj0; apply Hb; now right).
    destruct (is_not_none (get_attribute_value db j src)).
    + destruct (u && seen (get_attribute_value db j src) sv).
      * now apply IH.
      * apply IH; auto.
        intros [E | E]; [|contradiction].
        apply (Hb j); [now left | assumption].
    + now apply IH.
Qed.

(** *** Dropdown options *)

(** C8. With [unique_only] the list [get_dropdown_options] returns
    never holds two options with the same value; it is sorted by label
    ascending, the labels compared as strings: an option that comes
    before another has the smaller [str] of its label, and of two text
    labels the smaller text; every option is the non-null source value
    of an active instance of the entity type, so instances whose source
    value is null are skipped; and of the instances that share a value
    the first one gives the option. *)
Theorem dropdown_options_unique_sorted (db : Database) (entity_type_id : Z)
    (source_attribute_code : string)
    (display_attribute_code : option string) :
  let r := get_dropdown_options db entity_type_id source_attribute_code
             display_attribute_code true in
  NoDup (map option_value r)
  /\ StronglySorted label_le r
  /\ StronglySorted text_label_le r
  /\ (forall o, In o r ->
        exists instance,
          In instance (active_instances db entity_type_id)
          /\ option_instance_id o = EntityInstance.id instance
          /\ option_value o
             = get_attribute_value db instance source_attribute_code
          /\ option_value o <> PNone)
  /\ (forall e source_attr before instance after,
        find (fun e => EntityType.id e =? entity_type_id) (entity_types db)
        = Some e ->
        active_attribute_by_code db entity_type_id source_attribute_code
        = Some source_attr ->
        active_instances db entity_type_id = before ++ instance :: after ->
        get_attribute_value db instance source_attribute_code <> PNone ->
        (forall j, In j before ->
                   get_attribute_value db j source_attribute_code
                   <> get_attribute_value db instance source_attribute_code) ->
        exists o,
          In o r
          /\ option_value o
             = get_attribute_value db instance source_attribute_code
          /\ option_instance_id o = EntityInstance.id instance).
Proof.
  intros r. subst r. unfold get_dropdown_options.
  destruct (find (fun e => EntityType.id e =? entity_type_id)
              (entity_types db)) as [e0|] eqn:He.
  2: { repeat split; try constructor; try (intros ? []).
       intros; discriminate. }
  destruct (active_attribute_by_code db entity_type_id
              source_attribute_code) as [sa|] eqn:Hs.
  2: { repeat split; try constructor; try (intros ? []).
       intros; discriminate. }
  set (disp := AttributeDefinition.code
                 (display_attribute db entity_type_id sa
                    source_attribute_code display_attribute_code)).
  set (opts := collect_options db source_attribute_code disp true
                 (active_instances db entity_type_id) [] []).
  pose proof (sort_by_label_perm opts) as P.
  split; [|split; [|split; [|split]]].
  - apply (Permutation_NoDup (Permutation_map option_value
                                (Permutation_sym P))).
    apply collect_options_nodup; [constructor | intros ? []].
  - apply sort_by_label_strongly_sorted.
  - apply (StronglySorted_weaken label_le text_label_le _ label_le_text).
    apply sort_by_label_strongly_sorted.
  - intros o Ho.
    apply (Permutation_in _ P) in Ho.
    apply collect_options_origin in Ho as [[] | (inst & Hi & Hid & Hv & Hn & _)].
    exists inst. auto.
  - intros e source_attr before instance after _ _ Hsplit Hv Hb.
    eexists. split.
    + apply (Permutation_in _ (Permutation_sym P)).
      unfold opts. rewrite Hsplit.
      apply collect_options_first; [assumption | intros [] | assumption].
    + split; reflexivity.
Qed.

(** C7, as the code has it.  When the source entity type does not
    resolve, or the source attribute code does not resolve, the result
    is the empty list; when the display attribute code does not
    resolve, the labels fall back on the source attribute and the result
    is the one of a call without a display attribute.  The function is
    total: no exception leaves it. *)
Theorem dropdown_options_unresolved (db : Database) (entity_type_id : Z)
    (source_attribute_code : string)
    (display_attribute_code : option string) (unique_only : bool) :
  (find (fun e => EntityType.id e =? entity_type_id) (entity_types db)
   = None
   \/ active_attribute_by_code db entity_type_id source_attribute_code
      = None ->
   get_dropdown_options db entity_type_id source_attribute_code
     display_attribute_code unique_only = [])
  /\ (forall d,
        active_attribute_by_code db entity_type_id d = None ->
        get_dropdown_options db entity_type_id source_attribute_code
          (Some d) unique_only
        = get_dropdown_options db entity_type_id source_attribute_code
            None unique_only).
Proof.
  unfold get_dropdown_options. split.
  - intros [H | H].
    + now rewrite H.
    + rewrite H. now destruct (find _ (entity_types db)).
  - intros d Hd.
    destruct (find _ (entity_types db)); [|reflexivity].
    destruct (active_attribute_by_code db entity_type_id
                source_attribute_code); [|reflexivity].
    unfold display_attribute. rewrite Hd.
    now destruct (negb (String.eqb d "")
                  && negb (String.eqb d source_attribute_code)).
Qed.

(** *** Form data *)

Lemma mem_in x ws : PyStr.mem x ws = true <-> In x ws.
Proof.
  unfold PyStr.mem. rewrite existsb_exists. split.
  - intros (w & Hw & E). apply String.eqb_eq in E. now subst.
  - intros H. exists x. split; [assumption | apply String.eqb_refl].
Qed.

(** Writing a value and reading it back, for a value the table of the
    attribute holds as it is. *)
Lemma set_boolean_then_get db self code attr_def b :
  attribute_by_code db (EntityInstance.entity_type_id self) code
  = Some attr_def ->
  AttributeDefinition.data_type attr_def = BOOLEAN ->
  exists db',
    set_attribute_value db self code (PBool b) = Ok (true, db')
    /\ get_attribute_value db' self code = PBool b
    /\ option_map AttributeValue.value
         (first_row (attribute_values_boolean db') (EntityInstance.id self)
            (AttributeDefinition.id attr_def)) = Some b.
Proof.
  intros Ha Ty. unfold set_attribute_value, get_attribute_value.
  rewrite Ha, Ty. cbn [is_not_none py_bool].
  eexists. split; [reflexivity|].
  unfold attribute_by_code in *.
  cbn [attribute_definitions with_boolean attribute_values_boolean].
  rewrite Ha, Ty.
  pose proof (store_write_some_value (attribute_values_boolean db)
                (EntityInstance.id self) (AttributeDefinition.id attr_def) b)
    as W.
  destruct (first_row _ _ _) as [row|]; [|discriminate].
  simpl in W. inversion W; subst. split; reflexivity.
Qed.

(** Any value that is not [None] is stored as its [bool]. *)
Lemma set_boolean_value_then_get db self code attr_def v :
  attribute_by_code db (EntityInstance.entity_type_id self) code
  = Some attr_def ->
  AttributeDefinition.data_type attr_def = BOOLEAN ->
  v <> PNone ->
  exists db',
    set_attribute_value db self code v = Ok (true, db')
    /\ get_attribute_value db' self code = PBool (py_bool v)
    /\ option_map AttributeValue.value
         (first_row (attribute_values_boolean db') (EntityInstance.id self)
            (AttributeDefinition.id attr_def)) = Some (py_bool v).
Proof.
  intros Ha Ty Hv. apply is_not_none_true in Hv.
  unfold set_attribute_value, get_attribute_value.
  rewrite Ha, Ty, Hv.
  eexists. split; [reflexivity|].
  unfold attribute_by_code in *.
  cbn [attribute_definitions with_boolean attribute_values_boolean].
  rewrite Ha, Ty.
  pose proof (store_write_some_value (attribute_values_boolean db)
                (EntityInstance.id self) (AttributeDefinition.id attr_def)
                (py_bool v)) as W.
  destruct (first_row _ _ _) as [row|]; [|discriminate].
  simpl in W. inversion W; subst. split; reflexivity.
Qed.

(** *** Case

    [lower] sends a character to a small character exactly when the two
    are the same letter. *)
Lemma lower_char_small c d :
  small_char d -> (PyStr.lower_char c = d <-> same_letter c d).
Proof.
  intros [Hlt Hnc]. unfold PyStr.lower_char, same_letter.
  pose proof (N_ascii_bounded c) as Bc.
  destruct ((((65 <=? N_of_ascii c) && (N_of_ascii c <=? 90))
             || ((192 <=? N_of_ascii c) && (N_of_ascii c <=? 214))
             || ((216 <=? N_of_ascii c) && (N_of_ascii c <=? 222)))%N) eqn:C.
  - assert (HC : (65 <= N_of_ascii c <= 90
                  \/ 192 <= N_of_ascii c <= 214
                  \/ 216 <= N_of_ascii c <= 222)%N).
    { rewrite !orb_true_iff, !andb_true_iff, !N.leb_le in C. lia. }
    split.
    + intros <-. rewrite N_ascii_embedding in Hlt by lia.
      right; left. split; [lia|].
      rewrite N_ascii_embedding by lia. reflexivity.
    + intros [E | [[Hc E] | [Hd E]]].
      * subst d. exfalso. lia.
      * rewrite <- E. apply ascii_N_embedding.
      * exfalso. apply Hnc. exact Hd.
  - assert (HC : ~ (65 <= N_of_ascii c <= 90)%N).
    { rewrite !orb_false_iff, !andb_false_iff, !N.leb_gt in C. lia. }
    split.
    + intros ->. now left.
    + intros [E | [[Hc E] | [Hd E]]].
      * exact E.
      * exfalso. apply HC. exact Hc.
      * exfalso. apply Hnc. exact Hd.
Qed.

Lemma lower_small_word s :
  forall w, small_word w -> (PyStr.lower s = w <-> same_ignoring_case s w).
Proof.
  induction s as [|c s IH]; intros [|d w] Hw; cbn [PyStr.lower
    same_ignoring_case].
  - tauto.
  - split; [discriminate | contradiction].
  - split; [discriminate | contradiction].
  - destruct Hw as [Hd Hw].
    rewrite <- (lower_char_small c d Hd), <- (IH w Hw).
    split.
    + intros E. inversion E. split; reflexivity.
    + intros [-> ->]. reflexivity.
Qed.

Lemma true_words_small w :
  In w ["true"; "1"; "yes"; "on"] -> small_word w.
Proof.
  intros [<- | [<- | [<- | [<- | []]]]]; cbn; unfold small_char; cbn;
    repeat split; lia.
Qed.

(** C6, as the code has it.  A BOOLEAN attribute is written from a
    form through [process_form_data]: for a visible field and a
    submitted value that is not blank, the boolean handed to the store
    is true exactly when the value is one of "true", "1", "yes", "on"
    with case ignored, and false otherwise, and
    [set_attribute_value] stores that boolean.  A value that is missing
    or blank stores no boolean: the field is passed over when it is
    required, and [None] is entered for it otherwise.
    [set_attribute_value] itself stores [bool(value)] for every value
    that is not [None]: for a string, true exactly when the string is
    not empty. *)
Theorem boolean_write_from_form_and_direct (db : Database)
    (self : EntityInstance.t) (field : FormFieldConfiguration.t)
    (form : request_form) (attribute_values : dict) :
  let attr := FormFieldConfiguration.attribute_definition field in
  let code := AttributeDefinition.code attr in
  AttributeDefinition.data_type attr = BOOLEAN ->
  FormFieldConfiguration.is_visible field = true ->
  attribute_by_code db (EntityInstance.entity_type_id self) code
  = Some attr ->
  (forall value : string,
      form_get form ("attr_" ++ code)%string = Some value ->
      is_empty_value (Some value) = false ->
      exists b : bool,
        process_field field form attribute_values
        = Ok (dict_set attribute_values code (PBool b))
        /\ process_form_data [field] form = Ok [(code, PBool b)]
        /\ (b = true
            <-> exists w,
                  In w ["true"; "1"; "yes"; "on"]
                  /\ same_ignoring_case value w)
        /\ exists db',
             set_attribute_value db self code (PBool b) = Ok (true, db')
             /\ get_attribute_value db' self code = PBool b
             /\ option_map AttributeValue.value
                  (first_row (attribute_values_boolean db')
                     (EntityInstance.id self) (AttributeDefinition.id attr))
                = Some b)
  /\ (is_empty_value (form_get form ("attr_" ++ code)%string) = true ->
      process_field field form attribute_values
      = Ok (if FormFieldConfiguration.is_required field
               || AttributeDefinition.is_required attr
            then attribute_values
            else dict_set attribute_values code PNone))
  /\ (forall v : pyval,
         v <> PNone ->
         exists db',
           set_attribute_value db self code v = Ok (true, db')
           /\ get_attribute_value db' self code = PBool (py_bool v)
           /\ option_map AttributeValue.value
                (first_row (attribute_values_boolean db')
                   (EntityInstance.id self) (AttributeDefinition.id attr))
              = Some (py_bool v))
  /\ (forall s : string, py_bool (PStr s) = true <-> s <> "").
Proof.
  intros attr code Ty Vis Ha.
  split; [|split; [|split]].
  - intros value Hget Hne.
    exists (PyStr.mem (PyStr.lower value) true_words).
    assert (Step : forall acc,
               process_field field form acc
               = Ok (dict_set acc code
                       (PBool (PyStr.mem (PyStr.lower value) true_words)))).
    { intros acc. unfold process_field. fold attr. fold code.
      rewrite Vis, Hget, Hne, Ty. reflexivity. }
    split; [apply Step|].
    split; [unfold process_form_data; cbn [process_fields];
            rewrite Step; reflexivity|].
    split.
    + rewrite mem_in. unfold true_words. split.
      * intros H. exists (PyStr.lower value). split; [assumption|].
        apply (lower_small_word value _ (true_words_small _ H)).
        reflexivity.
      * intros (w & Hw & E).
        apply (lower_small_word value w (true_words_small w Hw)) in E.
        rewrite E. exact Hw.
    + now apply set_boolean_then_get.
  - intros Emp. unfold process_field. fold attr. fold code.
    rewrite Vis, Emp. cbn [negb].
    now destruct (FormFieldConfiguration.is_required field
                  || AttributeDefinition.is_required attr).
  - intros v Hv. now apply set_boolean_value_then_get.
  - intros s. cbn [py_bool]. destruct s as [|c s]; cbn.
    + split; [discriminate | intros H; now contradiction H].
    + split; [intros _; discriminate | intros _; reflexivity].
Qed.

Lemma process_fields_app before after form attribute_values :
  process_fields (before ++ after) form attribute_values
  = match process_fields before form attribute_values with
    | Ok attribute_values' => process_fields after form attribute_values'
    | Raise e => Raise e
    end.
Proof.
  revert attribute_values.
  induction before as [|f before IH]; intros acc; cbn [app process_fields].
  - reflexivity.
  - destruct (process_field f form acc); [apply IH | reflexivity].
Qed.

(** C5, as the code has it.  A field whose attribute is required, on the
    field configuration or on the attribute definition, and whose
    submitted value is missing or blank raises nothing and writes
    nothing into the attribute values: the submission is processed as
    if the form did not have the field. *)
Theorem required_blank_field_is_skipped (field : FormFieldConfiguration.t)
    (form : request_form) :
  FormFieldConfiguration.is_required field
  || AttributeDefinition.is_required
       (FormFieldConfiguration.attribute_definition field) = true ->
  is_empty_value
    (form_get form
       ("attr_" ++ AttributeDefinition.code
                     (FormFieldConfiguration.attribute_definition field))%string)
  = true ->
  (forall attribute_values,
      process_field field form attribute_values = Ok attribute_values)
  /\ (forall before after,
         process_form_data (before ++ field :: after) form
         = process_form_data (before ++ after) form).
Proof.
  intros Req Emp.
  assert (Step : forall acc, process_field field form acc = Ok acc).
  { intros acc. unfold process_field. rewrite Emp, Req.
    now destruct (FormFieldConfiguration.is_visible field). }
  split; [exact Step|].
  intros before after. unfold process_form_data.
  rewrite !process_fields_app.
  destruct (process_fields before form []); [|reflexivity].
  cbn [process_fields]. now rewrite Step.
Qed.

(** *** Creating instances *)

Lemma next_id_fresh ids x : In x ids -> x < next_id ids.
Proof.
  unfold next_id.
  induction ids as [|y ids IH]; cbn [fold_right In]; intros H;
    [contradiction|].
  destruct H as [-> | H]; [lia|].
  specialize (IH H). lia.
Qed.

Lemma first_row_app_other {V} (rows : list (AttributeValue.t V)) i a i' a' v :
  (i', a') <> (i, a) ->
  first_row (rows ++ [AttributeValue.Build i a v]) i' a' = first_row rows i' a'.
Proof.
  intros Hne. unfold first_row.
  induction rows as [|r rows IH]; simpl.
  - replace (row_of i' a' (AttributeValue.Build i a v)) with false;
      [reflexivity|].
    symmetry. apply row_of_false. unfold row_key; simpl. congruence.
  - destruct (row_of i' a' r); [reflexivity | exact IH].
Qed.

Lemma first_row_update_other {V} (rows : list (AttributeValue.t V)) i a i' a' v :
  (i', a') <> (i, a) ->
  first_row (update_first i a v rows) i' a' = first_row rows i' a'.
Proof.
  intros Hne. unfold first_row.
  induction rows as [|r rows IH]; simpl; [reflexivity|].
  destruct (row_of i a r) eqn:E; simpl.
  - apply row_of_true in E.
    assert (F : row_of i' a' r = false)
      by (apply row_of_false; congruence).
    assert (F' : row_of i' a' (AttributeValue.set_value r v) = false)
      by (apply row_of_false; unfold row_key in *; simpl; congruence).
    now rewrite F, F'.
  - destruct (row_of i' a' r); [reflexivity | exact IH].
Qed.

Lemma first_row_delete_other {V} (rows : list (AttributeValue.t V)) i a i' a' :
  (i', a') <> (i, a) ->
  first_row (delete_first i a rows) i' a' = first_row rows i' a'.
Proof.
  intros Hne. unfold first_row.
  induction rows as [|r rows IH]; simpl; [reflexivity|].
  destruct (row_of i a r) eqn:E; simpl.
  - apply row_of_true in E.
    assert (F : row_of i' a' r = false)
      by (apply row_of_false; congruence).
    now rewrite F.
  - destruct (row_of i' a' r); [reflexivity | exact IH].
Qed.

(** A write for one pair leaves the first row of every other pair. *)
Lemma first_row_store_write_other {V} (rows : list (AttributeValue.t V))
    i a i' a' (v : option V) :
  (i', a') <> (i, a) ->
  first_row (store_write rows i a v) i' a' = first_row rows i' a'.
Proof.
  intros Hne. unfold store_write.
  destruct (first_row rows i a), v; try reflexivity.
  - now apply first_row_update_other.
  - now apply first_row_delete_other.
  - now apply first_row_app_other.
Qed.

Lemma store_write_some_has_key {V} (rows : list (AttributeValue.t V))
    i a (v : V) :
  In (i, a) (map row_key (store_write rows i a (Some v))).
Proof.
  pose proof (store_write_some_value rows i a v) as W.
  destruct (first_row (store_write rows i a (Some v)) i a) as [r|] eqn:E;
    [|discriminate].
  apply first_row_some in E as [E1 E2].
  rewrite <- E2. now apply in_map.
Qed.

Lemma get_value_kind db self code a v :
  attribute_by_code db (EntityInstance.entity_type_id self) code = Some a ->
  get_attribute_value db self code = v ->
  v <> PNone ->
  read_value_of (AttributeDefinition.data_type a) v.
Proof.
  intros Ha Hv Hn. unfold get_attribute_value in Hv. rewrite Ha in Hv.
  unfold read_value_of.
  destruct (AttributeDefinition.data_type a); cbn [store_of];
    try congruence;
    match type of Hv with
    | context [first_row ?rows ?i ?k] =>
        destruct (first_row rows i k); [|congruence]
    end; eexists; symmetry; exact Hv.
Qed.

(** Writing a value the table holds as it is, and reading it back; the
    schema, the instances and what every other instance reads are
    left. *)
Lemma set_read_value_then_get db self code a v :
  attribute_by_code db (EntityInstance.entity_type_id self) code = Some a ->
  read_value_of (AttributeDefinition.data_type a) v ->
  exists db',
    set_attribute_value db self code v = Ok (true, db')
    /\ get_attribute_value db' self code = v
    /\ attribute_definitions db' = attribute_definitions db
    /\ entity_instances db' = entity_instances db
    /\ (exists s, store_of (AttributeDefinition.data_type a) = Some s
                  /\ has_row db' s (EntityInstance.id self)
                       (AttributeDefinition.id a))
    /\ (forall other c,
           EntityInstance.id other <> EntityInstance.id self ->
           get_attribute_value db' other c = get_attribute_value db other c).
Proof.
  intros Ha K. unfold read_value_of in K.
  unfold set_attribute_value. rewrite Ha.
  destruct (AttributeDefinition.data_type a) eqn:Ty; cbn [store_of] in K;
    try contradiction; destruct K as [x ->];
    cbn [is_not_none py_str py_float py_bool to_datetime_column];
    (eexists; split; [reflexivity|]);
    (split; [|split; [reflexivity|split; [reflexivity|split]]]).
  all: try (eexists; split; [reflexivity|];
            unfold has_row, keys_of;
            cbn [attribute_values_text attribute_values_numeric
                   attribute_values_datetime attribute_values_boolean
                   with_text with_numeric with_datetime with_boolean];
            apply store_write_some_has_key).
  all: try (unfold get_attribute_value, attribute_by_code in *;
            cbn [attribute_definitions attribute_values_text
                   attribute_values_numeric attribute_values_datetime
                   attribute_values_boolean
                   with_text with_numeric with_datetime with_boolean];
            rewrite Ha, Ty;
            match goal with
            | |- context [first_row (store_write ?rows ?i ?k (Some ?x)) ?i ?k] =>
                let W := fresh "W" in
                pose proof (store_write_some_value rows i k x) as W;
                destruct (first_row (store_write rows i k (Some x)) i k);
                [simpl in W; inversion W; subst; reflexivity | discriminate]
            end).
  all: intros other c Hother;
    unfold get_attribute_value, attribute_by_code;
    cbn [attribute_definitions attribute_values_text
           attribute_values_numeric attribute_values_datetime
           attribute_values_boolean
           with_text with_numeric with_datetime with_boolean];
    destruct (find _ (attribute_definitions db)) as [a'|]; [|reflexivity];
    destruct (AttributeDefinition.data_type a'); try reflexivity;
    rewrite first_row_store_write_other; try reflexivity; congruence.
Qed.

Lemma get_with_entity_instances db l self c :
  get_attribute_value (with_entity_instances db l) self c
  = get_attribute_value db self c.
Proof. reflexivity. Qed.

Lemma active_instances_in db e i :
  In i (active_instances db e) ->
  In i (entity_instances db)
  /\ EntityInstance.entity_type_id i = e
  /\ EntityInstance.is_active i = true.
Proof.
  unfold active_instances. rewrite filter_In, andb_true_iff, Z.eqb_eq.
  tauto.
Qed.

(** C1, as the code has it.  For an entity type with an attribute whose
    [is_unique] flag is true and an active instance that carries a value
    for it, creating a second instance with the same value succeeds: the
    flag is stored and never consulted.  One [EntityInstance] row is
    added, the new instance is another instance than the existing one,
    a value row is written for it, and both instances read the same
    value afterwards. *)
Theorem unique_flag_is_not_enforced (db : Database) (entity_type_id : Z)
    (code : string) (a : AttributeDefinition.t)
    (existing : EntityInstance.t) (v : pyval)
    (created_by : option string) :
  attribute_by_code db entity_type_id code = Some a ->
  AttributeDefinition.is_unique a = true ->
  In existing (active_instances db entity_type_id) ->
  get_attribute_value db existing code = v ->
  v <> PNone ->
  exists instance db',
    create_entity_instance_with_attributes db entity_type_id [(code, v)]
      created_by = (Ok instance, db')
    /\ entity_instances db' = entity_instances db ++ [instance]
    /\ EntityInstance.id instance <> EntityInstance.id existing
    /\ EntityInstance.entity_type_id instance = entity_type_id
    /\ EntityInstance.is_active instance = true
    /\ (exists s, store_of (AttributeDefinition.data_type a) = Some s
                  /\ has_row db' s (EntityInstance.id instance)
                       (AttributeDefinition.id a))
    /\ get_attribute_value db' instance code = v
    /\ get_attribute_value db' existing code = v.
Proof.
  intros Ha _ Hex Hv Hn.
  apply active_instances_in in Hex as (Hin & Het & _).
  assert (K : read_value_of (AttributeDefinition.data_type a) v).
  { apply (get_value_kind db existing code a v); try assumption.
    now rewrite Het. }
  unfold create_entity_instance_with_attributes.
  set (instance := EntityInstance.Build _ _ _ _ _).
  set (db1 := with_entity_instances db _).
  assert (Ha1 : attribute_by_code db1
                  (EntityInstance.entity_type_id instance) code = Some a)
    by exact Ha.
  destruct (set_read_value_then_get db1 instance code a v Ha1 K)
    as (db' & Hset & Hget & _ & Hinst & Hrow & Hother).
  assert (Fresh : EntityInstance.id instance <> EntityInstance.id existing).
  { pose proof (next_id_fresh (map EntityInstance.id (entity_instances db))
                  (EntityInstance.id existing)
                  (in_map EntityInstance.id _ _ Hin)) as F.
    subst instance. cbn [EntityInstance.id]. lia. }
  exists instance, db'.
  cbn [create_loop]. apply is_not_none_true in Hn. rewrite Hn, Hset.
  repeat split; try assumption.
  rewrite Hother; [|congruence].
  unfold db1. now rewrite get_with_entity_instances.
Qed.

(** *** Deleting an attribute *)

Lemma count_rows_positive {V} (rows : list (AttributeValue.t V)) attr_id :
  (count_rows rows attr_id >? 0) = true
  <-> exists r, In r rows
                /\ AttributeValue.attribute_definition_id r = attr_id.
Proof.
  unfold count_rows. rewrite Z.gtb_lt. split.
  - intros H.
    destruct (filter _ rows) as [|r l] eqn:E; [simpl in H; lia|].
    assert (Hr : In r (filter
                         (fun r => AttributeValue.attribute_definition_id r
                                   =? attr_id) rows))
      by (rewrite E; now left).
    apply filter_In in Hr as [Hr1 Hr2]. apply Z.eqb_eq in Hr2.
    now exists r.
  - intros (r & Hr & E).
    assert (Hf : In r (filter
                         (fun r => AttributeValue.attribute_definition_id r
                                   =? attr_id) rows))
      by (apply filter_In; split; [assumption | now apply Z.eqb_eq]).
    destruct (filter _ rows); [contradiction | simpl; lia].
Qed.

(** The branches the source has: an attribute kept in the text or in
    the numeric table is refused, with the count, as long as a row of
    its own table references it. *)
Lemma delete_attribute_refused_text_numeric db entity_id attr_id attribute :
  find (fun a => (AttributeDefinition.id a =? attr_id)
                 && (AttributeDefinition.entity_type_id a =? entity_id))
    (attribute_definitions db) = Some attribute ->
  (store_of (AttributeDefinition.data_type attribute) = Some TextStore
   /\ (exists r, In r (attribute_values_text db)
                 /\ AttributeValue.attribute_definition_id r = attr_id))
  \/ (store_of (AttributeDefinition.data_type attribute) = Some NumericStore
      /\ (exists r, In r (attribute_values_numeric db)
                    /\ AttributeValue.attribute_definition_id r = attr_id)) ->
  exists n, 0 < n
            /\ delete_attribute db entity_id attr_id
               = ((JsonError ("Cannot delete attribute. It has "
                              ++ PyStr.of_Z n ++ " data records.")%string,
                   400), db).
Proof.
  intros Hf H. unfold delete_attribute. rewrite Hf.
  destruct H as [[Ty H] | [Ty H]];
    apply count_rows_positive in H;
    destruct (AttributeDefinition.data_type attribute);
    try discriminate Ty; rewrite H;
    eexists; (split; [|reflexivity]); now apply Z.gtb_lt.
Qed.

(** *** The engine keeps the constraints of the schema

    One row per pair and table, and values in the table of the data
    type: both are kept by every write of [set_attribute_value], and so
    by [create] and [update], which write through it. *)

Lemma store_write_NoDup {V} (rows : list (AttributeValue.t V)) i a v :
  NoDup (map row_key rows) -> NoDup (map row_key (store_write rows i a v)).
Proof.
  intros ND. unfold store_write.
  destruct (first_row rows i a) eqn:E, v.
  - now rewrite update_first_keys.
  - now apply delete_first_NoDup.
  - apply first_row_none in E.
    rewrite map_app. apply NoDup_app; [assumption | repeat constructor; auto |].
    intros k Hk [<- | []]. contradiction.
  - assumption.
Qed.

Lemma store_write_keys_from {V} (rows : list (AttributeValue.t V)) i a v k :
  In k (map row_key (store_write rows i a v)) ->
  In k (map row_key rows) \/ k = (i, a).
Proof.
  unfold store_write.
  destruct (first_row rows i a) eqn:E, v; intros H.
  - rewrite update_first_keys in H. now left.
  - left. revert H. clear E.
    induction rows as [|r rows IH]; simpl; [tauto|].
    destruct (row_of i a r); simpl; intros H; [now right|].
    destruct H as [H | H]; [now left | right; now apply IH].
  - rewrite map_app in H. apply in_app_or in H as [H | [H | []]];
      [now left | right; now symmetry].
  - now left.
Qed.

Lemma set_attribute_value_keeps_unique db self code v b db' :
  unique_instance_attribute db ->
  set_attribute_value db self code v = Ok (b, db') ->
  unique_instance_attribute db'.
Proof.
  intros (NDt & NDn & NDd & NDb) H.
  unfold set_attribute_value in H.
  destruct (attribute_by_code db _ code) as [a|];
    [|inversion H; subst; repeat split; assumption].
  destruct (AttributeDefinition.data_type a);
    try (destruct (is_not_none v));
    try (destruct (py_float v); [|discriminate]);
    try (destruct (to_datetime_column v); [|discriminate]);
    inversion H; subst; unfold unique_instance_attribute;
    cbn [attribute_values_text attribute_values_numeric
           attribute_values_datetime attribute_values_boolean
           with_text with_numeric with_datetime with_boolean];
    repeat split; try assumption; now apply store_write_NoDup.
Qed.

Lemma attribute_of_id db a a0 :
  attribute_ids_unique db ->
  In a (attribute_definitions db) ->
  In a0 (attribute_definitions db) ->
  AttributeDefinition.id a0 = AttributeDefinition.id a ->
  a0 = a.
Proof.
  unfold attribute_ids_unique.
  induction (attribute_definitions db) as [|x l IH]; simpl; intros ND Ha Ha0 E;
    [contradiction|].
  inversion ND as [|? ? Hx ND']; subst.
  destruct Ha as [-> | Ha], Ha0 as [-> | Ha0]; auto.
  - exfalso. apply Hx. rewrite <- E. now apply in_map.
  - exfalso. apply Hx. rewrite E. now apply in_map.
Qed.

Lemma set_attribute_value_keeps_typed db self code v b db' :
  attribute_ids_unique db ->
  typed_storage db ->
  set_attribute_value db self code v = Ok (b, db') ->
  typed_storage db' /\ attribute_definitions db' = attribute_definitions db.
Proof.
  intros PK TS H.
  unfold set_attribute_value in H.
  destruct (attribute_by_code db _ code) as [a|] eqn:Ha;
    [|inversion H; subst; split; [assumption | reflexivity]].
  destruct (attribute_by_code_in db _ _ _ Ha) as (Hin & _ & _).
  assert (Step : forall s rows' dbx,
             store_of (AttributeDefinition.data_type a) = Some s ->
             attribute_definitions dbx = attribute_definitions db ->
             (forall s' i k, has_row dbx s' i k ->
                             (s' <> s /\ has_row db s' i k)
                             \/ (s' = s /\ In (i, k) rows')) ->
             (forall k, In k rows' ->
                        In k (keys_of db s)
                        \/ k = (EntityInstance.id self,
                                AttributeDefinition.id a)) ->
             typed_storage dbx).
  { intros s rows' dbx Hs Hdefs Hrows Hfrom a0 s0 i0 Ha0 Hr.
    rewrite Hdefs in Ha0.
    apply Hrows in Hr as [[_ Hr] | [-> Hr]].
    - exact (TS a0 s0 i0 Ha0 Hr).
    - apply Hfrom in Hr as [Hr | Hr].
      + exact (TS a0 s i0 Ha0 Hr).
      + inversion Hr; subst.
        now rewrite (attribute_of_id db a a0 PK Hin Ha0 H2). }
  destruct (AttributeDefinition.data_type a) eqn:Ty;
    try (destruct (is_not_none v));
    try (destruct (py_float v); [|discriminate]);
    try (destruct (to_datetime_column v); [|discriminate]);
    inversion H; subst; (split; [|reflexivity]); try assumption;
    match goal with
    | |- typed_storage (?w db (store_write ?rows ?i ?k ?x)) =>
        eapply (Step _ (map row_key (store_write rows i k x)));
        [ reflexivity
        | reflexivity
        | intros s' i' k' Hr; destruct s';
          first [ right; split; [reflexivity | exact Hr]
                | left; split; [discriminate | exact Hr] ]
        | intros k' Hk; exact (store_write_keys_from rows i k x k' Hk) ]
    end.
Qed.

(** The loops of [create] and [update] keep the constraints. *)
Lemma update_loop_keeps_constraints instance items :
  forall db db',
    attribute_ids_unique db ->
    unique_instance_attribute db ->
    typed_storage db ->
    update_loop db instance items = Ok db' ->
    attribute_ids_unique db'
    /\ unique_instance_attribute db'
    /\ typed_storage db'.
Proof.
  induction items as [|[c v] rest IH]; cbn [update_loop]; intros db db' PK U T H.
  - inversion H; subst; auto.
  - destruct (set_attribute_value db instance c v) as [[b db1]|] eqn:E;
      [|discriminate].
    destruct (set_attribute_value_keeps_typed db instance c v b db1 PK T E)
      as [T1 D1].
    apply (IH db1 db'); try assumption.
    + unfold attribute_ids_unique. now rewrite D1.
    + exact (set_attribute_value_keeps_unique db instance c v b db1 U E).
Qed.

Lemma create_loop_keeps_constraints instance items :
  forall db db',
    attribute_ids_unique db ->
    unique_instance_attribute db ->
    typed_storage db ->
    create_loop db instance items = Ok db' ->
    attribute_ids_unique db'
    /\ unique_instance_attribute db'
    /\ typed_storage db'.
Proof.
  induction items as [|[c v] rest IH]; cbn [create_loop]; intros db db' PK U T H.
  - inversion H; subst; auto.
  - destruct (is_not_none v); [|now apply (IH db db')].
    destruct (set_attribute_value db instance c v) as [[b db1]|] eqn:E;
      [|discriminate].
    destruct (set_attribute_value_keeps_typed db instance c v b db1 PK T E)
      as [T1 D1].
    apply (IH db1 db'); try assumption.
    + unfold attribute_ids_unique. now rewrite D1.
    + exact (set_attribute_value_keeps_unique db instance c v b db1 U E).
Qed.

Lemma create_keeps_constraints db entity_type_id attribute_values created_by :
  attribute_ids_unique db ->
  unique_instance_attribute db ->
  typed_storage db ->
  let db' := snd (create_entity_instance_with_attributes db entity_type_id
                    attribute_values created_by) in
  attribute_ids_unique db'
  /\ unique_instance_attribute db'
  /\ typed_storage db'.
Proof.
  intros PK U T. unfold create_entity_instance_with_attributes.
  match goal with
  | |- context [create_loop ?d ?i ?l] => destruct (create_loop d i l) eqn:E
  end; cbn [snd]; [|auto].
  refine (create_loop_keeps_constraints _ _ _ _ _ _ _ E);
    [exact PK | exact U | exact T].
Qed.

Lemma update_keeps_constraints db instance_id attribute_values updated_by :
  attribute_ids_unique db ->
  unique_instance_attribute db ->
  typed_storage db ->
  let db' := snd (update_entity_instance_attributes db instance_id
                    attribute_values updated_by) in
  attribute_ids_unique db'
  /\ unique_instance_attribute db'
  /\ typed_storage db'.
Proof.
  intros PK U T. unfold update_entity_instance_attributes.
  destruct (find _ (entity_instances db)); cbn [snd]; [|auto].
  match goal with
  | |- context [update_loop ?d ?i ?l] => destruct (update_loop d i l) eqn:E
  end; cbn [snd]; [|auto].
  refine (update_loop_keeps_constraints _ _ _ _ _ _ _ E);
    [exact PK | exact U | exact T].
Qed.

(** *** Writing and reading back *)

Lemma same_outside_values_refl db : same_outside_values db db.
Proof. repeat split. Qed.

Lemma same_outside_values_trans db1 db2 db3 :
  same_outside_values db1 db2 -> same_outside_values db2 db3 ->
  same_outside_values db1 db3.
Proof.
  unfold same_outside_values.
  intros (A1 & A2 & A3 & A4 & A5 & A6 & A7) (B1 & B2 & B3 & B4 & B5 & B6 & B7).
  repeat split; congruence.
Qed.

Lemma attribute_by_code_same db db' e c :
  attribute_definitions db' = attribute_definitions db ->
  attribute_by_code db' e c = attribute_by_code db e c.
Proof. unfold attribute_by_code. now intros ->. Qed.

(** What a write changes: one value table, at the pair of the instance
    and the attribute. *)
Lemma set_attribute_value_changes db self code v b db' :
  set_attribute_value db self code v = Ok (b, db') ->
  same_outside_values db db'
  /\ forall i k,
       (forall a,
           attribute_by_code db (EntityInstance.entity_type_id self) code
           = Some a ->
           (i, k) <> (EntityInstance.id self, AttributeDefinition.id a)) ->
       first_row (attribute_values_text db') i k
       = first_row (attribute_values_text db) i k
       /\ first_row (attribute_values_numeric db') i k
          = first_row (attribute_values_numeric db) i k
       /\ first_row (attribute_values_datetime db') i k
          = first_row (attribute_values_datetime db) i k
       /\ first_row (attribute_values_boolean db') i k
          = first_row (attribute_values_boolean db) i k.
Proof.
  intros H. unfold set_attribute_value in H.
  destruct (attribute_by_code db _ code) as [a|] eqn:Ha.
  2: { inversion H; subst. split; [apply same_outside_values_refl|].
       intros; repeat split. }
  destruct (AttributeDefinition.data_type a);
    try (destruct (is_not_none v));
    try (destruct (py_float v); [|discriminate]);
    try (destruct (to_datetime_column v); [|discriminate]);
    inversion H; subst; (split; [repeat split|]);
    intros i k Hne; specialize (Hne a eq_refl);
    cbn [attribute_values_text attribute_values_numeric
           attribute_values_datetime attribute_values_boolean
           with_text with_numeric with_datetime with_boolean];
    repeat split; try reflexivity;
    now apply first_row_store_write_other.
Qed.

Lemma get_attribute_value_same_rows db db' self c :
  attribute_definitions db' = attribute_definitions db ->
  (forall a,
      attribute_by_code db (EntityInstance.entity_type_id self) c = Some a ->
      first_row (attribute_values_text db') (EntityInstance.id self)
        (AttributeDefinition.id a)
      = first_row (attribute_values_text db) (EntityInstance.id self)
          (AttributeDefinition.id a)
      /\ first_row (attribute_values_numeric db') (EntityInstance.id self)
           (AttributeDefinition.id a)
         = first_row (attribute_values_numeric db) (EntityInstance.id self)
             (AttributeDefinition.id a)
      /\ first_row (attribute_values_datetime db') (EntityInstance.id self)
           (AttributeDefinition.id a)
         = first_row (attribute_values_datetime db) (EntityInstance.id self)
             (AttributeDefinition.id a)
      /\ first_row (attribute_values_boolean db') (EntityInstance.id self)
           (AttributeDefinition.id a)
         = first_row (attribute_values_boolean db) (EntityInstance.id self)
             (AttributeDefinition.id a)) ->
  get_attribute_value db' self c = get_attribute_value db self c.
Proof.
  intros Hd Hr. unfold get_attribute_value.
  rewrite (attribute_by_code_same db db' _ c Hd).
  destruct (attribute_by_code db _ c) as [a|]; [|reflexivity].
  destruct (Hr a eq_refl) as (Rt & Rn & Rd & Rb).
  now rewrite Rt, Rn, Rd, Rb.
Qed.

(** Two codes of one entity type that resolve resolve to attributes with
    different keys. *)
Lemma attributes_of_codes_differ db e c c' a a' :
  attribute_ids_unique db ->
  attribute_by_code db e c = Some a ->
  attribute_by_code db e c' = Some a' ->
  c' <> c ->
  AttributeDefinition.id a' <> AttributeDefinition.id a.
Proof.
  intros PK Ha Ha' Hc E.
  apply attribute_by_code_in in Ha as (Hin & _ & Hcode).
  apply attribute_by_code_in in Ha' as (Hin' & _ & Hcode').
  apply Hc. rewrite <- Hcode, <- Hcode'.
  now rewrite (attribute_of_id db a a' PK Hin Hin' E).
Qed.

Lemma set_then_get_reads_stored_value_lemma db db' self code a v b :
  attribute_by_code db (EntityInstance.entity_type_id self) code = Some a ->
  v <> PNone ->
  set_attribute_value db self code v = Ok (b, db') ->
  stored_as (AttributeDefinition.data_type a) v
  = Ok (get_attribute_value db' self code).
Proof.
  intros Ha Hn H. apply is_not_none_true in Hn.
  unfold set_attribute_value in H. rewrite Ha, Hn in H.
  unfold get_attribute_value, stored_as.
  destruct (AttributeDefinition.data_type a) eqn:Ty;
    try (destruct (py_float v) as [f|]; [|discriminate]);
    try (destruct (to_datetime_column v) as [d|]; [|discriminate]);
    inversion H; subst;
    unfold attribute_by_code in *;
    cbn [attribute_definitions attribute_values_text
           attribute_values_numeric attribute_values_datetime
           attribute_values_boolean
           with_text with_numeric with_datetime with_boolean];
    rewrite Ha, Ty; try reflexivity;
    match goal with
    | |- context [first_row (store_write ?rows ?i ?k (Some ?x)) ?i ?k] =>
        let W := fresh "W" in
        pose proof (store_write_some_value rows i k x) as W;
        destruct (first_row (store_write rows i k (Some x)) i k);
        [simpl in W; inversion W; subst; reflexivity | discriminate]
    end.
Qed.

Lemma set_returns_true db db' self code a v b :
  attribute_by_code db (EntityInstance.entity_type_id self) code = Some a ->
  set_attribute_value db self code v = Ok (b, db') ->
  b = true.
Proof.
  intros Ha H. unfold set_attribute_value in H. rewrite Ha in H.
  destruct (AttributeDefinition.data_type a);
    try (destruct (is_not_none v));
    try (destruct (py_float v); [|discriminate]);
    try (destruct (to_datetime_column v); [|discriminate]);
    now inversion H.
Qed.

(** X1. A write that succeeds with a value that is not [None] is read
    back as the value converted for the attribute's type: the text of
    [str], the number of [float], the datetime itself, the truth value of
    [bool]; for a JSON attribute it reads back as [None]. *)
Theorem set_then_get_reads_stored_value (db db' : Database)
    (self : EntityInstance.t) (code : string) (a : AttributeDefinition.t)
    (v : pyval) (b : bool) :
  attribute_by_code db (EntityInstance.entity_type_id self) code = Some a ->
  v <> PNone ->
  set_attribute_value db self code v = Ok (b, db') ->
  b = true
  /\ stored_as (AttributeDefinition.data_type a) v
     = Ok (get_attribute_value db' self code).
Proof.
  intros Ha Hn H. split.
  - exact (set_returns_true db db' self code a v b Ha H).
  - exact (set_then_get_reads_stored_value_lemma db db' self code a v b
             Ha Hn H).
Qed.

(** X2. A write for an instance and an attribute code changes nothing
    but the value of that pair: the schema, the instances, the users and
    the permissions are as before, every other instance reads what it
    read, and the instance itself reads what it read under every other
    code. *)
Theorem set_attribute_value_frame (db db' : Database)
    (self : EntityInstance.t) (code : string) (v : pyval) (b : bool) :
  attribute_ids_unique db ->
  set_attribute_value db self code v = Ok (b, db') ->
  same_outside_values db db'
  /\ (forall other c,
         EntityInstance.id other <> EntityInstance.id self ->
         get_attribute_value db' other c = get_attribute_value db other c)
  /\ (forall c,
         c <> code ->
         get_attribute_value db' self c = get_attribute_value db self c).
Proof.
  intros PK H.
  destruct (set_attribute_value_changes db self code v b db' H)
    as (Same & Rows).
  split; [exact Same|].
  destruct Same as (_ & Hd & _).
  split.
  - intros other c Hne.
    apply get_attribute_value_same_rows; [exact Hd|].
    intros a' _. apply Rows. intros a _ E. inversion E. contradiction.
  - intros c Hc.
    apply get_attribute_value_same_rows; [exact Hd|].
    intros a' Ha'. apply Rows. intros a Ha E. inversion E as [E'].
    exact (attributes_of_codes_differ db _ code c a a' PK Ha Ha' Hc E').
Qed.

(** *** The loops of [create] and [update] *)

Lemma create_loop_is_update_loop instance items :
  forall db,
    create_loop db instance items
    = update_loop db instance
        (filter (fun kv => is_not_none (snd kv)) items).
Proof.
  induction items as [|[c v] rest IH]; intros db;
    cbn [create_loop filter snd]; [reflexivity|].
  destruct (is_not_none v); cbn [update_loop]; [|apply IH].
  destruct (set_attribute_value db instance c v) as [[b db1]|];
    [apply IH | reflexivity].
Qed.

Lemma update_loop_changes instance items :
  forall db db',
    update_loop db instance items = Ok db' ->
    same_outside_values db db'
    /\ forall other c,
         EntityInstance.id other <> EntityInstance.id instance ->
         get_attribute_value db' other c = get_attribute_value db other c.
Proof.
  induction items as [|[c v] rest IH]; cbn [update_loop]; intros db db' H.
  - inversion H; subst. split; [apply same_outside_values_refl | reflexivity].
  - destruct (set_attribute_value db instance c v) as [[b db1]|] eqn:E;
      [|discriminate].
    destruct (set_attribute_value_changes db instance c v b db1 E)
      as (S1 & R1).
    destruct (IH db1 db' H) as (S2 & R2).
    split; [exact (same_outside_values_trans db db1 db' S1 S2)|].
    intros other c' Hne. rewrite (R2 other c' Hne).
    apply get_attribute_value_same_rows; [apply S1|].
    intros a' _. apply R1. intros a _ Eq. inversion Eq. contradiction.
Qed.

Lemma update_loop_keeps_read instance items c :
  forall db db',
    attribute_ids_unique db ->
    update_loop db instance items = Ok db' ->
    ~ In c (map fst items) ->
    get_attribute_value db' instance c = get_attribute_value db instance c.
Proof.
  induction items as [|[c0 v0] rest IH]; cbn [update_loop map fst In];
    intros db db' PK H Hc.
  - now inversion H.
  - destruct (set_attribute_value db instance c0 v0) as [[b db1]|] eqn:E;
      [|discriminate].
    destruct (set_attribute_value_changes db instance c0 v0 b db1 E)
      as ((_ & Hd & _) & R1).
    assert (PK1 : attribute_ids_unique db1)
      by (unfold attribute_ids_unique; now rewrite Hd).
    rewrite (IH db1 db' PK1 H); [|tauto].
    apply get_attribute_value_same_rows; [exact Hd|].
    intros a' Ha'. apply R1. intros a Ha Eq. inversion Eq as [Eq'].
    refine (attributes_of_codes_differ db _ c0 c a a' PK Ha Ha' _ Eq').
    intros ->. tauto.
Qed.

(** Clearing reads back as [None]. *)
Lemma set_none_reads_none db self c b db' :
  unique_instance_attribute db ->
  set_attribute_value db self c PNone = Ok (b, db') ->
  get_attribute_value db' self c = PNone.
Proof.
  intros (NDt & NDn & NDd & NDb) H.
  unfold set_attribute_value in H. unfold get_attribute_value.
  destruct (attribute_by_code db _ c) as [a|] eqn:Ha.
  2: { inversion H; subst. now rewrite Ha. }
  set (i := EntityInstance.id self) in *.
  set (k := AttributeDefinition.id a) in *.
  pose proof (store_write_none_keys (attribute_values_text db) i k NDt) as Kt.
  pose proof (store_write_none_keys (attribute_values_numeric db) i k NDn)
    as Kn.
  pose proof (store_write_none_keys (attribute_values_datetime db) i k NDd)
    as Kd.
  pose proof (store_write_none_keys (attribute_values_boolean db) i k NDb)
    as Kb.
  destruct (AttributeDefinition.data_type a) eqn:Ty; cbn [is_not_none] in H;
    inversion H; subst;
    unfold attribute_by_code in *;
    cbn [attribute_definitions attribute_values_text
           attribute_values_numeric attribute_values_datetime
           attribute_values_boolean
           with_text with_numeric with_datetime with_boolean];
    rewrite Ha, Ty; try reflexivity; fold i k;
    match goal with
    | |- context [first_row ?rows i k] =>
        let E := fresh "E" in
        destruct (first_row rows i k) eqn:E; [exfalso | reflexivity];
        apply first_row_some in E as [E1 E2];
        apply (in_map row_key) in E1; rewrite E2 in E1;
        first [ apply Kt in E1 | apply Kn in E1
              | apply Kd in E1 | apply Kb in E1 ];
        tauto
    end.
Qed.

(** C3, as the code has it.  For an instance I and an attribute code A
    of I's entity type, in a store that keeps the unique constraint of
    the value tables, [set(I, A, None)] succeeds and [get(I, A)] then
    returns [None].  Afterwards the table of A's data type holds no row
    for the pair (I, A); the three other tables are as they were, so a
    row that an earlier data type of A left in one of them is still
    there; and the rows of every other pair are as before.  When the
    values of every attribute are in the table of its data type, no
    table holds a row for the pair. *)
Theorem set_null_clears_the_table_of_the_type (db : Database)
    (I : EntityInstance.t) (A : string) (a : AttributeDefinition.t) :
  attribute_by_code db (EntityInstance.entity_type_id I) A = Some a ->
  unique_instance_attribute db ->
  exists db',
    set_attribute_value db I A PNone = Ok (true, db')
    /\ get_attribute_value db' I A = PNone
    /\ (forall s,
           store_of (AttributeDefinition.data_type a) = Some s ->
           ~ has_row db' s (EntityInstance.id I) (AttributeDefinition.id a))
    /\ (forall s,
           store_of (AttributeDefinition.data_type a) <> Some s ->
           forall i' a', has_row db' s i' a' <-> has_row db s i' a')
    /\ (forall s i' a',
           (i', a') <> (EntityInstance.id I, AttributeDefinition.id a) ->
           (has_row db' s i' a' <-> has_row db s i' a'))
    /\ (typed_storage db ->
        forall s,
          ~ has_row db' s (EntityInstance.id I) (AttributeDefinition.id a)).
Proof.
  intros Ha (NDt & NDn & NDd & NDb).
  destruct (attribute_by_code_in db _ _ _ Ha) as (Hin & _ & _).
  set (i := EntityInstance.id I) in *.
  set (k := AttributeDefinition.id a) in *.
  pose proof (store_write_none_keys (attribute_values_text db) i k NDt) as Kt.
  pose proof (store_write_none_keys (attribute_values_numeric db) i k NDn) as Kn.
  pose proof (store_write_none_keys (attribute_values_datetime db) i k NDd) as Kd.
  pose proof (store_write_none_keys (attribute_values_boolean db) i k NDb) as Kb.
  assert (Main : exists db',
             set_attribute_value db I A PNone = Ok (true, db')
             /\ (forall s,
                    store_of (AttributeDefinition.data_type a) = Some s ->
                    ~ has_row db' s i k)
             /\ (forall s,
                    store_of (AttributeDefinition.data_type a) <> Some s ->
                    forall i' a', has_row db' s i' a' <-> has_row db s i' a')
             /\ (forall s i' a', (i', a') <> (i, k) ->
                                 (has_row db' s i' a' <-> has_row db s i' a'))).
  { unfold set_attribute_value. rewrite Ha. fold i k.
    destruct (AttributeDefinition.data_type a) eqn:Ty; cbn [is_not_none];
      eexists; (split; [reflexivity|]); (split; [|split]);
      [ intros s Hs | intros s Hs i' a' | intros s i' a' Hne
      | intros s Hs | intros s Hs i' a' | intros s i' a' Hne
      | intros s Hs | intros s Hs i' a' | intros s i' a' Hne
      | intros s Hs | intros s Hs i' a' | intros s i' a' Hne
      | intros s Hs | intros s Hs i' a' | intros s i' a' Hne
      | intros s Hs | intros s Hs i' a' | intros s i' a' Hne
      | intros s Hs | intros s Hs i' a' | intros s i' a' Hne
      | intros s Hs | intros s Hs i' a' | intros s i' a' Hne
      | intros s Hs | intros s Hs i' a' | intros s i' a' Hne
      | intros s Hs | intros s Hs i' a' | intros s i' a' Hne ];
      cbn [store_of] in *;
      rewrite ?has_row_with_text, ?has_row_with_numeric,
        ?has_row_with_datetime, ?has_row_with_boolean;
      destruct s;
      first [ reflexivity
            | discriminate
            | congruence
            | rewrite Kt; tauto | rewrite Kn; tauto
            | rewrite Kd; tauto | rewrite Kb; tauto
            | rewrite Kt; unfold has_row, keys_of; tauto
            | rewrite Kn; unfold has_row, keys_of; tauto
            | rewrite Kd; unfold has_row, keys_of; tauto
            | rewrite Kb; unfold has_row, keys_of; tauto ]. }
  destruct Main as (db' & Hset & Hown & Hothers & Hframe).
  exists db'.
  split; [exact Hset|].
  split; [exact (set_none_reads_none db I A true db'
                   (conj NDt (conj NDn (conj NDd NDb))) Hset)|].
  split; [exact Hown|]. split; [exact Hothers|]. split; [exact Hframe|].
  intros TS s Hrow.
  assert (D : store_of (AttributeDefinition.data_type a) = Some s
              \/ store_of (AttributeDefinition.data_type a) <> Some s).
  { destruct (store_of (AttributeDefinition.data_type a)) as [[]|];
      destruct s; first [left; reflexivity | right; discriminate]. }
  destruct D as [E | E].
  - exact (Hown s E Hrow).
  - apply (Hothers s E) in Hrow. apply E. exact (TS a s i Hin Hrow).
Qed.

(** What every entry of the dictionary reads back as after the loop. *)
Lemma update_loop_reads instance items :
  forall db db',
    attribute_ids_unique db ->
    unique_instance_attribute db ->
    NoDup (map fst items) ->
    update_loop db instance items = Ok db' ->
    forall c v a,
      In (c, v) items ->
      attribute_by_code db (EntityInstance.entity_type_id instance) c
      = Some a ->
      (v <> PNone ->
       stored_as (AttributeDefinition.data_type a) v
       = Ok (get_attribute_value db' instance c))
      /\ (v = PNone -> get_attribute_value db' instance c = PNone).
Proof.
  induction items as [|[c0 v0] rest IH]; cbn [update_loop map fst In];
    intros db db' PK U ND H c v a Hin Ha; [contradiction|].
  inversion ND as [|? ? Hc0 ND']; subst.
  destruct (set_attribute_value db instance c0 v0) as [[b db1]|] eqn:E;
    [|discriminate].
  destruct (set_attribute_value_changes db instance c0 v0 b db1 E)
    as ((_ & Hd & _) & _).
  assert (PK1 : attribute_ids_unique db1)
    by (unfold attribute_ids_unique; now rewrite Hd).
  pose proof (set_attribute_value_keeps_unique db instance c0 v0 b db1 U E)
    as U1.
  destruct Hin as [Eq | Hin].
  - inversion Eq; subst c0 v0.
    rewrite (update_loop_keeps_read instance rest c db1 db' PK1 H Hc0).
    split.
    + intros Hn.
      apply (set_then_get_reads_stored_value_lemma db db1 instance c a v b
               Ha Hn E).
    + intros ->. exact (set_none_reads_none db instance c b db1 U E).
  - apply (IH db1 db' PK1 U1 ND' H c v a Hin).
    now rewrite (attribute_by_code_same db db1 _ c Hd).
Qed.

(** *** [create] and [update] as wholes *)

Lemma filter_keys_NoDup (items : dict) f :
  NoDup (map fst items) -> NoDup (map fst (filter f items)).
Proof.
  induction items as [|kv rest IH]; cbn [filter map]; intros ND;
    [constructor|].
  inversion ND as [|? ? Hk ND']; subst.
  destruct (f kv); cbn [map]; [|now apply IH].
  constructor; [|now apply IH].
  intros Hin. apply Hk.
  apply in_map_iff in Hin as (x & <- & Hx). apply filter_In in Hx as [Hx _].
  now apply in_map.
Qed.

(** X3. [create_entity_instance_with_attributes] either returns the new
    instance, or raises and leaves the store as it found it.  On success
    the instance table has gained the new row and no other, the row has a
    key no other instance has, is active, of the entity type asked for
    and stamped with the creator (or 'system'); every other table but the
    value tables is as before, and every instance that existed reads
    what it read. *)
Theorem create_adds_one_instance_or_nothing (db : Database)
    (entity_type_id : Z) (attribute_values : dict)
    (created_by : option string) :
  match create_entity_instance_with_attributes db entity_type_id
          attribute_values created_by with
  | (Ok instance, db') =>
      entity_instances db' = entity_instances db ++ [instance]
      /\ EntityInstance.entity_type_id instance = entity_type_id
      /\ EntityInstance.is_active instance = true
      /\ EntityInstance.created_by instance = or_system created_by
      /\ entity_types db' = entity_types db
      /\ attribute_definitions db' = attribute_definitions db
      /\ form_field_configurations db' = form_field_configurations db
      /\ users db' = users db
      /\ user_roles db' = user_roles db
      /\ entity_permissions db' = entity_permissions db
      /\ forall other,
           In other (entity_instances db) ->
           EntityInstance.id other <> EntityInstance.id instance
           /\ forall c,
                get_attribute_value db' other c
                = get_attribute_value db other c
  | (Raise _, db') => db' = db
  end.
Proof.
  unfold create_entity_instance_with_attributes.
  set (instance := EntityInstance.Build _ _ _ _ _).
  set (db1 := with_entity_instances db _).
  destruct (create_loop db1 instance attribute_values) as [db2|] eqn:E;
    [|reflexivity].
  rewrite create_loop_is_update_loop in E.
  destruct (update_loop_changes instance _ db1 db2 E)
    as ((S1 & S2 & S3 & S4 & S5 & S6 & S7) & Reads).
  repeat split; try assumption.
  - pose proof (next_id_fresh (map EntityInstance.id (entity_instances db))
                  (EntityInstance.id other)
                  (in_map EntityInstance.id _ _ H)) as F.
    subst instance. cbn [EntityInstance.id]. lia.
  - intros c. rewrite Reads.
    + unfold db1. apply get_with_entity_instances.
    + pose proof (next_id_fresh (map EntityInstance.id (entity_instances db))
                    (EntityInstance.id other)
                    (in_map EntityInstance.id _ _ H)) as F.
      subst instance. cbn [EntityInstance.id]. lia.
Qed.

Lemma create_reads_entries (db db' : Database) (entity_type_id : Z)
    (attribute_values : dict) (created_by : option string)
    (instance : EntityInstance.t) :
  attribute_ids_unique db ->
  unique_instance_attribute db ->
  NoDup (map fst attribute_values) ->
  create_entity_instance_with_attributes db entity_type_id attribute_values
    created_by = (Ok instance, db') ->
  forall c v a,
    In (c, v) attribute_values ->
    v <> PNone ->
    attribute_by_code db entity_type_id c = Some a ->
    stored_as (AttributeDefinition.data_type a) v
    = Ok (get_attribute_value db' instance c).
Proof.
  intros PK U ND H c v a Hin Hn Ha.
  unfold create_entity_instance_with_attributes in H.
  set (inst := EntityInstance.Build _ _ _ _ _) in H.
  set (db1 := with_entity_instances db _) in H.
  destruct (create_loop db1 inst attribute_values) as [db2|] eqn:E;
    [|discriminate].
  inversion H; subst instance db2. clear H.
  rewrite create_loop_is_update_loop in E.
  refine (proj1 (update_loop_reads inst _ db1 db' _ _ _ E c v a _ _) Hn).
  - exact PK.
  - exact U.
  - now apply filter_keys_NoDup.
  - apply filter_In. split; [assumption|]. now apply is_not_none_true.
  - exact Ha.
Qed.

(** X4. After a successful [create], the new instance reads back every
    entry of the dictionary that is not [None] and whose code is the
    code of a VARCHAR, TEXT or BOOLEAN attribute of the entity type as
    the value converted for the type, [str(v)] or [bool(v)], and an
    entry for a JSON attribute as [None].  Nothing is said of an entry
    for a numeric or a date attribute, whose column converts the value
    at the commit. *)
Theorem create_then_read (db db' : Database) (entity_type_id : Z)
    (attribute_values : dict) (created_by : option string)
    (instance : EntityInstance.t) :
  attribute_ids_unique db ->
  unique_instance_attribute db ->
  NoDup (map fst attribute_values) ->
  create_entity_instance_with_attributes db entity_type_id attribute_values
    created_by = (Ok instance, db') ->
  forall c v a,
    In (c, v) attribute_values ->
    v <> PNone ->
    attribute_by_code db entity_type_id c = Some a ->
    column_keeps_value (AttributeDefinition.data_type a) ->
    stored_as (AttributeDefinition.data_type a) v
    = Ok (get_attribute_value db' instance c).
Proof.
  intros PK U ND H c v a Hin Hn Ha _.
  exact (create_reads_entries db db' entity_type_id attribute_values
           created_by instance PK U ND H c v a Hin Hn Ha).
Qed.

(** X5. An entry of the dictionary whose value is [None], or whose code
    is not an attribute code of the entity type, is passed over by
    [create]: the call gives what the call without the entry gives. *)
Theorem create_ignores_none_and_unknown_codes (db : Database)
    (entity_type_id : Z) (before after : dict) (c : string) (v : pyval)
    (created_by : option string) :
  v = PNone \/ attribute_by_code db entity_type_id c = None ->
  create_entity_instance_with_attributes db entity_type_id
    (before ++ (c, v) :: after) created_by
  = create_entity_instance_with_attributes db entity_type_id
      (before ++ after) created_by.
Proof.
  intros H. unfold create_entity_instance_with_attributes.
  set (instance := EntityInstance.Build _ _ _ _ _).
  set (db1 := with_entity_instances db _).
  assert (Loop : forall items d,
             attribute_definitions d = attribute_definitions db ->
             create_loop d instance (items ++ (c, v) :: after)
             = create_loop d instance (items ++ after)).
  { induction items as [|[c0 v0] rest IH]; intros d Hd;
      cbn [app create_loop].
    - destruct H as [-> | H]; [reflexivity|].
      destruct (is_not_none v); [|reflexivity].
      unfold set_attribute_value.
      rewrite (attribute_by_code_same db d _ c Hd).
      subst instance. cbn [EntityInstance.entity_type_id]. now rewrite H.
    - destruct (is_not_none v0); [|now apply IH].
      destruct (set_attribute_value d instance c0 v0) as [[b d1]|] eqn:E;
        [|reflexivity].
      apply IH.
      destruct (set_attribute_value_changes d instance c0 v0 b d1 E)
        as ((_ & Hd1 & _) & _).
      congruence. }
  now rewrite (Loop before db1 eq_refl).
Qed.



Lemma update_reads_entries (db db' : Database) (instance_id : Z)
    (attribute_values : dict) (updated_by : option string)
    (instance : EntityInstance.t) :
  attribute_ids_unique db ->
  unique_instance_attribute db ->
  NoDup (map fst attribute_values) ->
  update_entity_instance_attributes db instance_id attribute_values
    updated_by = (Ok (Some instance), db') ->
  forall c v a,
    In (c, v) attribute_values ->
    attribute_by_code db (EntityInstance.entity_type_id instance) c
    = Some a ->
    (v <> PNone ->
     stored_as (AttributeDefinition.data_type a) v
     = Ok (get_attribute_value db' instance c))
    /\ (v = PNone -> get_attribute_value db' instance c = PNone).
Proof.
  intros PK U ND H c v a Hin Ha.
  unfold update_entity_instance_attributes in H.
  destruct (find _ (entity_instances db)) as [found|]; [|discriminate].
  set (inst := EntityInstance.Build _ _ _ _ _) in H.
  set (db1 := with_entity_instances db _) in H.
  destruct (update_loop db1 inst attribute_values) as [db2|] eqn:E;
    [|discriminate].
  inversion H; subst instance db2. clear H.
  exact (update_loop_reads inst _ db1 db' PK U ND E c v a Hin Ha).
Qed.

Lemma update_keeps_other_codes (db db' : Database) (instance_id : Z)
    (attribute_values : dict) (updated_by : option string)
    (instance : EntityInstance.t) (c : string) :
  attribute_ids_unique db ->
  update_entity_instance_attributes db instance_id attribute_values
    updated_by = (Ok (Some instance), db') ->
  ~ In c (map fst attribute_values) ->
  get_attribute_value db' instance c = get_attribute_value db instance c.
Proof.
  intros PK H Hc.
  unfold update_entity_instance_attributes in H.
  destruct (find _ (entity_instances db)) as [found|]; [|discriminate].
  set (inst := EntityInstance.Build _ _ _ _ _) in H.
  set (db1 := with_entity_instances db _) in H.
  destruct (update_loop db1 inst attribute_values) as [db2|] eqn:E;
    [|discriminate].
  inversion H; subst instance db2. clear H.
  rewrite (update_loop_keeps_read inst _ c db1 db' PK E Hc).
  apply get_with_entity_instances.
Qed.

(** X7. After a successful [update], the instance reads back the entries
    of the dictionary whose code is an attribute code of its entity
    type: an entry that is not [None] for a VARCHAR, TEXT or BOOLEAN
    attribute as the value converted for the type, [str(v)] or
    [bool(v)], and for a JSON attribute as [None]; an entry that is
    [None] as [None], whatever the type; and under every code the
    dictionary does not hold it reads what it read.  Nothing is said of
    an entry that is not [None] for a numeric or a date attribute, whose
    column converts the value at the commit. *)
Theorem update_then_read (db db' : Database) (instance_id : Z)
    (attribute_values : dict) (updated_by : option string)
    (instance : EntityInstance.t) :
  attribute_ids_unique db ->
  unique_instance_attribute db ->
  NoDup (map fst attribute_values) ->
  update_entity_instance_attributes db instance_id attribute_values
    updated_by = (Ok (Some instance), db') ->
  (forall c v a,
      In (c, v) attribute_values ->
      attribute_by_code db (EntityInstance.entity_type_id instance) c
      = Some a ->
      (v <> PNone ->
       column_keeps_value (AttributeDefinition.data_type a) ->
       stored_as (AttributeDefinition.data_type a) v
       = Ok (get_attribute_value db' instance c))
      /\ (v = PNone -> get_attribute_value db' instance c = PNone))
  /\ (forall c,
         ~ In c (map fst attribute_values) ->
         get_attribute_value db' instance c
         = get_attribute_value db instance c).
Proof.
  intros PK U ND H. split.
  - intros c v a Hin Ha.
    destruct (update_reads_entries db db' instance_id attribute_values
                updated_by instance PK U ND H c v a Hin Ha) as [Hv Hnone].
    split; [intros Hn _; exact (Hv Hn) | exact Hnone].
  - intros c Hc.
    exact (update_keeps_other_codes db db' instance_id attribute_values
             updated_by instance c PK H Hc).
Qed.

(** *** The dictionary [process_form_data] builds *)

Lemma dict_set_in (d : dict) k v : In (k, v) (dict_set d k v).
Proof.
  induction d as [|[k' v'] rest IH]; cbn [dict_set]; [now left|].
  destruct (String.eqb k' k); [now left | right; exact IH].
Qed.

Lemma dict_set_keys (d : dict) k v k' :
  In k' (map fst (dict_set d k v)) <-> k' = k \/ In k' (map fst d).
Proof.
  induction d as [|[k0 v0] rest IH]; cbn [dict_set map fst In].
  - split; [intros [<- | []]; auto | intros [-> | []]; auto].
  - destruct (String.eqb k0 k) eqn:E; cbn [map fst In].
    + apply String.eqb_eq in E. subst k0. intuition.
    + rewrite IH. intuition.
Qed.

Lemma dict_set_other (d : dict) k v k' v' :
  k' <> k -> In (k', v') (dict_set d k v) <-> In (k', v') d.
Proof.
  intros Hne.
  induction d as [|[k0 v0] rest IH]; cbn [dict_set In].
  - split; [intros [E | []]; inversion E; congruence | intros []].
  - destruct (String.eqb k0 k) eqn:E; cbn [In].
    + apply String.eqb_eq in E. subst k0.
      split; intros [H | H]; auto; inversion H; congruence.
    + rewrite IH. tauto.
Qed.

Lemma dict_set_NoDup (d : dict) k v :
  NoDup (map fst d) -> NoDup (map fst (dict_set d k v)).
Proof.
  induction d as [|[k0 v0] rest IH]; cbn [dict_set map fst]; intros ND.
  - repeat constructor. intros [].
  - inversion ND as [|? ? Hk ND']; subst.
    destruct (String.eqb k0 k) eqn:E; cbn [map fst].
    + apply String.eqb_eq in E. subst k0. now constructor.
    + constructor; [|now apply IH].
      rewrite dict_set_keys. intros [-> | H]; [|contradiction].
      now rewrite String.eqb_refl in E.
Qed.

(** What one field does to the dictionary: nothing, or one assignment
    under the code of its attribute, and only when it is visible. *)
Lemma process_field_cases field form acc acc' :
  process_field field form acc = Ok acc' ->
  acc' = acc
  \/ (FormFieldConfiguration.is_visible field = true
      /\ exists v,
           acc' = dict_set acc
                    (AttributeDefinition.code
                       (FormFieldConfiguration.attribute_definition field))
                    v).
Proof.
  unfold process_field.
  generalize (negb (FormFieldConfiguration.is_required field
                    || AttributeDefinition.is_required
                         (FormFieldConfiguration.attribute_definition field))).
  intros optional.
  destruct (FormFieldConfiguration.is_visible field); cbn [negb];
    [|intros H; inversion H; now left].
  destruct (is_empty_value _).
  - destruct optional; intros H; inversion H; [right | now left].
    split; [reflexivity | now eexists].
  - destruct (form_get form _) as [s|]; [|intros H; inversion H; now left].
    destruct (AttributeDefinition.data_type _);
      repeat match goal with
        | |- context [int_of_str ?s] => destruct (int_of_str s)
        | |- context [float_of_str ?s] => destruct (float_of_str s)
        | |- context [if negb (String.eqb ?s "") then _ else _] =>
            destruct (negb (String.eqb s ""))
        | |- context [if PyStr.contains ?c ?s then _ else _] =>
            destruct (PyStr.contains c s)
        | |- context [strptime ?s ?f] => destruct (strptime s f)
        | |- context [is_value_or_type_error ?e] =>
            destruct (is_value_or_type_error e)
        | |- context [if optional then _ else _] => destruct optional
        end;
      intros H; inversion H;
      first [ now left | right; split; [reflexivity | now eexists] ].
Qed.

Lemma process_fields_dict form_fields form :
  forall acc acc',
    process_fields form_fields form acc = Ok acc' ->
    NoDup (map fst acc) ->
    NoDup (map fst acc')
    /\ (forall k,
           In k (map fst acc') ->
           In k (map fst acc)
           \/ exists field,
                In field form_fields
                /\ FormFieldConfiguration.is_visible field = true
                /\ AttributeDefinition.code
                     (FormFieldConfiguration.attribute_definition field) = k)
    /\ (forall k v,
           (forall field,
               In field form_fields ->
               AttributeDefinition.code
                 (FormFieldConfiguration.attribute_definition field) <> k) ->
           (In (k, v) acc' <-> In (k, v) acc)).
Proof.
  induction form_fields as [|f rest IH]; cbn [process_fields];
    intros acc acc' H ND.
  - inversion H; subst. split; [assumption|]. split; [auto | tauto].
  - destruct (process_field f form acc) as [acc1|] eqn:E; [|discriminate].
    apply process_field_cases in E.
    assert (ND1 : NoDup (map fst acc1))
      by (destruct E as [-> | (_ & v & ->)];
          [assumption | now apply dict_set_NoDup]).
    destruct (IH acc1 acc' H ND1) as (N & Keys & Keep).
    split; [exact N|]. split.
    + intros k Hk. apply Keys in Hk as [Hk | (g & Hg & Vg & Cg)].
      * destruct E as [-> | (Vf & v & ->)]; [now left|].
        apply dict_set_keys in Hk as [-> | Hk]; [|now left].
        right. exists f. repeat split; auto. now left.
      * right. exists g. repeat split; auto. now right.
    + intros k v Hk.
      rewrite (Keep k v (fun g Hg => Hk g (or_intror Hg))).
      destruct E as [-> | (_ & v0 & ->)]; [reflexivity|].
      apply dict_set_other. intros ->. exact (Hk f (or_introl eq_refl) eq_refl).
Qed.

(** X8. The dictionary [process_form_data] returns has one entry per
    key, and every key is the attribute code of a visible field of the
    form: nothing is written for a field that is not visible or for an
    attribute the form does not have. *)
Theorem process_form_data_keys (form_fields : list FormFieldConfiguration.t)
    (form : request_form) (attribute_values : dict) :
  process_form_data form_fields form = Ok attribute_values ->
  NoDup (map fst attribute_values)
  /\ forall k,
       In k (map fst attribute_values) ->
       exists field,
         In field form_fields
         /\ FormFieldConfiguration.is_visible field = true
         /\ AttributeDefinition.code
              (FormFieldConfiguration.attribute_definition field) = k.
Proof.
  unfold process_form_data. intros H.
  destruct (process_fields_dict form_fields form [] attribute_values H
              (NoDup_nil _)) as (N & Keys & _).
  split; [exact N|].
  intros k Hk. destruct (Keys k Hk) as [[] | Hf]. exact Hf.
Qed.

(** *** From the form to the store *)

(** The entry one field leaves in the dictionary survives the fields
    after it that are on other attributes. *)
Lemma process_form_data_entry before field after form values v :
  (forall acc,
      process_field field form acc
      = Ok (dict_set acc
              (AttributeDefinition.code
                 (FormFieldConfiguration.attribute_definition field)) v)) ->
  (forall f, In f after ->
             AttributeDefinition.code
               (FormFieldConfiguration.attribute_definition f)
             <> AttributeDefinition.code
                  (FormFieldConfiguration.attribute_definition field)) ->
  process_form_data (before ++ field :: after) form = Ok values ->
  NoDup (map fst values)
  /\ In (AttributeDefinition.code
           (FormFieldConfiguration.attribute_definition field), v) values.
Proof.
  intros Step Hafter H. unfold process_form_data in H.
  split.
  - exact (proj1 (process_fields_dict _ form [] values H (NoDup_nil _))).
  - rewrite process_fields_app in H.
    destruct (process_fields before form []) as [acc1|] eqn:E1;
      [|discriminate].
    cbn [process_fields] in H. rewrite Step in H.
    destruct (process_fields_dict before form [] acc1 E1 (NoDup_nil _))
      as (N1 & _).
    destruct (process_fields_dict after form _ values H
                (dict_set_NoDup acc1 _ v N1)) as (_ & _ & Keep).
    apply (Keep _ v Hafter). apply dict_set_in.
Qed.

Lemma blank_step field form :
  is_empty_value
    (form_get form
       ("attr_" ++ AttributeDefinition.code
                     (FormFieldConfiguration.attribute_definition field))%string)
  = true ->
  forall acc,
    process_field field form acc
    = if negb (FormFieldConfiguration.is_visible field) then Ok acc
      else if negb (FormFieldConfiguration.is_required field
                    || AttributeDefinition.is_required
                         (FormFieldConfiguration.attribute_definition field))
           then Ok (dict_set acc
                      (AttributeDefinition.code
                         (FormFieldConfiguration.attribute_definition field))
                      PNone)
           else Ok acc.
Proof.
  intros Emp acc. unfold process_field. now rewrite Emp.
Qed.

(** X9. Editing with an optional field left blank clears the attribute.
    For a visible field that is required neither on the field
    configuration nor on the attribute definition and whose submitted
    value is missing or blank, [process_form_data] enters [None] under
    the attribute's code, and after the update with that dictionary the
    instance reads [None] for the attribute. *)
Theorem optional_blank_field_clears_on_edit (db db' : Database)
    (before after : list FormFieldConfiguration.t)
    (field : FormFieldConfiguration.t) (form : request_form)
    (values : dict) (instance_id : Z) (updated_by : option string)
    (instance : EntityInstance.t) (a : AttributeDefinition.t) :
  let code :=
    AttributeDefinition.code
      (FormFieldConfiguration.attribute_definition field) in
  attribute_ids_unique db ->
  unique_instance_attribute db ->
  FormFieldConfiguration.is_visible field = true ->
  FormFieldConfiguration.is_required field
  || AttributeDefinition.is_required
       (FormFieldConfiguration.attribute_definition field) = false ->
  is_empty_value (form_get form ("attr_" ++ code)%string) = true ->
  (forall f, In f after ->
             AttributeDefinition.code
               (FormFieldConfiguration.attribute_definition f) <> code) ->
  process_form_data (before ++ field :: after) form = Ok values ->
  update_entity_instance_attributes db instance_id values updated_by
  = (Ok (Some instance), db') ->
  attribute_by_code db (EntityInstance.entity_type_id instance) code
  = Some a ->
  In (code, PNone) values
  /\ get_attribute_value db' instance code = PNone.
Proof.
  intros code PK U Vis Opt Emp Hafter Hform Hupd Ha.
  assert (Step : forall acc,
             process_field field form acc = Ok (dict_set acc code PNone)).
  { intros acc. rewrite (blank_step field form Emp acc).
    now rewrite Vis, Opt. }
  destruct (process_form_data_entry before field after form values PNone
              Step Hafter Hform) as (ND & Hin).
  split; [exact Hin|].
  exact (proj2 (update_reads_entries db db' instance_id values updated_by
                  instance PK U ND Hupd code PNone a Hin Ha) eq_refl).
Qed.

(** X10. Editing with a required field left blank keeps the attribute.
    For a field that is required, on the field configuration or on the
    attribute definition, and whose submitted value is missing or blank,
    the dictionary has no entry under the attribute's code, and after the
    update the instance reads for the attribute what it read before. *)
Theorem required_blank_field_keeps_value_on_edit (db db' : Database)
    (before after : list FormFieldConfiguration.t)
    (field : FormFieldConfiguration.t) (form : request_form)
    (values : dict) (instance_id : Z) (updated_by : option string)
    (instance : EntityInstance.t) :
  let code :=
    AttributeDefinition.code
      (FormFieldConfiguration.attribute_definition field) in
  attribute_ids_unique db ->
  FormFieldConfiguration.is_required field
  || AttributeDefinition.is_required
       (FormFieldConfiguration.attribute_definition field) = true ->
  is_empty_value (form_get form ("attr_" ++ code)%string) = true ->
  (forall f, In f (before ++ after) ->
             AttributeDefinition.code
               (FormFieldConfiguration.attribute_definition f) <> code) ->
  process_form_data (before ++ field :: after) form = Ok values ->
  update_entity_instance_attributes db instance_id values updated_by
  = (Ok (Some instance), db') ->
  ~ In code (map fst values)
  /\ get_attribute_value db' instance code
     = get_attribute_value db instance code.
Proof.
  intros code PK Req Emp Hothers Hform Hupd.
  assert (Step : forall acc, process_field field form acc = Ok acc).
  { intros acc. rewrite (blank_step field form Emp acc). rewrite Req.
    now destruct (negb (FormFieldConfiguration.is_visible field)). }
  assert (Hform' : process_form_data (before ++ after) form = Ok values).
  { unfold process_form_data in *. rewrite process_fields_app in *.
    destruct (process_fields before form []); [|discriminate].
    cbn [process_fields] in Hform. now rewrite Step in Hform. }
  assert (Hkey : ~ In code (map fst values)).
  { intros Hk. unfold process_form_data in Hform'.
    destruct (process_fields_dict _ form [] values Hform' (NoDup_nil _))
      as (_ & Keys & _).
    destruct (Keys code Hk) as [[] | (f & Hf & _ & Cf)].
    exact (Hothers f Hf Cf). }
  split; [exact Hkey|].
  exact (update_keeps_other_codes db db' instance_id values updated_by
           instance code PK Hupd Hkey).
Qed.

(** X11. Text typed into a form is read back trimmed.  For a visible
    field on a VARCHAR or TEXT attribute of the entity type and a
    submitted value that is not blank, the instance created from the
    dictionary of [process_form_data] reads the submitted text without
    its leading and trailing white space. *)
Theorem submitted_text_is_read_back_trimmed (db db' : Database)
    (before after : list FormFieldConfiguration.t)
    (field : FormFieldConfiguration.t) (form : request_form)
    (values : dict) (s : string) (entity_type_id : Z)
    (created_by : option string) (instance : EntityInstance.t) :
  let attr := FormFieldConfiguration.attribute_definition field in
  let code := AttributeDefinition.code attr in
  attribute_ids_unique db ->
  unique_instance_attribute db ->
  FormFieldConfiguration.is_visible field = true ->
  store_of (AttributeDefinition.data_type attr) = Some TextStore ->
  form_get form ("attr_" ++ code)%string = Some s ->
  is_empty_value (Some s) = false ->
  (forall f, In f after ->
             AttributeDefinition.code
               (FormFieldConfiguration.attribute_definition f) <> code) ->
  process_form_data (before ++ field :: after) form = Ok values ->
  attribute_by_code db entity_type_id code = Some attr ->
  create_entity_instance_with_attributes db entity_type_id values created_by
  = (Ok instance, db') ->
  get_attribute_value db' instance code = PStr (PyStr.strip s).
Proof.
  intros attr code PK U Vis Ty Hget Hne Hafter Hform Ha Hcreate.
  assert (Step : forall acc,
             process_field field form acc
             = Ok (dict_set acc code (PStr (PyStr.strip s)))).
  { intros acc. unfold process_field. fold attr. fold code.
    rewrite Vis, Hget, Hne. cbn [negb].
    destruct (AttributeDefinition.data_type attr); try discriminate Ty;
      reflexivity. }
  destruct (process_form_data_entry before field after form values _
              Step Hafter Hform) as (ND & Hin).
  pose proof (create_reads_entries db db' entity_type_id values created_by
                instance PK U ND Hcreate code (PStr (PyStr.strip s)) attr
                Hin ltac:(discriminate) Ha) as R.
  unfold stored_as in R.
  destruct (AttributeDefinition.data_type attr); try discriminate Ty;
    cbn [py_str] in R; now inversion R.
Qed.

(** X12. A submitted value the conversion of the field's type refuses,
    with a [ValueError] or a [TypeError]: on a required field the whole
    call raises a [ValueError] that names the attribute and the value,
    whatever fields follow; on an optional field [None] is entered under
    the attribute's code and the call goes on. *)
Theorem unconvertible_value_raises_or_becomes_none
    (before after : list FormFieldConfiguration.t)
    (field : FormFieldConfiguration.t) (form : request_form)
    (s : string) (e : exn) (acc : dict) :
  let attr := FormFieldConfiguration.attribute_definition field in
  let code := AttributeDefinition.code attr in
  FormFieldConfiguration.is_visible field = true ->
  form_get form ("attr_" ++ code)%string = Some s ->
  is_empty_value (Some s) = false ->
  conversion_raises attr s e ->
  is_value_or_type_error e = true ->
  process_fields before form [] = Ok acc ->
  (FormFieldConfiguration.is_required field
   || AttributeDefinition.is_required attr = true ->
   process_form_data (before ++ field :: after) form
   = Raise (ValueError ("Invalid value for " ++ AttributeDefinition.name attr
                        ++ ": " ++ s)%string))
  /\ (FormFieldConfiguration.is_required field
      || AttributeDefinition.is_required attr = false ->
      process_form_data (before ++ field :: after) form
      = process_fields after form (dict_set acc code PNone)).
Proof.
  intros attr code Vis Hget Hne Hconv He Hbefore.
  assert (Hs : negb (String.eqb s "") = true).
  { cbn [is_empty_value] in Hne. apply orb_false_iff in Hne as [Hne _].
    now rewrite Hne. }
  assert (Step : process_field field form acc
                 = if negb (FormFieldConfiguration.is_required field
                            || AttributeDefinition.is_required attr)
                   then Ok (dict_set acc code PNone)
                   else Raise (ValueError
                                 ("Invalid value for "
                                  ++ AttributeDefinition.name attr
                                  ++ ": " ++ s)%string)).
  { unfold process_field. fold attr. fold code.
    rewrite Vis, Hget, Hne. cbn [negb].
    unfold conversion_raises in Hconv.
    destruct (AttributeDefinition.data_type attr); try contradiction;
      rewrite ?Hs, ?Hconv, ?He; reflexivity. }
  unfold process_form_data. rewrite process_fields_app, Hbefore.
  cbn [process_fields]. rewrite Step.
  split; intros ->; reflexivity.
Qed.

(** *** The other readers of the permission tables *)

Lemma check_user_permissions_spec db user_id entity_type_id operation :
  check_user_permissions db user_id entity_type_id operation
  = match user_by_id db user_id with
    | None => false
    | Some user =>
        existsb (fun p =>
                   String.eqb operation "READ" && EntityPermission.can_read p
                   || String.eqb operation "CREATE"
                      && EntityPermission.can_create p
                   || String.eqb operation "UPDATE"
                      && EntityPermission.can_update p
                   || String.eqb operation "DELETE"
                      && EntityPermission.can_delete p)
          (permissions_for db (role_ids_of db user) entity_type_id)
    end.
Proof.
  unfold check_user_permissions.
  destruct (user_by_id db user_id); [apply check_loop_spec | reflexivity].
Qed.

Lemma get_user_permissions_spec db user_id entity_type_id :
  get_user_permissions db user_id entity_type_id
  = match user_by_id db user_id with
    | None => no_permissions
    | Some user =>
        let rows := permissions_for db (role_ids_of db user) entity_type_id in
        mkPermissions (existsb EntityPermission.can_read rows)
          (existsb EntityPermission.can_create rows)
          (existsb EntityPermission.can_update rows)
          (existsb EntityPermission.can_delete rows)
    end.
Proof.
  unfold get_user_permissions.
  destruct (user_by_id db user_id); [|reflexivity].
  now rewrite aggregate_spec.
Qed.

(** X13. [check_user_permissions] knows the four operations in capitals
    and nothing else: for any other operation string, 'read' in small
    letters among them, it answers [False] whatever the roles grant. *)
Theorem check_user_permissions_unknown_operation (db : Database)
    (user_id entity_type_id : Z) (operation : string) :
  ~ In operation ["READ"; "CREATE"; "UPDATE"; "DELETE"] ->
  check_user_permissions db user_id entity_type_id operation = false.
Proof.
  intros Hop. rewrite check_user_permissions_spec.
  destruct (user_by_id db user_id); [|reflexivity].
  assert (E : forall w, In w ["READ"; "CREATE"; "UPDATE"; "DELETE"] ->
                        String.eqb operation w = false).
  { intros w Hw. apply String.eqb_neq. intros ->. contradiction. }
  rewrite (E "READ"), (E "CREATE"), (E "UPDATE"), (E "DELETE");
    cbn [In]; auto 6.
  cbn [andb orb]. induction (permissions_for _ _ _); cbn; auto.
Qed.

(** X14. The helper the templates show and hide actions with agrees with
    the check the routes guard them with: for each of the four
    operations, written in any mix of capitals and small letters,
    [has_permission] of a signed-in user is [check_user_permissions] of
    the operation in capitals; for a visitor who is not signed in it is
    [False]. *)
Theorem has_permission_agrees_with_check (db : Database)
    (user_id entity_type_id : Z) (operation permission_type : string) :
  In operation ["READ"; "CREATE"; "UPDATE"; "DELETE"] ->
  equal_ignoring_case permission_type operation ->
  has_permission db (Some user_id) entity_type_id permission_type
  = check_user_permissions db user_id entity_type_id operation
  /\ has_permission db None entity_type_id permission_type = false.
Proof.
  intros Hop Hcase. split; [|reflexivity].
  unfold has_permission, equal_ignoring_case in *. rewrite Hcase.
  rewrite check_user_permissions_spec, get_user_permissions_spec.
  destruct (user_by_id db user_id) as [user|].
  - cbn zeta.
    destruct Hop as [<- | [<- | [<- | [<- | []]]]]; cbn;
      apply existsb_pointwise; intros p; cbn;
      rewrite ?orb_false_r; reflexivity.
  - destruct Hop as [<- | [<- | [<- | [<- | []]]]]; reflexivity.
Qed.

Lemma existsb_eqb_in (x : Z) (l : list Z) :
  existsb (Z.eqb x) l = true <-> In x l.
Proof.
  rewrite existsb_exists. split.
  - intros (y & Hy & E). apply Z.eqb_eq in E. now subst.
  - intros H. exists x. split; [assumption | apply Z.eqb_refl].
Qed.

(** X15. A user can access a module exactly when the module has an
    active entity type the user may read: [can_access_module] is true if
    and only if [check_user_permissions] answers true for READ on some
    active entity type of the module. *)
Theorem can_access_module_iff_some_entity_readable (db : Database)
    (user_id module_id : Z) :
  can_access_module db user_id module_id = true
  <-> exists et,
        In et (entity_types db)
        /\ EntityType.module_id et = module_id
        /\ EntityType.is_active et = true
        /\ check_user_permissions db user_id (EntityType.id et) "READ" = true.
Proof.
  unfold can_access_module. rewrite_strat (topdown check_user_permissions_spec).
  destruct (user_by_id db user_id) as [user|].
  2: { split; [discriminate | intros (et & _ & _ & _ & H); discriminate]. }
  assert (Act : forall et,
             In et (active_entity_types db module_id)
             <-> In et (entity_types db)
                 /\ EntityType.module_id et = module_id
                 /\ EntityType.is_active et = true).
  { intros et. unfold active_entity_types.
    rewrite filter_In, andb_true_iff, Z.eqb_eq. tauto. }
  assert (Read : forall e,
             existsb (fun p =>
                        String.eqb "READ" "READ" && EntityPermission.can_read p
                        || String.eqb "READ" "CREATE"
                           && EntityPermission.can_create p
                        || String.eqb "READ" "UPDATE"
                           && EntityPermission.can_update p
                        || String.eqb "READ" "DELETE"
                           && EntityPermission.can_delete p)
               (permissions_for db (role_ids_of db user) e) = true
             <-> exists p,
                   In p (entity_permissions db)
                   /\ existsb (Z.eqb (EntityPermission.role_id p))
                        (role_ids_of db user) = true
                   /\ EntityPermission.entity_type_id p = e
                   /\ EntityPermission.can_read p = true).
  { intros e. rewrite existsb_exists. unfold permissions_for. split.
    - intros (p & Hp & Hr). apply filter_In in Hp as (Hp & Hc).
      apply andb_true_iff in Hc as (Hc1 & Hc2). apply Z.eqb_eq in Hc2.
      cbn in Hr. rewrite !orb_false_r in Hr.
      exists p. auto.
    - intros (p & Hp & Hrole & He & Hr). exists p. split.
      + apply filter_In. split; [assumption|].
        apply andb_true_iff. split; [assumption | now apply Z.eqb_eq].
      + cbn. rewrite !orb_false_r. exact Hr. }
  split.
  - intros H.
    destruct (map EntityType.id (active_entity_types db module_id))
      as [|i0 ids] eqn:Eids; [discriminate|].
    destruct (find _ (entity_permissions db)) as [p|] eqn:F; [|discriminate].
    apply find_some in F as (Hp & Hc).
    apply andb_true_iff in Hc as (Hc & Hread).
    apply andb_true_iff in Hc as (Hrole & Het).
    apply existsb_eqb_in in Het. rewrite <- Eids in Het.
    apply in_map_iff in Het as (et & Eid & Het).
    apply Act in Het as (Hin & Hm & Ha).
    exists et. repeat split; auto.
    apply Read. exists p. repeat split; auto.
  - intros (et & Hin & Hm & Ha & Hread).
    apply Read in Hread as (p & Hp & Hrole & He & Hr).
    assert (Hid : In (EntityType.id et)
                    (map EntityType.id (active_entity_types db module_id)))
      by (apply in_map; apply Act; auto).
    destruct (map EntityType.id (active_entity_types db module_id))
      as [|i0 ids] eqn:Eids; [contradiction|].
    destruct (find _ (entity_permissions db)) as [q|] eqn:F; [reflexivity|].
    pose proof (find_none _ _ F p Hp) as N. cbn beta in N.
    rewrite Hrole, Hr in N.
    assert (Ex : existsb (Z.eqb (EntityPermission.entity_type_id p))
                   (i0 :: ids) = true)
      by (apply existsb_eqb_in; now rewrite He).
    rewrite Ex in N. discriminate.
Qed.

(** *** More on the dropdown options *)

Lemma collect_options_all db src disp instances :
  forall options seen_values,
    collect_options db src disp false instances options seen_values
    = options
      ++ map (fun instance =>
                mkOption (get_attribute_value db instance src)
                  (py_or (get_attribute_value db instance disp)
                     (get_attribute_value db instance src))
                  (EntityInstance.id instance))
           (filter (fun instance =>
                      is_not_none (get_attribute_value db instance src))
              instances).
Proof.
  induction instances as [|inst rest IH]; intros options sv;
    cbn [collect_options filter andb].
  - now rewrite app_nil_r.
  - destruct (is_not_none (get_attribute_value db inst src)).
    + rewrite IH. cbn [map]. now rewrite <- app_assoc.
    + apply IH.
Qed.

(** X16. Without [unique_only], [get_dropdown_options] offers one option
    for each active instance of the entity type whose source value is
    not null, and no other: the instance ids of the options are, up to
    the order, the ids of those instances. *)
Theorem dropdown_options_one_per_instance (db : Database)
    (entity_type_id : Z) (source_attribute_code : string)
    (display_attribute_code : option string) (e : EntityType.t)
    (source_attr : AttributeDefinition.t) :
  find (fun e => EntityType.id e =? entity_type_id) (entity_types db)
  = Some e ->
  active_attribute_by_code db entity_type_id source_attribute_code
  = Some source_attr ->
  Permutation
    (map option_instance_id
       (get_dropdown_options db entity_type_id source_attribute_code
          display_attribute_code false))
    (map EntityInstance.id
       (filter (fun instance =>
                  is_not_none
                    (get_attribute_value db instance source_attribute_code))
          (active_instances db entity_type_id))).
Proof.
  intros He Ha. unfold get_dropdown_options. rewrite He, Ha.
  rewrite (Permutation_map option_instance_id (sort_by_label_perm _)).
  rewrite collect_options_all. cbn [app].
  rewrite map_map. cbn [option_instance_id]. reflexivity.
Qed.

Lemma active_attribute_by_code_code db e c a :
  active_attribute_by_code db e c = Some a -> AttributeDefinition.code a = c.
Proof.
  unfold active_attribute_by_code; intros H.
  apply find_some in H as [_ H].
  apply andb_true_iff in H as [H _]. apply andb_true_iff in H as [_ H].
  now apply String.eqb_eq.
Qed.

Lemma py_or_same v : py_or v v = v.
Proof. unfold py_or. now destruct (py_bool v). Qed.

(** X17. The label of an option is the display value of its instance
    when that value is truthy, and the source value otherwise.  So
    without a display attribute, with the source code given as display
    code, with an empty display code, or with a display code that does
    not resolve, the label of every option is its value. *)
Theorem dropdown_label_falls_back_on_value (db : Database)
    (entity_type_id : Z) (source_attribute_code : string)
    (display_attribute_code : option string) (unique_only : bool)
    (source_attr : AttributeDefinition.t) (o : DropdownOption) :
  active_attribute_by_code db entity_type_id source_attribute_code
  = Some source_attr ->
  In o (get_dropdown_options db entity_type_id source_attribute_code
          display_attribute_code unique_only) ->
  let display_code :=
    AttributeDefinition.code
      (display_attribute db entity_type_id source_attr source_attribute_code
         display_attribute_code) in
  (exists instance,
      In instance (active_instances db entity_type_id)
      /\ option_instance_id o = EntityInstance.id instance
      /\ option_value o
         = get_attribute_value db instance source_attribute_code
      /\ option_label o
         = (if py_bool (get_attribute_value db instance display_code)
            then get_attribute_value db instance display_code
            else option_value o))
  /\ (display_attribute_code = None
      \/ display_attribute_code = Some source_attribute_code
      \/ display_attribute_code = Some ""
      \/ (exists d, display_attribute_code = Some d
                    /\ active_attribute_by_code db entity_type_id d = None) ->
      option_label o = option_value o).
Proof.
  intros Ha Ho display_code.
  unfold get_dropdown_options in Ho. rewrite Ha in Ho.
  destruct (find _ (entity_types db)); [|contradiction].
  fold display_code in Ho.
  apply (Permutation_in _ (sort_by_label_perm _)) in Ho.
  apply collect_options_origin in Ho
    as [[] | (inst & Hi & Hid & Hv & Hn & Hl)].
  assert (Label : option_label o
                  = (if py_bool (get_attribute_value db inst display_code)
                     then get_attribute_value db inst display_code
                     else option_value o))
    by exact Hl.
  split.
  - exists inst. repeat split; assumption.
  - intros Hcase.
    assert (Hsame : display_code = source_attribute_code).
    { unfold display_code, display_attribute.
      pose proof (active_attribute_by_code_code db _ _ _ Ha) as Hc.
      destruct Hcase as [-> | [-> | [-> | (d & -> & Hd)]]];
        try exact Hc.
      - rewrite String.eqb_refl. cbn [negb andb].
        now rewrite andb_false_r.
      - rewrite Hd.
        now destruct (negb (String.eqb d "")
                      && negb (String.eqb d source_attribute_code)). }
    rewrite Label, Hsame, <- Hv. now destruct (py_bool (option_value o)).
Qed.

(** *** More on the deletion of an attribute *)

(** X18. [delete_attribute] on an attribute of the entity is refused,
    with status 400, the number of rows in the message and the store
    left as it was, exactly when the attribute is kept in the text table
    (VARCHAR, TEXT) or in the numeric table (INT, BIGINT, DECIMAL) and a
    row of that table references it; in every other case it answers 200.
    Rows of the datetime and boolean tables never block it. *)
Theorem delete_attribute_refused_exactly_for_own_rows (db : Database)
    (entity_id attr_id : Z) (attribute : AttributeDefinition.t) :
  find (fun a => (AttributeDefinition.id a =? attr_id)
                 && (AttributeDefinition.entity_type_id a =? entity_id))
    (attribute_definitions db) = Some attribute ->
  let refusal (n : Z) : response :=
    (JsonError ("Cannot delete attribute. It has " ++ PyStr.of_Z n
                ++ " data records.")%string, 400) in
  let text_rows :=
    store_of (AttributeDefinition.data_type attribute) = Some TextStore
    /\ exists r, In r (attribute_values_text db)
                 /\ AttributeValue.attribute_definition_id r = attr_id in
  let numeric_rows :=
    store_of (AttributeDefinition.data_type attribute) = Some NumericStore
    /\ exists r, In r (attribute_values_numeric db)
                 /\ AttributeValue.attribute_definition_id r = attr_id in
  (text_rows ->
   delete_attribute db entity_id attr_id
   = (refusal (count_rows (attribute_values_text db) attr_id), db)
   /\ 0 < count_rows (attribute_values_text db) attr_id)
  /\ (numeric_rows ->
      delete_attribute db entity_id attr_id
      = (refusal (count_rows (attribute_values_numeric db) attr_id), db)
      /\ 0 < count_rows (attribute_values_numeric db) attr_id)
  /\ (~ text_rows -> ~ numeric_rows ->
      fst (delete_attribute db entity_id attr_id)
      = (JsonSuccess "Attribute deleted successfully", 200)).
Proof.
  intros Hf refusal text_rows numeric_rows.
  unfold delete_attribute. rewrite Hf.
  subst text_rows numeric_rows. cbv beta.
  split; [|split].
  - intros (Ty & Hr). apply count_rows_positive in Hr.
    destruct (AttributeDefinition.data_type attribute); try discriminate Ty;
      rewrite Hr; (split; [reflexivity | now apply Z.gtb_lt]).
  - intros (Ty & Hr). apply count_rows_positive in Hr.
    destruct (AttributeDefinition.data_type attribute); try discriminate Ty;
      rewrite Hr; (split; [reflexivity | now apply Z.gtb_lt]).
  - intros Ht Hn.
    destruct (AttributeDefinition.data_type attribute) eqn:Ty;
      cbn [store_of] in Ht, Hn; try reflexivity;
      match goal with
      | |- context [count_rows ?rows attr_id >? 0] =>
          destruct (count_rows rows attr_id >? 0) eqn:C; [|reflexivity];
          apply count_rows_positive in C; exfalso;
          first [ apply Ht; split; [reflexivity | exact C]
                | apply Hn; split; [reflexivity | exact C] ]
      end.
Qed.

(** X19. A deletion that is not answered with 200 leaves the store as it
    was.  One that is answered with 200 removes the attribute with that
    key from the registry and every field configuration on it from the
    forms, keeps every other attribute and field configuration, and
    touches no value row, no instance and no permission. *)
Theorem delete_attribute_effects (db db' : Database) (entity_id attr_id : Z)
    (body : json) (status : Z) :
  delete_attribute db entity_id attr_id = ((body, status), db') ->
  (status <> 200 -> db' = db)
  /\ (status = 200 ->
      (forall a, In a (attribute_definitions db')
                 <-> In a (attribute_definitions db)
                     /\ AttributeDefinition.id a <> attr_id)
      /\ (forall f, In f (form_field_configurations db')
                    <-> In f (form_field_configurations db)
                        /\ FormFieldConfiguration.attribute_definition_id f
                           <> attr_id)
      /\ same_values db db'
      /\ entity_types db' = entity_types db
      /\ entity_instances db' = entity_instances db
      /\ users db' = users db
      /\ user_roles db' = user_roles db
      /\ entity_permissions db' = entity_permissions db).
Proof.
  unfold delete_attribute.
  destruct (find _ (attribute_definitions db)) as [attribute|] eqn:F.
  2: { intros H; inversion H; subst. split; [reflexivity | discriminate]. }
  apply find_some in F as (_ & Fid).
  apply andb_true_iff in Fid as (Fid & _). apply Z.eqb_eq in Fid.
  match goal with
  | |- context [if ?c then _ else _] => destruct c
  end; intros H; inversion H; subst;
    (split; [intros N; try reflexivity; now contradiction N|]);
    [discriminate|].
  intros _.
  cbn [attribute_definitions form_field_configurations
         with_attribute_definitions with_form_field_configurations].
  split; [|split; [|repeat split]].
  - intros a. rewrite filter_In, negb_true_iff, Z.eqb_neq. tauto.
  - intros f. rewrite filter_In, negb_true_iff, Z.eqb_neq. tauto.
Qed.

(** *** Maintaining permissions and role assignments *)

Lemma permission_of_true r e p :
  permission_of r e p = true <-> permission_key p = (r, e).
Proof.
  unfold permission_of, permission_key.
  rewrite andb_true_iff, !Z.eqb_eq. split.
  - intros [-> ->]; reflexivity.
  - intros H; inversion H; auto.
Qed.

Lemma permission_of_false r e p :
  permission_of r e p = false <-> permission_key p <> (r, e).
Proof.
  rewrite <- permission_of_true.
  destruct (permission_of r e p); split; congruence.
Qed.

Lemma update_first_permission_keys r e fr fc fu fd rows :
  map permission_key (update_first_permission r e fr fc fu fd rows)
  = map permission_key rows.
Proof.
  induction rows as [|p rows IH]; cbn [update_first_permission map];
    [reflexivity|].
  destruct (permission_of r e p); cbn [map]; [reflexivity | now rewrite IH].
Qed.

Lemma update_first_permission_in r e fr fc fu fd rows p :
  NoDup (map permission_key rows) ->
  In (r, e) (map permission_key rows) ->
  In p (update_first_permission r e fr fc fu fd rows)
  <-> p = EntityPermission.Build r e fr fc fu fd
      \/ (In p rows /\ permission_key p <> (r, e)).
Proof.
  induction rows as [|q rows IH]; cbn [update_first_permission map In];
    intros ND Hin; [contradiction|].
  inversion ND as [|? ? Hq ND']; subst.
  destruct (permission_of r e q) eqn:E.
  - apply permission_of_true in E.
    assert (Eq : EntityPermission.Build (EntityPermission.role_id q)
                   (EntityPermission.entity_type_id q) fr fc fu fd
                 = EntityPermission.Build r e fr fc fu fd)
      by (unfold permission_key in E; inversion E; reflexivity).
    rewrite Eq. cbn [In]. split.
    + intros [<- | H]; [now left|]. right. split; [now right|].
      intros K. apply Hq. rewrite E, <- K. now apply in_map.
    + intros [-> | [[-> | H] K]]; [now left | contradiction | now right].
  - apply permission_of_false in E. cbn [In].
    destruct Hin as [Hin | Hin]; [contradiction|].
    rewrite (IH ND' Hin). split.
    + intros [<- | [-> | [H K]]]; auto.
    + intros [-> | [[<- | H] K]]; auto.
Qed.

Lemma find_permission_none r e rows :
  find (permission_of r e) rows = None
  <-> ~ In (r, e) (map permission_key rows).
Proof.
  induction rows as [|p rows IH]; cbn [find map In]; [tauto|].
  destruct (permission_of r e p) eqn:E.
  - apply permission_of_true in E.
    split; [discriminate | intros H; exfalso; auto].
  - apply permission_of_false in E. rewrite IH. split.
    + intros H [K | K]; auto.
    + intros H K; apply H; auto.
Qed.

(** The rows of the permission table after [update_permission]. *)
Lemma update_permission_rows db r e data :
  unique_role_entity_permission db ->
  pd_entity_type_id data = Some e ->
  let row :=
    EntityPermission.Build r e (flag_or_false (pd_can_read data))
      (flag_or_false (pd_can_create data))
      (flag_or_false (pd_can_update data))
      (flag_or_false (pd_can_delete data)) in
  exists rows,
    update_permission db r data
    = (AcSuccess "Permission updated successfully",
       with_entity_permissions db rows)
    /\ NoDup (map permission_key rows)
    /\ forall p, In p rows
                 <-> p = row
                     \/ (In p (entity_permissions db)
                         /\ permission_key p <> (r, e)).
Proof.
  intros U He row. unfold update_permission. rewrite He.
  fold row. unfold unique_role_entity_permission in U.
  change (fun p => (EntityPermission.role_id p,
                    EntityPermission.entity_type_id p))
    with permission_key in U.
  destruct (find (permission_of r e) (entity_permissions db)) as [q|] eqn:F;
    eexists; (split; [reflexivity|]).
  - split; [now rewrite update_first_permission_keys|].
    intros p. apply update_first_permission_in; [exact U|].
    apply find_some in F as (Hq & Eq). apply permission_of_true in Eq.
    rewrite <- Eq. now apply in_map.
  - apply find_permission_none in F. split.
    + rewrite map_app. apply NoDup_app; [exact U | repeat constructor; auto|].
      intros k Hk [<- | []]. exact (F Hk).
    + intros p. rewrite in_app_iff. cbn [In]. split.
      * intros [H | [<- | []]]; [right | now left].
        split; [assumption|]. intros K. apply F. rewrite <- K.
        now apply in_map.
      * intros [-> | [H _]]; auto.
Qed.


(** X21. What is set is what the user gets.  For a user whose role
    assignments are all to one role, after [update_permission] for that
    role and an entity type, [get_user_permissions] of the user on the
    entity type returns exactly the four flags of the request, and
    [check_user_permissions] follows them. *)
Theorem update_permission_then_get_user_permissions (db : Database)
    (user_id role_id entity_type_id : Z) (user : User.t)
    (data : PermissionData) :
  unique_role_entity_permission db ->
  user_by_id db user_id = Some user ->
  (exists ur, In ur (user_roles db) /\ UserRole.user_id ur = user_id
              /\ UserRole.role_id ur = role_id) ->
  (forall ur, In ur (user_roles db) -> UserRole.user_id ur = user_id ->
              UserRole.role_id ur = role_id) ->
  pd_entity_type_id data = Some entity_type_id ->
  let db' := snd (update_permission db role_id data) in
  get_user_permissions db' user_id entity_type_id
  = mkPermissions (flag_or_false (pd_can_read data))
      (flag_or_false (pd_can_create data))
      (flag_or_false (pd_can_update data))
      (flag_or_false (pd_can_delete data))
  /\ check_user_permissions db' user_id entity_type_id "READ"
     = flag_or_false (pd_can_read data)
  /\ check_user_permissions db' user_id entity_type_id "CREATE"
     = flag_or_false (pd_can_create data)
  /\ check_user_permissions db' user_id entity_type_id "UPDATE"
     = flag_or_false (pd_can_update data)
  /\ check_user_permissions db' user_id entity_type_id "DELETE"
     = flag_or_false (pd_can_delete data).
Proof.
  intros U Hu (ur0 & Hur0 & Huid0 & Hrid0) Honly He db'.
  destruct (update_permission_rows db role_id entity_type_id data U He)
    as (rows & Hupd & ND & Hrows).
  subst db'. rewrite Hupd. cbn [snd].
  set (row := EntityPermission.Build role_id entity_type_id _ _ _ _) in *.
  set (db' := with_entity_permissions db rows).
  assert (Hu' : user_by_id db' user_id = Some user) by exact Hu.
  pose proof (user_by_id_some db user_id user Hu) as (_ & Hid).
  assert (Flag : forall flag,
             existsb flag
               (permissions_for db' (role_ids_of db' user) entity_type_id)
             = flag row).
  { intros flag.
    destruct (flag row) eqn:Fr.
    - apply existsb_exists. exists row. split; [|exact Fr].
      apply permissions_for_user. split; [apply Hrows; now left|].
      split; [reflexivity|]. exists ur0. repeat split; auto. congruence.
    - destruct (existsb flag _) eqn:Ex; [|reflexivity].
      apply existsb_exists in Ex as (p & Hp & Fp).
      apply permissions_for_user in Hp as (Hp & Het & ur & Hur & Huid & Hrid).
      apply Hrows in Hp as [-> | (Hp & Hk)]; [congruence|].
      exfalso. apply Hk. unfold permission_key. rewrite Het, <- Hrid.
      rewrite (Honly ur Hur); [reflexivity | congruence]. }
  rewrite get_user_permissions_spec, !check_user_permissions_spec, Hu'.
  cbn zeta. rewrite !Flag.
  repeat split; cbn; rewrite ?orb_false_r; reflexivity.
Qed.

Lemma assignment_of_true u r ur :
  assignment_of u r ur = true <-> assignment_key ur = (u, r).
Proof.
  unfold assignment_of, assignment_key.
  rewrite andb_true_iff, !Z.eqb_eq. split.
  - intros [-> ->]; reflexivity.
  - intros H; inversion H; auto.
Qed.

Lemma assignment_of_false u r ur :
  assignment_of u r ur = false <-> assignment_key ur <> (u, r).
Proof.
  rewrite <- assignment_of_true.
  destruct (assignment_of u r ur); split; congruence.
Qed.

Lemma find_assignment_none u r rows :
  find (assignment_of u r) rows = None
  <-> ~ In (u, r) (map assignment_key rows).
Proof.
  induction rows as [|x rows IH]; cbn [find map In]; [tauto|].
  destruct (assignment_of u r x) eqn:E.
  - apply assignment_of_true in E.
    split; [discriminate | intros H; exfalso; auto].
  - apply assignment_of_false in E. rewrite IH. split.
    + intros H [K | K]; auto.
    + intros H K; apply H; auto.
Qed.

Lemma delete_first_assignment_new u r rows :
  find (assignment_of u r) rows = None ->
  delete_first_assignment u r (rows ++ [UserRole.Build u r]) = rows.
Proof.
  induction rows as [|x rows IH]; cbn [find app delete_first_assignment].
  - intros _. unfold assignment_of. cbn. now rewrite !Z.eqb_refl.
  - destruct (assignment_of u r x); [discriminate|].
    intros H. now rewrite (IH H).
Qed.

Lemma delete_first_assignment_in u r rows :
  NoDup (map assignment_key rows) ->
  forall ur, In ur (delete_first_assignment u r rows)
             <-> In ur rows /\ assignment_key ur <> (u, r).
Proof.
  induction rows as [|x rows IH]; cbn [delete_first_assignment map In];
    intros ND ur; [tauto|].
  inversion ND as [|? ? Hx ND']; subst.
  destruct (assignment_of u r x) eqn:E.
  - apply assignment_of_true in E. split.
    + intros H. split; [now right|].
      intros K. apply Hx. rewrite E, <- K. now apply in_map.
    + intros [[-> | H] K]; [contradiction | assumption].
  - apply assignment_of_false in E. cbn [In]. rewrite (IH ND' ur). split.
    + intros [<- | [H K]]; auto.
    + intros [[<- | H] K]; auto.
Qed.

Lemma with_user_roles_back db x :
  with_user_roles (with_user_roles db x) (user_roles db) = db.
Proof. now destruct db. Qed.

(** X22. Assigning a role the user does not have succeeds and appends
    one assignment; assigning it again is refused with 400 and changes
    nothing; removing it gives back the store as it was before the
    assignment; and the table keeps at most one row per pair (user,
    role). *)
Theorem assign_role_then_remove_role (db : Database) (user_id role_id : Z) :
  find (assignment_of user_id role_id) (user_roles db) = None ->
  exists db1,
    assign_role db user_id (Some role_id)
    = (AcSuccess "Role assigned successfully", db1)
    /\ user_roles db1 = user_roles db ++ [UserRole.Build user_id role_id]
    /\ assign_role db1 user_id (Some role_id)
       = (AcRefused 400 "Role already assigned", db1)
    /\ remove_role db1 user_id role_id
       = (AcSuccess "Role removed successfully", db)
    /\ (unique_user_role db -> unique_user_role db1).
Proof.
  intros F. unfold assign_role at 1. rewrite F.
  eexists. split; [reflexivity|]. split; [reflexivity|].
  assert (F1 : find (assignment_of user_id role_id)
                 (user_roles db ++ [UserRole.Build user_id role_id])
               = Some (UserRole.Build user_id role_id)).
  { clear - F. induction (user_roles db) as [|x rows IH]; cbn [find app] in *.
    - unfold assignment_of. cbn. now rewrite !Z.eqb_refl.
    - destruct (assignment_of user_id role_id x); [discriminate | now apply IH]. }
  split; [|split].
  - unfold assign_role. cbn [user_roles with_user_roles]. now rewrite F1.
  - unfold remove_role. cbn [user_roles with_user_roles]. rewrite F1.
    rewrite (delete_first_assignment_new _ _ _ F).
    now rewrite with_user_roles_back.
  - unfold unique_user_role. cbn [user_roles with_user_roles].
    change (fun ur => (UserRole.user_id ur, UserRole.role_id ur))
      with assignment_key.
    intros U. apply find_assignment_none in F.
    rewrite map_app. apply NoDup_app; [exact U | repeat constructor; auto|].
    intros k Hk [<- | []]. exact (F Hk).
Qed.

(** X23. A role assignment takes effect at once: after [assign_role]
    succeeds for an existing user, every capability a permission row of
    the role grants on an entity type is a capability of the user. *)
Theorem assign_role_grants (db db' : Database) (user_id role_id : Z)
    (user : User.t) (message : string) (p : EntityPermission.t) :
  user_by_id db user_id = Some user ->
  assign_role db user_id (Some role_id) = (AcSuccess message, db') ->
  In p (entity_permissions db) ->
  EntityPermission.role_id p = role_id ->
  let e := EntityPermission.entity_type_id p in
  let r := get_user_permissions db' user_id e in
  (EntityPermission.can_read p = true ->
   can_read r = true /\ check_user_permissions db' user_id e "READ" = true)
  /\ (EntityPermission.can_create p = true ->
      can_create r = true
      /\ check_user_permissions db' user_id e "CREATE" = true)
  /\ (EntityPermission.can_update p = true ->
      can_update r = true
      /\ check_user_permissions db' user_id e "UPDATE" = true)
  /\ (EntityPermission.can_delete p = true ->
      can_delete r = true
      /\ check_user_permissions db' user_id e "DELETE" = true).
Proof.
  intros Hu Ha Hp Hr e r.
  unfold assign_role in Ha.
  destruct (find _ (user_roles db)); [discriminate|].
  inversion Ha; subst db' message. clear Ha.
  set (db' := with_user_roles db _) in *.
  assert (Hu' : user_by_id db' user_id = Some user) by exact Hu.
  pose proof (user_by_id_some db user_id user Hu) as (_ & Hid).
  assert (Row : In p (permissions_for db' (role_ids_of db' user) e)).
  { apply permissions_for_user. split; [exact Hp|]. split; [reflexivity|].
    exists (UserRole.Build user_id role_id).
    cbn [user_roles with_user_roles db' UserRole.user_id UserRole.role_id].
    split; [apply in_or_app; right; now left|]. split; congruence. }
  subst r. rewrite get_user_permissions_spec, !check_user_permissions_spec, Hu'.
  cbn zeta. cbn [can_read can_create can_update can_delete].
  repeat split; apply existsb_exists; exists p; (split; [exact Row|]);
    cbn; rewrite ?H; rewrite ?orb_true_r; reflexivity.
Qed.

(** X24. Removing a role takes away what only that role granted: after
    [remove_role] succeeds, with at most one row per pair (user, role),
    a user for whom no other role's permission row on an entity type
    grants anything has no capability on that entity type. *)
Theorem remove_role_revokes (db db' : Database)
    (user_id role_id entity_type_id : Z) (message : string) :
  unique_user_role db ->
  remove_role db user_id role_id = (AcSuccess message, db') ->
  (forall p, In p (entity_permissions db) ->
             EntityPermission.entity_type_id p = entity_type_id ->
             EntityPermission.role_id p <> role_id ->
             EntityPermission.can_read p = false
             /\ EntityPermission.can_create p = false
             /\ EntityPermission.can_update p = false
             /\ EntityPermission.can_delete p = false) ->
  get_user_permissions db' user_id entity_type_id = no_permissions
  /\ forall operation,
       check_user_permissions db' user_id entity_type_id operation = false.
Proof.
  intros U Hrem Hothers.
  unfold remove_role in Hrem.
  destruct (find _ (user_roles db)); [|discriminate].
  inversion Hrem; subst db' message. clear Hrem.
  set (db' := with_user_roles db _) in *.
  unfold unique_user_role in U.
  change (fun ur => (UserRole.user_id ur, UserRole.role_id ur))
    with assignment_key in U.
  rewrite get_user_permissions_spec.
  assert (Spec : forall operation,
             check_user_permissions db' user_id entity_type_id operation
             = _) by (intros; apply check_user_permissions_spec).
  destruct (user_by_id db' user_id) as [user|] eqn:Hu.
  2: { split; [reflexivity|]. intros op. now rewrite Spec. }
  pose proof (user_by_id_some db' user_id user Hu) as (_ & Hid).
  assert (Rows : forall p,
             In p (permissions_for db' (role_ids_of db' user) entity_type_id) ->
             EntityPermission.can_read p = false
             /\ EntityPermission.can_create p = false
             /\ EntityPermission.can_update p = false
             /\ EntityPermission.can_delete p = false).
  { intros p Hp.
    apply permissions_for_user in Hp as (Hp & He & ur & Hur & Huid & Hrid).
    apply (Hothers p Hp He).
    cbn [user_roles with_user_roles db'] in Hur.
    apply (delete_first_assignment_in user_id role_id _ U) in Hur as (_ & K).
    intros E. apply K. unfold assignment_key. congruence. }
  assert (None_of : forall flag,
             (forall p, In p (permissions_for db' (role_ids_of db' user)
                                entity_type_id) -> flag p = false) ->
             existsb flag (permissions_for db' (role_ids_of db' user)
                             entity_type_id) = false).
  { intros flag Hf.
    destruct (existsb flag _) eqn:Ex; [|reflexivity].
    apply existsb_exists in Ex as (p & Hp & Fp).
    rewrite (Hf p Hp) in Fp. discriminate. }
  split.
  - cbn zeta. unfold no_permissions.
    rewrite !None_of; [reflexivity | | | |]; intros p Hp; apply (Rows p Hp).
  - intros op. rewrite Spec. apply None_of. intros p Hp.
    destruct (Rows p Hp) as (R1 & R2 & R3 & R4).
    rewrite R1, R2, R3, R4. now rewrite !andb_false_r.
Qed.

(** *** Workflow transitions *)

Lemma role_in_true role roles : role_in role roles = true <-> In role roles.
Proof.
  unfold role_in. rewrite existsb_exists. split.
  - intros (x & Hx & E). apply String.eqb_eq in E. now subst.
  - intros H. exists role. split; [assumption | apply String.eqb_refl].
Qed.

(** X25. [get_workflow_next_states] returns active transitions that
    leave the current state, and no other.  Called
    without roles, or with an empty list of roles, it returns all of
    them, those that require a role too.  Called with roles it returns
    the ones that require no role (null or an empty list) and the ones
    one of whose required roles is among the roles given. *)
Theorem workflow_next_states_spec (transitions : list WorkflowTransition.t)
    (current_state_id : Z) (user_roles : option (list string))
    (t : WorkflowTransition.t) :
  In t (get_workflow_next_states transitions current_state_id user_roles)
  <-> In t transitions
      /\ WorkflowTransition.from_state_id t = current_state_id
      /\ WorkflowTransition.is_active t = true
      /\ (user_roles = None
          \/ user_roles = Some []
          \/ WorkflowTransition.required_roles t = None
          \/ WorkflowTransition.required_roles t = Some []
          \/ exists roles required role,
               user_roles = Some roles
               /\ WorkflowTransition.required_roles t = Some required
               /\ In role required /\ In role roles).
Proof.
  unfold get_workflow_next_states.
  assert (Found : forall x,
             In x (filter (fun t =>
                             (WorkflowTransition.from_state_id t
                              =? current_state_id)
                             && WorkflowTransition.is_active t) transitions)
             <-> In x transitions
                 /\ WorkflowTransition.from_state_id x = current_state_id
                 /\ WorkflowTransition.is_active x = true).
  { intros x. rewrite filter_In, andb_true_iff, Z.eqb_eq. tauto. }
  destruct user_roles as [[|r rs]|].
  - rewrite Found. intuition.
  - rewrite filter_In, Found. split.
    + intros ((Hin & Hf & Ha) & Hreq). repeat split; auto.
      destruct (WorkflowTransition.required_roles t) as [[|q qs]|] eqn:Rq;
        auto.
      apply existsb_exists in Hreq as (role & Hrole & Hr).
      apply role_in_true in Hr.
      do 4 right. exists (r :: rs), (q :: qs), role. auto.
    + intros (Hin & Hf & Ha & Hcase). split; [auto|].
      destruct Hcase as [K | [K | [K | [K | (roles & req & role & K1 & K2
                                             & K3 & K4)]]]];
        try discriminate K; try (now rewrite K).
      inversion K1; subst roles. rewrite K2.
      destruct req as [|q qs]; [reflexivity|].
      apply existsb_exists. exists role. split; [exact K3|].
      now apply role_in_true.
  - rewrite Found. intuition.
Qed.

(** X26. The writes of the engine keep the constraints of the schema:
    from a store whose attribute keys are unique, whose value tables
    hold at most one row per pair (instance, attribute) and a value only
    in the table of the attribute's data type, [set_attribute_value],
    [create_entity_instance_with_attributes] and
    [update_entity_instance_attributes] lead to a store of which the same
    holds, whether they succeed or raise. *)
Theorem writes_keep_schema_constraints (db : Database) :
  attribute_ids_unique db ->
  unique_instance_attribute db ->
  typed_storage db ->
  (forall self code v b db',
      set_attribute_value db self code v = Ok (b, db') ->
      attribute_ids_unique db'
      /\ unique_instance_attribute db'
      /\ typed_storage db')
  /\ (forall entity_type_id attribute_values created_by,
         let db' := snd (create_entity_instance_with_attributes db
                           entity_type_id attribute_values created_by) in
         attribute_ids_unique db'
         /\ unique_instance_attribute db'
         /\ typed_storage db')
  /\ (forall instance_id attribute_values updated_by,
         let db' := snd (update_entity_instance_attributes db instance_id
                           attribute_values updated_by) in
         attribute_ids_unique db'
         /\ unique_instance_attribute db'
         /\ typed_storage db').
Proof.
  intros PK U T. split; [|split].
  - intros self code v b db' H.
    destruct (set_attribute_value_keeps_typed db self code v b db' PK T H)
      as (T' & D).
    split; [unfold attribute_ids_unique; now rewrite D|].
    split; [exact (set_attribute_value_keeps_unique db self code v b db' U H)
           | exact T'].
  - intros e items by_. exact (create_keeps_constraints db e items by_ PK U T).
  - intros i items by_. exact (update_keeps_constraints db i items by_ PK U T).
Qed.

End Properties.

(** ** The properties on the sample stores *)

Section Examples.

Import Sample.

#[local] Existing Instance toy_runtime.

Lemma cargo_db_unique : unique_instance_attribute cargo_db.
Proof.
  unfold unique_instance_attribute; simpl.
  repeat split; repeat constructor; simpl; tauto.
Qed.

Lemma cargo_db_typed : typed_storage cargo_db.
Proof.
  intros a s i Ha Hr. simpl in Ha.
  destruct Ha as [<- | [<- | [<- | []]]]; destruct s;
    unfold has_row in Hr; simpl in Hr;
    try reflexivity; try contradiction;
    destruct Hr as [Hr | []]; discriminate Hr.
Qed.

(** The scenario of the specification: a second Coal is accepted
    although CARGO_NAME is unique, and two rows are persisted for it. *)
Lemma second_coal_is_created :
  AttributeDefinition.is_unique cargo_name = true
  /\ In coal (active_instances cargo_db 1)
  /\ get_attribute_value cargo_db coal "CARGO_NAME" = PStr "Coal"
  /\ exists instance db',
       create_entity_instance_with_attributes cargo_db 1
         [("CARGO_NAME", PStr "Coal")] None = (Ok instance, db')
       /\ entity_instances db' = [coal; instance]
       /\ attribute_values_text db'
          = [AttributeValue.Build 1 1 "Coal";
             AttributeValue.Build (EntityInstance.id instance) 1 "Coal"].
Proof.
  split; [reflexivity|]. split; [now left|]. split; [reflexivity|].
  eexists. eexists. repeat split; reflexivity.
Qed.

Lemma unique_flag_is_not_enforced_on_cargo :
  exists instance db',
    create_entity_instance_with_attributes cargo_db 1
      [("CARGO_NAME", PStr "Coal")] None = (Ok instance, db')
    /\ entity_instances db' = entity_instances cargo_db ++ [instance]
    /\ EntityInstance.id instance <> EntityInstance.id coal
    /\ EntityInstance.entity_type_id instance = 1
    /\ EntityInstance.is_active instance = true
    /\ (exists s, store_of (AttributeDefinition.data_type cargo_name) = Some s
                  /\ has_row db' s (EntityInstance.id instance)
                       (AttributeDefinition.id cargo_name))
    /\ get_attribute_value db' instance "CARGO_NAME" = PStr "Coal"
    /\ get_attribute_value db' coal "CARGO_NAME" = PStr "Coal".
Proof.
  apply (unique_flag_is_not_enforced cargo_db 1 "CARGO_NAME" cargo_name
           coal (PStr "Coal") None).
  - reflexivity.
  - reflexivity.
  - now left.
  - reflexivity.
  - discriminate.
Defined.

(** C2, on the code.  The attribute HAZARDOUS is BOOLEAN and a row of the
    boolean table references it: [delete_attribute] counts the rows of
    the text and of the numeric table only, so the deletion is not
    refused; it answers 200 and leaves the row without its attribute. *)
Lemma delete_attribute_misses_boolean_rows :
  AttributeDefinition.data_type hazardous = BOOLEAN
  /\ In (AttributeValue.Build 1 2 true) (attribute_values_boolean cargo_db)
  /\ exists db',
       delete_attribute cargo_db 1 2
       = ((JsonSuccess "Attribute deleted successfully", 200), db')
       /\ attribute_definitions db' = [cargo_name; payload]
       /\ attribute_values_boolean db' = [AttributeValue.Build 1 2 true].
Proof.
  split; [reflexivity|]. split; [now left|].
  eexists. repeat split; reflexivity.
Qed.

(** CARGO_NAME was given the data type INT while the instance had a
    text row: writing [None] clears the numeric table, where the pair has
    no row, and the text row of the pair is still there. *)
Lemma set_null_leaves_the_row_of_an_earlier_type :
  attribute_by_code retyped_db 1 "CARGO_NAME" = Some retyped_name
  /\ unique_instance_attribute retyped_db
  /\ set_attribute_value retyped_db coal "CARGO_NAME" PNone
     = Ok (true, retyped_db)
  /\ get_attribute_value retyped_db coal "CARGO_NAME" = PNone
  /\ has_row retyped_db TextStore 1 1
  /\ attribute_values_text retyped_db = [AttributeValue.Build 1 1 "Coal"].
Proof.
  split; [reflexivity|].
  split; [exact cargo_db_unique|].
  split; [reflexivity|]. split; [reflexivity|].
  split; [now left | reflexivity].
Qed.

Lemma set_null_on_cargo_name_and_on_the_retyped_one :
  (exists db',
      set_attribute_value cargo_db coal "CARGO_NAME" PNone = Ok (true, db')
      /\ get_attribute_value db' coal "CARGO_NAME" = PNone
      /\ (forall s, ~ has_row db' s 1 1)
      /\ (forall s i' a', (i', a') <> (1, 1) ->
                          (has_row db' s i' a' <-> has_row cargo_db s i' a')))
  /\ (exists db',
        set_attribute_value retyped_db coal "CARGO_NAME" PNone
        = Ok (true, db')
        /\ get_attribute_value db' coal "CARGO_NAME" = PNone
        /\ ~ has_row db' NumericStore 1 1
        /\ (has_row db' TextStore 1 1 <-> has_row retyped_db TextStore 1 1)).
Proof.
  split.
  - destruct (set_null_clears_the_table_of_the_type cargo_db coal
                "CARGO_NAME" cargo_name eq_refl cargo_db_unique)
      as (db' & Hset & Hget & _ & _ & Hframe & Hall).
    exists db'. split; [exact Hset|]. split; [exact Hget|].
    split; [exact (Hall cargo_db_typed) | exact Hframe].
  - destruct (set_null_clears_the_table_of_the_type retyped_db coal
                "CARGO_NAME" retyped_name eq_refl cargo_db_unique)
      as (db' & Hset & Hget & Hown & Hothers & _ & _).
    exists db'. split; [exact Hset|]. split; [exact Hget|].
    split; [exact (Hown NumericStore eq_refl)|].
    apply (Hothers TextStore). discriminate.
Defined.

(** A user with a role that denies and a role that grants reading. *)
Lemma two_roles_resolve_to_read :
  EntityPermission.can_read viewer_on_cargo = false
  /\ EntityPermission.can_read clerk_on_cargo = true
  /\ can_read (get_user_permissions cargo_db 1 1) = true
  /\ granted cargo_db 1 1 EntityPermission.can_read
  /\ check_user_permissions cargo_db 1 1 "READ" = true.
Proof.
  destruct (permissions_are_or_over_roles cargo_db 1 1
              (User.Build 1 "alice") eq_refl)
    as (Hread & _ & _ & _ & Hcheck & _).
  split; [reflexivity|]. split; [reflexivity|]. split; [reflexivity|].
  split; [apply Hread; reflexivity | rewrite Hcheck; reflexivity].
Defined.

(** A required field submitted blank: nothing is raised, and the
    instance is created without the attribute. *)
Lemma blank_required_field_is_accepted :
  FormFieldConfiguration.is_required cargo_name_field = true
  /\ AttributeDefinition.is_required cargo_name = true
  /\ process_form_data [cargo_name_field; hazardous_field]
       [("attr_CARGO_NAME", "   "); ("attr_HAZARDOUS", "on")]
     = Ok [("HAZARDOUS", PBool true)]
  /\ process_form_data [cargo_name_field; hazardous_field]
       [("attr_HAZARDOUS", "on")]
     = Ok [("HAZARDOUS", PBool true)]
  /\ exists instance db',
       create_entity_instance_with_attributes cargo_db 1
         [("HAZARDOUS", PBool true)] (Some "alice") = (Ok instance, db')
       /\ entity_instances db' = [coal; instance]
       /\ get_attribute_value db' instance "CARGO_NAME" = PNone
       /\ attribute_values_boolean db'
          = [AttributeValue.Build 1 2 true;
             AttributeValue.Build (EntityInstance.id instance) 2 true].
Proof.
  repeat (split; [reflexivity|]).
  eexists. eexists. repeat split; reflexivity.
Qed.

Lemma required_blank_field_is_skipped_on_cargo :
  (forall attribute_values,
      process_field cargo_name_field [("attr_CARGO_NAME", "   ")]
        attribute_values = Ok attribute_values)
  /\ (forall before after,
         process_form_data (before ++ cargo_name_field :: after)
           [("attr_CARGO_NAME", "   ")]
         = process_form_data (before ++ after) [("attr_CARGO_NAME", "   ")]).
Proof.
  apply (required_blank_field_is_skipped cargo_name_field
           [("attr_CARGO_NAME", "   ")]).
  - reflexivity.
  - reflexivity.
Defined.

(** Written directly, the string false is stored as true, and a blank
    value from the form stores no boolean. *)
Lemma the_word_false_is_stored_as_true :
  AttributeDefinition.data_type hazardous = BOOLEAN
  /\ get_attribute_value calm_db coal "HAZARDOUS" = PBool false
  /\ (exists db',
        set_attribute_value calm_db coal "HAZARDOUS" (PStr "false")
        = Ok (true, db')
        /\ get_attribute_value db' coal "HAZARDOUS" = PBool true
        /\ attribute_values_boolean db' = [AttributeValue.Build 1 2 true])
  /\ process_form_data [hazardous_field] [("attr_HAZARDOUS", "  ")]
     = Ok [("HAZARDOUS", PNone)].
Proof.
  split; [reflexivity|]. split; [reflexivity|].
  split; [|reflexivity].
  eexists. repeat split; reflexivity.
Qed.

Lemma boolean_write_of_yes_and_of_no :
  process_form_data [hazardous_field] [("attr_HAZARDOUS", "Yes")]
  = Ok [("HAZARDOUS", PBool true)]
  /\ (exists w,
        In w ["true"; "1"; "yes"; "on"] /\ same_ignoring_case "Yes" w)
  /\ process_form_data [hazardous_field] [("attr_HAZARDOUS", "no")]
     = Ok [("HAZARDOUS", PBool false)]
  /\ ~ (exists w,
          In w ["true"; "1"; "yes"; "on"] /\ same_ignoring_case "no" w)
  /\ process_field hazardous_field [("attr_HAZARDOUS", "  ")] []
     = Ok [("HAZARDOUS", PNone)]
  /\ exists db',
       set_attribute_value calm_db coal "HAZARDOUS" (PStr "false")
       = Ok (true, db')
       /\ get_attribute_value db' coal "HAZARDOUS" = PBool true.
Proof.
  destruct (boolean_write_from_form_and_direct calm_db coal hazardous_field
              [("attr_HAZARDOUS", "Yes")] [] eq_refl eq_refl eq_refl)
    as (Yes & _ & Direct & _).
  destruct (boolean_write_from_form_and_direct calm_db coal hazardous_field
              [("attr_HAZARDOUS", "no")] [] eq_refl eq_refl eq_refl)
    as (No & _ & _ & _).
  destruct (boolean_write_from_form_and_direct calm_db coal hazardous_field
              [("attr_HAZARDOUS", "  ")] [] eq_refl eq_refl eq_refl)
    as (_ & Blank & _ & _).
  destruct (Yes "Yes" eq_refl eq_refl) as (b & _ & Hb & Hiff & _).
  destruct (No "no" eq_refl eq_refl) as (b' & _ & Hb' & Hiff' & _).
  assert (Eb : b = true) by (cbv in Hb; congruence).
  assert (Eb' : b' = false) by (cbv in Hb'; congruence).
  subst b b'.
  split; [exact Hb|].
  split; [apply Hiff; reflexivity|].
  split; [exact Hb'|].
  split; [intros H; apply Hiff' in H; discriminate H|].
  split; [exact (Blank eq_refl)|].
  destruct (Direct (PStr "false")) as (db' & Hset & Hget & _);
    [discriminate|].
  exists db'. split; [exact Hset | exact Hget].
Defined.

(** The display attribute code does not resolve and the list is not
    empty: the labels are the source values. *)
Lemma unresolved_display_falls_back :
  active_attribute_by_code dropdown_db 1 "NO_SUCH_CODE" = None
  /\ get_dropdown_options dropdown_db 1 "CARGO_NAME" (Some "NO_SUCH_CODE")
       true
     = [mkOption (PStr "Coal") (PStr "Coal") 1;
        mkOption (PStr "Iron Ore") (PStr "Iron Ore") 3].
Proof. split; reflexivity. Qed.

(** The scenario of the specification: Coal, Coal, Iron Ore. *)
Example dropdown_of_coal_coal_iron_ore :
  get_dropdown_options dropdown_db 1 "CARGO_NAME" None true
  = [mkOption (PStr "Coal") (PStr "Coal") 1;
     mkOption (PStr "Iron Ore") (PStr "Iron Ore") 3].
Proof. reflexivity. Qed.

(** The codes A, B, C are stored in that order and are named 9, Zinc
    and 10: the options come in the order of the names as strings, 10
    before 9 before Zinc, not in the order of the rows or of the
    codes. *)
Lemma codes_come_in_the_order_of_their_names :
  get_dropdown_options sorting_db 1 "CARGO_CODE" (Some "CARGO_NAME") true
  = [mkOption (PStr "C") (PStr "10") 3;
     mkOption (PStr "A") (PStr "9") 1;
     mkOption (PStr "B") (PStr "Zinc") 2]
  /\ get_dropdown_options sorting_db 1 "CARGO_NAME" None true
     = [mkOption (PStr "10") (PStr "10") 3;
        mkOption (PStr "9") (PStr "9") 1;
        mkOption (PStr "Zinc") (PStr "Zinc") 2]
  /\ StronglySorted text_label_le
       [mkOption (PStr "C") (PStr "10") 3;
        mkOption (PStr "A") (PStr "9") 1;
        mkOption (PStr "B") (PStr "Zinc") 2]
  /\ NoDup [@PStr toy_runtime "C"; PStr "A"; PStr "B"].
Proof.
  pose proof (dropdown_options_unique_sorted sorting_db 1 "CARGO_CODE"
                (Some "CARGO_NAME")) as (Distinct & _ & Sorted_text & _).
  split; [reflexivity|]. split; [reflexivity|].
  split; [exact Sorted_text | exact Distinct].
Defined.

Lemma json_payload_is_never_stored :
  set_attribute_value cargo_db coal "PAYLOAD" (PStr "{}")
  = Ok (true, cargo_db)
  /\ get_attribute_value cargo_db coal "PAYLOAD" = PNone
  /\ (forall db',
         set_attribute_value cargo_db coal "PAYLOAD" (PStr "{}")
         = Ok (true, db') ->
         get_attribute_value db' coal "PAYLOAD" = PNone).
Proof.
  exact (json_attribute_is_never_stored cargo_db coal "PAYLOAD" payload
           (PStr "{}") eq_refl eq_refl).
Defined.

(** User 99 does not exist; user 2 exists and has no role. *)
Lemma unknown_user_and_roleless_user_have_nothing :
  (user_by_id cargo_db 99 = None
   /\ get_user_permissions cargo_db 99 1 = no_permissions
   /\ forall operation, check_user_permissions cargo_db 99 1 operation = false)
  /\ (user_by_id cargo_db 2 = Some (User.Build 2 "bob")
      /\ get_user_permissions cargo_db 2 1 = no_permissions
      /\ forall operation,
           check_user_permissions cargo_db 2 1 operation = false).
Proof.
  split; (split; [reflexivity|]).
  - apply (no_user_or_no_role_no_permission cargo_db 99 1).
    left. reflexivity.
  - apply (no_user_or_no_role_no_permission cargo_db 2 1).
    right. intros ur [<- | [<- | []]]; discriminate.
Defined.

(** *** The further properties on the sample stores *)

Ltac distinct_keys :=
  repeat (constructor; [cbn; intuition congruence|]); constructor.

Lemma cargo_db_attribute_keys : attribute_ids_unique cargo_db.
Proof. unfold attribute_ids_unique; cbn. distinct_keys. Qed.


Lemma cargo_db_permission_keys : unique_role_entity_permission cargo_db.
Proof. unfold unique_role_entity_permission; cbn. distinct_keys. Qed.

Lemma cargo_db_assignment_keys : unique_user_role cargo_db.
Proof. unfold unique_user_role; cbn. distinct_keys. Qed.

Lemma renamed_coal_reads_iron_ore :
  true = true
  /\ stored_as (AttributeDefinition.data_type cargo_name) (PStr "Iron Ore")
     = Ok (get_attribute_value renamed_db coal "CARGO_NAME").
Proof.
  apply (set_then_get_reads_stored_value cargo_db renamed_db coal
           "CARGO_NAME" cargo_name (PStr "Iron Ore") true).
  - reflexivity.
  - discriminate.
  - reflexivity.
Defined.

Lemma renaming_coal_keeps_its_hazard_flag :
  same_outside_values cargo_db renamed_db
  /\ get_attribute_value renamed_db coal "HAZARDOUS"
     = get_attribute_value cargo_db coal "HAZARDOUS".
Proof.
  destruct (set_attribute_value_frame cargo_db renamed_db coal "CARGO_NAME"
              (PStr "Iron Ore") true cargo_db_attribute_keys eq_refl)
    as (Same & _ & Codes).
  split; [exact Same|]. apply Codes. discriminate.
Defined.

Lemma created_iron_ore_reads_its_name :
  get_attribute_value created_db created_instance "CARGO_NAME"
  = PStr "Iron Ore"
  /\ get_attribute_value created_db created_instance "HAZARDOUS"
     = PBool false.
Proof.
  assert (ND : NoDup (map fst iron_ore_values)) by (cbn; distinct_keys).
  pose proof (create_then_read cargo_db created_db 1 iron_ore_values
                (Some "alice") created_instance cargo_db_attribute_keys
                cargo_db_unique ND eq_refl) as Reads.
  split.
  - assert (E : stored_as VARCHAR (PStr "Iron Ore")
                = Ok (get_attribute_value created_db created_instance
                        "CARGO_NAME")).
    { apply (Reads "CARGO_NAME" (PStr "Iron Ore") cargo_name);
        [now left | discriminate | reflexivity | now left]. }
    cbn [stored_as py_str] in E. congruence.
  - assert (E : stored_as BOOLEAN (PBool false)
                = Ok (get_attribute_value created_db created_instance
                        "HAZARDOUS")).
    { apply (Reads "HAZARDOUS" (PBool false) hazardous);
        [right; now left | discriminate | reflexivity | right; now left]. }
    cbn [stored_as py_bool] in E. congruence.
Defined.

Lemma create_passes_over_an_unknown_code :
  create_entity_instance_with_attributes cargo_db 1
    ([] ++ ("NO_SUCH_CODE", PStr "x") :: iron_ore_values) None
  = create_entity_instance_with_attributes cargo_db 1
      ([] ++ iron_ore_values) None.
Proof.
  apply (create_ignores_none_and_unknown_codes cargo_db 1 [] iron_ore_values
           "NO_SUCH_CODE" (PStr "x") None).
  right. reflexivity.
Defined.


Lemma renamed_and_cleared_coal_reads_back :
  get_attribute_value relabelled_db cleared_instance "CARGO_NAME"
  = PStr "Iron Ore"
  /\ get_attribute_value relabelled_db cleared_instance "HAZARDOUS" = PNone
  /\ get_attribute_value relabelled_db cleared_instance "PAYLOAD"
     = get_attribute_value cargo_db cleared_instance "PAYLOAD".
Proof.
  assert (ND : NoDup (map fst [("CARGO_NAME", @PStr toy_runtime "Iron Ore");
                               ("HAZARDOUS", PNone)]))
    by (cbn; distinct_keys).
  destruct (update_then_read cargo_db relabelled_db 1
              [("CARGO_NAME", PStr "Iron Ore"); ("HAZARDOUS", PNone)]
              (Some "alice") cleared_instance cargo_db_attribute_keys
              cargo_db_unique ND eq_refl) as (Entries & Others).
  split; [|split].
  - destruct (Entries "CARGO_NAME" (PStr "Iron Ore") cargo_name)
      as [Written _]; [now left | reflexivity |].
    assert (E : stored_as VARCHAR (PStr "Iron Ore")
                = Ok (get_attribute_value relabelled_db cleared_instance
                        "CARGO_NAME")).
    { apply Written; [discriminate | now left]. }
    cbn [stored_as py_str] in E. congruence.
  - apply (Entries "HAZARDOUS" PNone hazardous);
      [right; now left | reflexivity | reflexivity].
  - apply Others. cbn. intuition discriminate.
Defined.

Lemma keys_of_a_submitted_form :
  NoDup (map fst [("HAZARDOUS", @PBool toy_runtime true)])
  /\ forall k,
       In k (map fst [("HAZARDOUS", @PBool toy_runtime true)]) ->
       exists field,
         In field [cargo_name_field; hazardous_field]
         /\ FormFieldConfiguration.is_visible field = true
         /\ AttributeDefinition.code
              (FormFieldConfiguration.attribute_definition field) = k.
Proof.
  apply (process_form_data_keys [cargo_name_field; hazardous_field]
           [("attr_CARGO_NAME", "   "); ("attr_HAZARDOUS", "on")]).
  reflexivity.
Defined.

Lemma blank_hazard_flag_is_cleared :
  In ("HAZARDOUS", PNone) [("HAZARDOUS", @PNone toy_runtime)]
  /\ get_attribute_value hazard_cleared_db cleared_instance "HAZARDOUS"
     = PNone.
Proof.
  apply (optional_blank_field_clears_on_edit cargo_db hazard_cleared_db
           [] [] hazardous_field [] [("HAZARDOUS", PNone)] 1 (Some "alice")
           cleared_instance hazardous cargo_db_attribute_keys
           cargo_db_unique); try reflexivity.
  intros f [].
Defined.

Lemma blank_required_name_is_kept :
  ~ In "CARGO_NAME" (map fst [("HAZARDOUS", @PNone toy_runtime)])
  /\ get_attribute_value hazard_cleared_db cleared_instance "CARGO_NAME"
     = get_attribute_value cargo_db cleared_instance "CARGO_NAME".
Proof.
  apply (required_blank_field_keeps_value_on_edit cargo_db hazard_cleared_db
           [] [hazardous_field] cargo_name_field
           [("attr_CARGO_NAME", "  ")] [("HAZARDOUS", PNone)] 1
           (Some "alice") cleared_instance cargo_db_attribute_keys);
    try reflexivity.
  intros f [<- | []]. discriminate.
Defined.

Lemma padded_name_is_read_back_trimmed :
  get_attribute_value named_db created_instance "CARGO_NAME"
  = PStr (PyStr.strip "  Iron Ore ").
Proof.
  apply (submitted_text_is_read_back_trimmed cargo_db named_db [] []
           cargo_name_field [("attr_CARGO_NAME", "  Iron Ore ")]
           [("CARGO_NAME", PStr "Iron Ore")] "  Iron Ore " 1 (Some "alice")
           created_instance cargo_db_attribute_keys cargo_db_unique);
    try reflexivity.
  intros f [].
Defined.

Lemma letters_for_a_tonnage_are_refused :
  (FormFieldConfiguration.is_required tonnage_field
   || AttributeDefinition.is_required tonnage = true ->
   process_form_data ([] ++ tonnage_field :: [hazardous_field])
     [("attr_TONNAGE", "abc")]
   = Raise (ValueError "Invalid value for Tonnage: abc"))
  /\ (FormFieldConfiguration.is_required tonnage_field
      || AttributeDefinition.is_required tonnage = false ->
      process_form_data ([] ++ tonnage_field :: [hazardous_field])
        [("attr_TONNAGE", "abc")]
      = process_fields [hazardous_field] [("attr_TONNAGE", "abc")]
          (dict_set [] "TONNAGE" PNone)).
Proof.
  apply (unconvertible_value_raises_or_becomes_none [] [hazardous_field]
           tonnage_field [("attr_TONNAGE", "abc")] "abc"
           (ValueError "invalid literal") []); reflexivity.
Defined.

Lemma read_in_small_letters_is_refused :
  check_user_permissions cargo_db 1 1 "read" = false.
Proof.
  apply (check_user_permissions_unknown_operation cargo_db 1 1 "read").
  cbn. intuition discriminate.
Defined.

Lemma has_permission_in_mixed_case :
  has_permission cargo_db (Some 1) 1 "Read"
  = check_user_permissions cargo_db 1 1 "READ"
  /\ has_permission cargo_db None 1 "Read" = false.
Proof.
  apply (has_permission_agrees_with_check cargo_db 1 1 "READ" "Read").
  - now left.
  - reflexivity.
Defined.

Lemma one_option_per_named_cargo :
  Permutation
    (map option_instance_id
       (get_dropdown_options dropdown_db 1 "CARGO_NAME" None false))
    (map EntityInstance.id
       (filter (fun instance =>
                  is_not_none
                    (get_attribute_value dropdown_db instance "CARGO_NAME"))
          (active_instances dropdown_db 1))).
Proof.
  apply (dropdown_options_one_per_instance dropdown_db 1 "CARGO_NAME" None
           cargo_master cargo_name); reflexivity.
Defined.

Lemma coal_option_is_labelled_coal :
  option_label (mkOption (PStr "Coal") (PStr "Coal") 1)
  = option_value (mkOption (PStr "Coal") (PStr "Coal") 1).
Proof.
  apply (dropdown_label_falls_back_on_value dropdown_db 1 "CARGO_NAME" None
           true cargo_name (mkOption (PStr "Coal") (PStr "Coal") 1)).
  - reflexivity.
  - left. reflexivity.
  - left. reflexivity.
Defined.

Lemma deleting_the_cargo_name_is_refused :
  delete_attribute cargo_db 1 1
  = ((JsonError "Cannot delete attribute. It has 1 data records.", 400),
     cargo_db)
  /\ 0 < count_rows (attribute_values_text cargo_db) 1.
Proof.
  apply (delete_attribute_refused_exactly_for_own_rows cargo_db 1 1
           cargo_name eq_refl).
  split; [reflexivity|].
  exists (AttributeValue.Build 1 1 "Coal"). split; [now left | reflexivity].
Defined.

Lemma deleting_the_hazard_flag_removes_it :
  (200 <> 200 -> hazard_deleted_db = cargo_db)
  /\ (200 = 200 ->
      (forall a, In a (attribute_definitions hazard_deleted_db)
                 <-> In a (attribute_definitions cargo_db)
                     /\ AttributeDefinition.id a <> 2)
      /\ (forall f, In f (form_field_configurations hazard_deleted_db)
                    <-> In f (form_field_configurations cargo_db)
                        /\ FormFieldConfiguration.attribute_definition_id f
                           <> 2)
      /\ same_values cargo_db hazard_deleted_db
      /\ entity_types hazard_deleted_db = entity_types cargo_db
      /\ entity_instances hazard_deleted_db = entity_instances cargo_db
      /\ users hazard_deleted_db = users cargo_db
      /\ user_roles hazard_deleted_db = user_roles cargo_db
      /\ entity_permissions hazard_deleted_db = entity_permissions cargo_db).
Proof.
  apply (delete_attribute_effects cargo_db hazard_deleted_db 1 2
           (JsonSuccess "Attribute deleted successfully") 200).
  reflexivity.
Defined.


Lemma viewer_user_gets_what_is_set :
  get_user_permissions (snd (update_permission viewer_db 10 read_only)) 2 1
  = mkPermissions true false false false
  /\ check_user_permissions
       (snd (update_permission viewer_db 10 read_only)) 2 1 "READ" = true
  /\ check_user_permissions
       (snd (update_permission viewer_db 10 read_only)) 2 1 "CREATE" = false
  /\ check_user_permissions
       (snd (update_permission viewer_db 10 read_only)) 2 1 "UPDATE" = false
  /\ check_user_permissions
       (snd (update_permission viewer_db 10 read_only)) 2 1 "DELETE" = false.
Proof.
  apply (update_permission_then_get_user_permissions viewer_db 2 10 1
           (User.Build 2 "bob") read_only cargo_db_permission_keys).
  - reflexivity.
  - exists (UserRole.Build 2 10). cbn. auto.
  - intros ur [<- | [<- | [<- | []]]] H; try discriminate H; reflexivity.
  - reflexivity.
Defined.

Lemma clerk_role_assigned_and_removed :
  exists db1,
    assign_role cargo_db 2 (Some 11)
    = (AcSuccess "Role assigned successfully", db1)
    /\ user_roles db1 = user_roles cargo_db ++ [UserRole.Build 2 11]
    /\ assign_role db1 2 (Some 11) = (AcRefused 400 "Role already assigned", db1)
    /\ remove_role db1 2 11 = (AcSuccess "Role removed successfully", cargo_db)
    /\ (unique_user_role cargo_db -> unique_user_role db1).
Proof.
  apply (assign_role_then_remove_role cargo_db 2 11). reflexivity.
Defined.

Lemma new_clerk_may_read :
  can_read (get_user_permissions clerk_db 2 1) = true
  /\ check_user_permissions clerk_db 2 1 "READ" = true.
Proof.
  apply (assign_role_grants cargo_db clerk_db 2 11 (User.Build 2 "bob")
           "Role assigned successfully" clerk_on_cargo);
    try reflexivity.
  right. now left.
Defined.

Lemma demoted_user_has_nothing :
  get_user_permissions demoted_db 1 1 = no_permissions
  /\ forall operation,
       check_user_permissions demoted_db 1 1 operation = false.
Proof.
  apply (remove_role_revokes cargo_db demoted_db 1 11 1
           "Role removed successfully" cargo_db_assignment_keys).
  - reflexivity.
  - intros p [<- | [<- | []]] _ H.
    + repeat split; reflexivity.
    + exfalso. apply H. reflexivity.
Defined.

Lemma created_store_keeps_the_constraints :
  attribute_ids_unique created_db
  /\ unique_instance_attribute created_db
  /\ typed_storage created_db.
Proof.
  destruct (writes_keep_schema_constraints cargo_db cargo_db_attribute_keys
              cargo_db_unique cargo_db_typed) as (_ & Create & _).
  exact (Create 1 iron_ore_values (Some "alice")).
Defined.

End Examples.
